(** * Vault Reconciliation Engine: a shallow embedding of the backend services

    The Python services of [backend/src] are embedded as functions over an
    explicit state: the service object ([self]), the outside world behind
    the two gateways (Starknet ledger, Extended exchange) and the list of
    gateway calls a run emits.  A Python float is the rational it denotes
    ([Q]).  Where a result depends on the rounding of binary64, in the bps
    test of the reporter, in the valuation of a withdrawal and in the
    conversion of an amount to raw units, the operation is the exact one
    followed by the rounding to the nearest float ([Float.round]); the
    other sums, differences and comparisons of amounts are exact. *)

From Stdlib Require Import ZArith QArith Qabs Qround Qpower.
From Stdlib Require Import List String Bool Lia Lqa.
Import ListNotations.

Set Implicit Arguments.

(** ** Binary64 arithmetic

    A finite float is a rational [m * 2^e] with [|m| < 2^53] and
    [e >= -1074].  [round] gives the float nearest to a rational, a tie
    going to the even significand, with gradual underflow below
    [2^-1022]; overflow to an infinity, beyond [1.8e308], is not
    modelled. *)

Module Float.

(** [floor(log2 x)] of a positive rational. *)
Definition ilog2 (x : Q) : Z :=
  let k := (Z.log2 (Qnum x) - Z.log2 (Z.pos (Qden x)))%Z in
  if Qle_bool (2 ^ k) x then k else (k - 1)%Z.

(** The integer nearest to [y], a tie going to the even one. *)
Definition nearest_even (y : Q) : Z :=
  let f := Qfloor y in
  match Qcompare (y - inject_Z f) (1 # 2) with
  | Lt => f
  | Gt => (f + 1)%Z
  | Eq => if Z.even f then f else (f + 1)%Z
  end.

(** The exponent of the unit in the last place of the float nearest to
    [x]: 53 bits of significand, and the exponent of the subnormals at
    the least. *)
Definition ulp_exponent (x : Q) : Z :=
  Z.max (ilog2 (Qabs x) - 52) (-1074).

Definition round (x : Q) : Q :=
  if Qeq_bool x 0 then 0
  else
    let e := ulp_exponent x in
    Qred (inject_Z (nearest_even (x / 2 ^ e)) * 2 ^ e).

(** [x - y], [x * y] and [x / y] on floats, and [float(n)] of an int. *)
Definition sub (x y : Q) : Q := round (x - y).
Definition mul (x y : Q) : Q := round (x * y).
Definition div (x y : Q) : Q := round (x / y).
Definition of_int (n : Z) : Q := round (inject_Z n).

(** [sys.float_info.epsilon]. *)
Definition epsilon : Q := 2 ^ (-52).

End Float.

Arguments Float.round : simpl never.
Arguments Float.sub : simpl never.
Arguments Float.mul : simpl never.
Arguments Float.div : simpl never.
Arguments Float.of_int : simpl never.
Arguments Float.epsilon : simpl never.

(** ** Python values *)

Module Py.

(** The result of awaiting a call that may raise. *)
Inductive outcome (A : Type) : Type :=
| Raised : outcome A
| Returned : A -> outcome A.
Arguments Raised {A}.
Arguments Returned {A} _.

(** [x <= y] and [x < y] on numbers, as booleans. *)
Definition leb (x y : Q) : bool := Qle_bool x y.
Definition ltb (x y : Q) : bool := negb (Qle_bool y x).

(** [int(x)]: truncation toward zero. *)
Definition int (x : Q) : Z := Z.quot (Qnum x) (Z.pos (Qden x)).

(** [x is not None], also the truth value of a transaction hash or of a
    result dict, which are never empty. *)
Definition truthy {A : Type} (o : option A) : bool :=
  match o with Some _ => true | None => false end.

(** [min(x, y)] and [max(x, y)]: the first argument wins a tie. *)
Definition min (x y : Q) : Q := if ltb y x then y else x.
Definition max (x y : Q) : Q := if ltb x y then y else x.

(** [int(usdc * 1e6)]: a settlement-asset amount at 6 decimals. *)
Definition usdc_raw (x : Q) : Z := int (Float.mul x 1000000).

End Py.
Export Py.

Arguments Py.leb : simpl never.
Arguments Py.ltb : simpl never.
Arguments Py.int : simpl never.
Arguments Py.usdc_raw : simpl never.
Arguments Py.min : simpl never.
Arguments Py.max : simpl never.

(** ** A Python dict keyed by request id

    Entries are kept in insertion order, which is the order
    [dict.items()] iterates in. *)

Module Dict.
Section Dict.
Variable V : Type.

Definition t : Type := list (nat * V).

Definition empty : t := [].

(** [d.get(k)]. *)
Fixpoint get (k : nat) (d : t) : option V :=
  match d with
  | [] => None
  | (k', v) :: rest => if Nat.eqb k k' then Some v else get k rest
  end.

(** [k in d]. *)
Definition mem (k : nat) (d : t) : bool := truthy (get k d).

(** [d[k] = v]: in place when the key exists, at the end otherwise. *)
Fixpoint set (k : nat) (v : V) (d : t) : t :=
  match d with
  | [] => [(k, v)]
  | (k', v') :: rest =>
      if Nat.eqb k k' then (k, v) :: rest
      else (k', v') :: set k v rest
  end.

(** [del d[k]]. *)
Definition del (k : nat) (d : t) : t :=
  filter (fun kv => negb (Nat.eqb k (fst kv))) d.

(** The number of entries under the key [k]. *)
Definition count (k : nat) (d : t) : nat :=
  List.length (filter (fun kv => Nat.eqb k (fst kv)) d).

End Dict.
End Dict.

(** ** Gateway data *)

(** [extended_client.Position], the fields the services read. *)
Record Position : Type := mkPosition {
  market : string;
  size : Q;
  value : Q;
  mark_price : Q;
  unrealised_pnl : Q
}.

(** [extended_client.Balance]. *)
Record Balance : Type := mkBalance {
  balance : Q;
  equity : Q;
  available_for_trade : Q;
  available_for_withdrawal : Q
}.

(** [config.Settings], the strategy settings the services read. *)
Record Settings : Type := mkSettings {
  leverage : Q;
  settings_market : string;
  funding_threshold_open : Q;
  funding_threshold_close : Q
}.

Definition default_settings : Settings :=
  mkSettings 2 "BTC-USD" 0.000001 (-0.000001).

(** ** Calls that leave the process *)

Inductive event : Type :=
| CallContract (fn : string) (calldata : list Z)
| InvokeContract (fn : string) (calldata : list Z)
| GetUsdcBalance
| GetVaultWbtcHeld
| SendUsdcToVault (amount : Q)
| DepositToExtended (amount : Q)
| GetAccountBalance
| GetBalance
| GetFundingRate
| GetPositions
| GetShortPosition
| GetMarkPrice
| OpenShortPosition (size_usd : Q)
| ClosePosition (close_size : option Q)
| WithdrawFromExtended (amount : Q)
| SaveState (pending_deposit pending_withdrawal_amount last_balance : Q)
| LogStartProcessing (request_id : nat).

(** The two gateways over a world [W].  [StarknetClient], [AutoDepositor]
    and the order and withdrawal calls of [ExtendedClient] catch their own
    errors and answer [None], [0] or [[]]; the read calls of
    [ExtendedClient] raise.  An order or withdrawal result is the [status]
    of the dict returned. *)
Record Gateways (W : Type) : Type := mkGateways {
  gw_call_contract : string -> list Z -> W -> list Z * W;
  gw_invoke_contract : string -> list Z -> W -> option Z * W;
  gw_get_usdc_balance : W -> Q * W;
  gw_get_vault_wbtc_held : W -> Q * W;
  gw_send_usdc_to_vault : Q -> W -> option Z * W;
  gw_deposit_to_extended : Q -> W -> option Z * W;
  gw_get_account_balance : W -> outcome (option Balance) * W;
  gw_get_balance : W -> option Balance * W;
  gw_get_funding_rate : W -> outcome Q * W;
  gw_get_positions : W -> outcome (list Position) * W;
  gw_get_short_position : W -> outcome (option Position) * W;
  gw_get_mark_price : W -> outcome Q * W;
  gw_open_short_position : Q -> W -> option string * W;
  gw_close_position : option Q -> W -> option string * W;
  gw_withdraw_from_extended : Q -> W -> option string * W;
  gw_now : W -> Z * W
}.

(** ** The monad of a service method

    A method runs on the service object [S] and the world [W]; it returns a
    value, the new object, the new world and the calls it made, in order. *)

Section Monad.
Variables W S : Type.

Record res (A : Type) : Type := mkRes {
  val : A;
  self : S;
  wld : W;
  evs : list event
}.

Definition M (A : Type) : Type := S -> W -> res A.

Definition ret {A : Type} (a : A) : M A :=
  fun s w => mkRes a s w [].

Definition bind {A B : Type} (m : M A) (f : A -> M B) : M B :=
  fun s w =>
    match m s w with
    | mkRes a s1 w1 e1 =>
        match f a s1 w1 with
        | mkRes b s2 w2 e2 => mkRes b s2 w2 (e1 ++ e2)
        end
    end.

Definition get_self : M S := fun s w => mkRes s s w [].

Definition set_self (f : S -> S) : M unit :=
  fun s w => mkRes tt (f s) w [].

Definition emit (e : event) : M unit :=
  fun s w => mkRes tt s w [e].

(** One gateway call: the world answers and moves, the call is recorded. *)
Definition gateway {A : Type} (e : event) (op : W -> A * W) : M A :=
  fun s w => let r := op w in mkRes (fst r) s (snd r) [e].

(** [for x in xs: body x]. *)
Fixpoint for_each {A : Type} (xs : list A) (body : A -> M unit) : M unit :=
  match xs with
  | [] => ret tt
  | x :: rest => bind (body x) (fun _ => for_each rest body)
  end.

(** [for x in xs: body x], where the body answers [true] to [break]. *)
Fixpoint for_each_break {A : Type} (xs : list A) (body : A -> M bool)
  : M unit :=
  match xs with
  | [] => ret tt
  | x :: rest =>
      bind (body x) (fun stop =>
        if stop then ret tt else for_each_break rest body)
  end.

End Monad.

Arguments ret {W S A} _ _ _.
Arguments get_self {W S} _ _.
Arguments set_self {W S} _ _ _.
Arguments emit {W S} _ _ _.
Arguments gateway {W S A} _ _ _ _.

Declare Scope py_scope.
Delimit Scope py_scope with py.
Notation "x <- m ;; k" := (bind m (fun x => k))
  (at level 100, m at next level, right associativity) : py_scope.
Notation "m ;;; k" := (bind m (fun _ => k))
  (at level 100, right associativity) : py_scope.

(** A call that may raise, outside any [try]: the exception propagates. *)
Definition bind_raise {W S A B : Type} (m : M W S (outcome A))
  (f : A -> M W S (outcome B)) : M W S (outcome B) :=
  bind m (fun x =>
    match x with
    | Raised => ret Raised
    | Returned a => f a
    end).

Notation "x <-! m ;; k" := (bind_raise m (fun x => k))
  (at level 100, m at next level, right associativity) : py_scope.
Open Scope py_scope.

(** ** services/nav_reporter.py *)

Module NAVReporter.

Record t : Type := mk {
  running : bool;
  update_interval : Z;
  last_update : option Z;
  last_nav : Q;
  max_change_bps : Q
}.

(** [__init__]. *)
Definition init : t := mk false 3600 None 0 500.

Definition set_reported (nav : Q) (now : Z) (r : t) : t :=
  mk (running r) (update_interval r) (Some now) nav (max_change_bps r).

(** [_is_safe_update]. *)
Definition _is_safe_update (r : t) (new_nav : Q) : bool :=
  if leb (last_nav r) 0 then true
  else
    let change_bps :=
      Float.div (Float.mul (Qabs (Float.sub new_nav (last_nav r))) 10000)
        (last_nav r) in
    leb change_bps (max_change_bps r).
Arguments _is_safe_update : simpl never.

Section Methods.
Variable W : Type.
Variable gw : Gateways W.

(** [_get_extended_equity]: 0 when the balance is missing or the call
    raises.  The reporter calls [extended.get_account_balance()]; the
    [ExtendedClient] of this repository defines [get_balance] only, so
    there the call raises. *)
Definition _get_extended_equity : M W t Q :=
  b <- gateway GetAccountBalance (gw_get_account_balance gw) ;;
  match b with
  | Returned (Some bal) => ret (equity bal)
  | Returned None => ret 0
  | Raised => ret 0
  end.

(** [_update_vault_nav]. *)
Definition _update_vault_nav (nav : Q) : M W t bool :=
  let nav_raw := usdc_raw nav in
  result <- gateway (InvokeContract "update_nav" [nav_raw])
                    (gw_invoke_contract gw "update_nav" [nav_raw]) ;;
  ret (truthy result).

(** [datetime.now()]. *)
Definition now : M W t Z :=
  fun s w => let r := gw_now gw w in mkRes (fst r) s (snd r) [].

(** [_report_nav]. *)
Definition _report_nav : M W t unit :=
  equity <- _get_extended_equity ;;
  if leb equity 0 then ret tt
  else
    r <- get_self ;;
    if negb (_is_safe_update r equity) then ret tt
    else
      success <- _update_vault_nav equity ;;
      if success : bool then
        time <- now ;;
        set_self (set_reported equity time)
      else ret tt.

(** [force_update]. *)
Definition force_update (nav : option Q) : M W t bool :=
  nav <- match nav with
         | None => _get_extended_equity
         | Some n => ret n
         end ;;
  if leb nav 0 then ret false
  else
    success <- _update_vault_nav nav ;;
    (if success : bool then
       time <- now ;;
       set_self (set_reported nav time)
     else ret tt) ;;;
    ret success.

(** [_time_to_next_update]; the clock counts microseconds, the resolution
    of [datetime], and [update_interval] seconds. *)
Definition _time_to_next_update : M W t Z :=
  r <- get_self ;;
  match last_update r with
  | None => ret 0%Z
  | Some last =>
      time <- now ;;
      let next_update := (last + update_interval r * 1000000)%Z in
      let remaining := inject_Z (next_update - time) / 1000000 in
      ret (Z.max 0 (Py.int remaining))
  end.

(** What reaches the reporter: a scheduled report or a forced update. *)
Inductive op : Type :=
| Report
| Force (nav : option Q).

Definition run_op (o : op) : M W t unit :=
  match o with
  | Report => _report_nav
  | Force nav => _ <- force_update nav ;; ret tt
  end.

End Methods.
End NAVReporter.

(** ** strategy.py *)

Module Strategy.

Record StrategyState : Type := mkState {
  funding_rate : Q;
  has_position : bool;
  position_size : Q;
  position_value : Q;
  unrealized_pnl : Q;
  state_balance : Q;
  state_equity : Q;
  estimated_apy : Q;
  wbtc_held : Q;
  wbtc_value_usd : Q;
  total_nav : Q;
  delta : Q
}.

(** The dict [execute_strategy] returns; [status] is the order's status,
    or [FAILED] when the order call answered [None]. *)
Inductive action : Type :=
| REBALANCE_SHORT_UP (adjustment delta_before : Q) (status : string)
| REBALANCE_SHORT_DOWN (adjustment btc_closed delta_before : Q)
    (status : string)
| OPEN_SHORT (size_usd : Q) (status : string)
| CLOSE_POSITION (closed_size : Q) (status : string)
| HOLD.

Definition status_of (result : option string) : string :=
  match result with
  | Some st => st
  | None => "FAILED"
  end.

Section Methods.
Variables W S : Type.
Variable gw : Gateways W.
Variable settings : Settings.

(** [_calculate_apy]. *)
Definition _calculate_apy (rate : Q) : Q :=
  rate * 24 * 365 * leverage settings * 100.

(** [should_open_position]. *)
Definition should_open_position (rate : Q) (has : bool) : bool :=
  if has then false else ltb (funding_threshold_open settings) rate.

(** [should_close_position]. *)
Definition should_close_position (rate : Q) (has : bool) : bool :=
  if negb has then false else ltb rate (funding_threshold_close settings).

(** [calculate_position_size]. *)
Definition calculate_position_size (available_balance : Q) : Q :=
  let usable_balance := available_balance * 0.9 in
  usable_balance * leverage settings.

(** [get_state]: any exception is logged and raised again. *)
Definition get_state : M W S (outcome StrategyState) :=
  rate <-! gateway GetFundingRate (gw_get_funding_rate gw) ;;
  position <-! gateway GetShortPosition (gw_get_short_position gw) ;;
  bal <- gateway GetBalance (gw_get_balance gw) ;;
  btc_price <-! gateway GetMarkPrice (gw_get_mark_price gw) ;;
  held <- gateway GetVaultWbtcHeld (gw_get_vault_wbtc_held gw) ;;
  let wbtc_value := held * btc_price in
  let extended_equity :=
    match bal with Some b => equity b | None => 0 end in
  let nav := wbtc_value + extended_equity in
  let long_exposure := wbtc_value in
  let short_exposure :=
    match position with Some p => value p | None => 0 end in
  let d :=
    if ltb 0 nav then (long_exposure - short_exposure) / nav else 0 in
  ret (Returned
    (mkState rate (truthy position)
       match position with Some p => size p | None => 0 end
       match position with Some p => value p | None => 0 end
       match position with Some p => unrealised_pnl p | None => 0 end
       match bal with Some b => balance b | None => 0 end
       extended_equity (_calculate_apy rate) held wbtc_value nav d)).

Definition DELTA_THRESHOLD : Q := 0.05.

(** The tail of [execute_strategy]: open, close or hold. *)
Definition open_close_or_hold (state : StrategyState)
  : M W S (outcome action) :=
  if should_open_position (funding_rate state) (has_position state)
  then
    let position_size :=
      if ltb 0 (wbtc_value_usd state) then wbtc_value_usd state
      else calculate_position_size (state_equity state) in
    result <- gateway (OpenShortPosition position_size)
                (gw_open_short_position gw position_size) ;;
    ret (Returned (OPEN_SHORT position_size (status_of result)))
  else if should_close_position (funding_rate state)
            (has_position state)
  then
    result <- gateway (ClosePosition None)
                (gw_close_position gw None) ;;
    ret (Returned (CLOSE_POSITION (position_size state)
                     (status_of result)))
  else ret (Returned HOLD).

(** The body of [execute_strategy] once the state is read. *)
Definition act_on (state : StrategyState) : M W S (outcome action) :=
  if ltb DELTA_THRESHOLD (Qabs (delta state))
     && ltb 0 (wbtc_value_usd state)
  then
    let adjustment := wbtc_value_usd state - position_value state in
    if ltb 10 adjustment then
      result <- gateway (OpenShortPosition adjustment)
                  (gw_open_short_position gw adjustment) ;;
      ret (Returned (REBALANCE_SHORT_UP adjustment (delta state)
                       (status_of result)))
    else if ltb adjustment (-10) then
      btc_price <-! gateway GetMarkPrice (gw_get_mark_price gw) ;;
      if Qeq_bool btc_price 0 then ret Raised
      else
        let btc_to_close := Qabs adjustment / btc_price in
        result <- gateway (ClosePosition (Some btc_to_close))
                    (gw_close_position gw (Some btc_to_close)) ;;
        ret (Returned (REBALANCE_SHORT_DOWN adjustment btc_to_close
                         (delta state) (status_of result)))
    else open_close_or_hold state
  else open_close_or_hold state.

(** [execute_strategy]. *)
Definition execute_strategy : M W S (outcome action) :=
  state <-! get_state ;;
  act_on state.

End Methods.
End Strategy.

(** ** services/position_manager.py *)

Module PositionManager.

Record t : Type := mk {
  running : bool;
  check_interval : Z;
  rebalance_threshold : Q;
  negative_funding_threshold : Q;
  last_rebalance : option Z;
  position_closed_due_to_funding : bool
}.

(** [__init__]. *)
Definition init : t := mk false 60 0.05 (-0.0001) None false.

Definition set_closed_due_to_funding (b : bool) (m : t) : t :=
  mk (running m) (check_interval m) (rebalance_threshold m)
    (negative_funding_threshold m) (last_rebalance m) b.

Section Methods.
Variable W : Type.
Variable gw : Gateways W.

(** [_close_all_positions]: the result of the order is dropped. *)
Definition _close_all_positions : M W t unit :=
  _ <- gateway (ClosePosition None) (gw_close_position gw None) ;;
  ret tt.

(** [_check_funding_rate]: a raised error is logged and dropped. *)
Definition _check_funding_rate : M W t unit :=
  rate <- gateway GetFundingRate (gw_get_funding_rate gw) ;;
  match rate with
  | Raised => ret tt
  | Returned funding_rate =>
      m <- get_self ;;
      if ltb funding_rate (negative_funding_threshold m) then
        if negb (position_closed_due_to_funding m) then
          _close_all_positions ;;;
          set_self (set_closed_due_to_funding true)
        else ret tt
      else
        if position_closed_due_to_funding m then
          set_self (set_closed_due_to_funding false)
        else ret tt
  end.

End Methods.

(** [PositionHealth]. *)
Record PositionHealth : Type := mkHealth {
  health_size : Q;
  entry_price : Q;
  health_mark_price : Q;
  margin_ratio : Q;
  unrealized_pnl : Q;
  health_funding_rate : Q;
  is_healthy : bool
}.


Section Rebalance.
Variable W : Type.
Variable gw : Gateways W.
Variable settings : Settings.



(** [get_position_health].  [extended_client.Position] has no attribute
    [entry_price]: building the [PositionHealth] of a position raises,
    and the error is caught like the one of a failed read; every path
    answers [None]. *)
Definition get_position_health : M W t (option PositionHealth) :=
  positions <- gateway GetPositions (gw_get_positions gw) ;;
  match positions with
  | Raised => ret None
  | Returned [] => ret None
  | Returned ps =>
      match find (fun p => String.eqb (market p)
                             (settings_market settings)) ps with
      | None => ret None
      | Some btc_pos =>
          _ <- gateway GetFundingRate (gw_get_funding_rate gw) ;;
          ret None
      end
  end.

(** [_check_position_health]: the health is only logged. *)
Definition _check_position_health : M W t unit :=
  _ <- get_position_health ;;
  ret tt.

(** One iteration of the loop of [start]. *)
Definition tick : M W t unit :=
  _check_position_health ;;;
  _check_funding_rate gw.

Fixpoint ticks (n : nat) : M W t unit :=
  match n with
  | O => ret tt
  | S k => tick ;;; ticks k
  end.

End Rebalance.
End PositionManager.

(** ** starknet_client.py: VaultMonitor *)

Module VaultMonitor.

Record t : Type := mk {
  last_balance : Q;
  pending_deposit : Q;
  pending_withdrawal_amount : Q;
  running : bool
}.

(** [__init__] when no state file exists. *)
Definition init : t := mk 0 0 0 false.

Definition set_last_balance (x : Q) (m : t) : t :=
  mk x (pending_deposit m) (pending_withdrawal_amount m) (running m).
Definition set_pending_deposit (x : Q) (m : t) : t :=
  mk (last_balance m) x (pending_withdrawal_amount m) (running m).
Definition set_pending_withdrawal_amount (x : Q) (m : t) : t :=
  mk (last_balance m) (pending_deposit m) x (running m).

Section Methods.
Variable W : Type.
Variable gw : Gateways W.
Variable settings : Settings.

(** [_save_state]: the three amounts go to the state file. *)
Definition _save_state : M W t unit :=
  m <- get_self ;;
  emit (SaveState (pending_deposit m) (pending_withdrawal_amount m)
          (last_balance m)).

(** [expect_withdrawal]. *)
Definition expect_withdrawal (amount : Q) : M W t unit :=
  set_self (fun m =>
    set_pending_withdrawal_amount (pending_withdrawal_amount m + amount)
      m) ;;;
  _save_state.

(** The first block of [check_for_balance_changes]: funds in the wallet
    while a withdrawal is expected are forwarded; [Some] is the early
    [return]. *)
Definition forward_available (current_balance : Q) : M W t (option Q) :=
  m <- get_self ;;
  if ltb 0 (pending_withdrawal_amount m) && ltb 0.1 current_balance
  then
    let amount_to_forward :=
      Py.min current_balance (pending_withdrawal_amount m) in
    tx_hash <- gateway (SendUsdcToVault amount_to_forward)
                 (gw_send_usdc_to_vault gw amount_to_forward) ;;
    if truthy tx_hash then
      set_self (fun m =>
        set_pending_withdrawal_amount
          (pending_withdrawal_amount m - amount_to_forward) m) ;;;
      set_self (set_last_balance
                  (Py.max 0 (current_balance - amount_to_forward))) ;;;
      _save_state ;;;
      ret (Some amount_to_forward)
    else ret None
  else ret None.

(** The second block: an increase is matched against the expected
    withdrawal, the rest is a new deposit. *)
Definition classify_increase (current_balance : Q) : M W t Q :=
  m <- get_self ;;
  let increase := current_balance - last_balance m in
  increase <-
    (if ltb 0 (pending_withdrawal_amount m) then
       let withdrawal_match :=
         Py.min increase (pending_withdrawal_amount m) in
       tx_hash <- gateway (SendUsdcToVault withdrawal_match)
                    (gw_send_usdc_to_vault gw withdrawal_match) ;;
       if truthy tx_hash then
         set_self (fun m =>
           set_pending_withdrawal_amount
             (pending_withdrawal_amount m - withdrawal_match) m) ;;;
         ret (increase - withdrawal_match)
       else ret increase
     else ret increase) ;;
  (if ltb 0.1 increase then
     set_self (fun m =>
       set_pending_deposit (pending_deposit m + increase) m)
   else ret tt) ;;;
  set_self (set_last_balance current_balance) ;;;
  _save_state ;;;
  ret increase.

(** [check_for_balance_changes]. *)
Definition check_for_balance_changes : M W t Q :=
  current_balance <- gateway GetUsdcBalance (gw_get_usdc_balance gw) ;;
  forwarded <- forward_available current_balance ;;
  match forwarded with
  | Some amount => ret amount
  | None =>
      m <- get_self ;;
      if ltb (last_balance m) current_balance then
        classify_increase current_balance
      else
        set_self (set_last_balance current_balance) ;;;
        ret 0
  end.

(** [auto_deposit_if_pending]; an error of the strategy pass is printed
    and dropped. *)
Definition auto_deposit_if_pending : M W t (option Z) :=
  m <- get_self ;;
  if leb 1 (pending_deposit m) then
    tx_hash <- gateway (DepositToExtended (pending_deposit m))
                 (gw_deposit_to_extended gw (pending_deposit m)) ;;
    (if truthy tx_hash then
       set_self (set_pending_deposit 0) ;;;
       _ <- Strategy.execute_strategy gw settings ;;
       ret tt
     else ret tt) ;;;
    ret tx_hash
  else ret None.

(** What reaches the monitor: a poll of the wallet, an expected
    withdrawal registered by the exchange client, a deposit pass. *)
Inductive op : Type :=
| Check
| Expect (amount : Q)
| AutoDeposit.

Definition run_op (o : op) : M W t unit :=
  match o with
  | Check => _ <- check_for_balance_changes ;; ret tt
  | Expect amount => expect_withdrawal amount
  | AutoDeposit => _ <- auto_deposit_if_pending ;; ret tt
  end.

(** The increase of the wallet a poll observes: the new reading over
    the last observed balance, when it is higher. *)
Definition observed_increase (m : t) (w : W) : Q :=
  let current_balance := fst (gw_get_usdc_balance gw w) in
  if ltb (last_balance m) current_balance
  then current_balance - last_balance m else 0.

(** The inflow observed and the withdrawals registered so far. *)
Record tally : Type := mkTally {
  total_inflow : Q;
  total_expected : Q
}.

Definition count_op (o : op) (m : t) (w : W) (c : tally) : tally :=
  match o with
  | Check => mkTally (total_inflow c + observed_increase m w)
               (total_expected c)
  | Expect amount => mkTally (total_inflow c)
                       (total_expected c + amount)
  | AutoDeposit => c
  end.

(** The monitor after a sequence of operations, with the tally. *)
Fixpoint run_ops (ops : list op) (m : t) (w : W) (c : tally)
  : t * W * tally :=
  match ops with
  | [] => (m, w, c)
  | o :: rest =>
      let r := run_op o m w in
      run_ops rest (self r) (wld r) (count_op o m w c)
  end.

(** [run_monitor] before its loop: the first reading is the baseline. *)
Definition run_monitor_start : M W t unit :=
  set_self (fun m => mk (last_balance m) (pending_deposit m)
                       (pending_withdrawal_amount m) true) ;;;
  initial <- gateway GetUsdcBalance (gw_get_usdc_balance gw) ;;
  set_self (set_last_balance initial).

(** One iteration of the loop of [run_monitor]. *)
Definition run_monitor_iteration (auto_process : bool) : M W t unit :=
  _ <- check_for_balance_changes ;;
  if auto_process then
    m <- get_self ;;
    (if leb 1 (pending_deposit m) then
       _ <- auto_deposit_if_pending ;;
       ret tt
     else ret tt) ;;;
    _save_state
  else ret tt.

End Methods.

(** The invariant of the classification: deposits are covered by the
    inflow observed, expected withdrawals by the amounts registered. *)
Definition covered (m : t) (c : tally) : Prop :=
  0 <= total_inflow c /\
  pending_deposit m <= total_inflow c /\
  pending_withdrawal_amount m <= total_expected c.

End VaultMonitor.

(** ** services/deposit_processor.py *)

Module DepositProcessor.

(** [DepositQueueItem]; [user] and [receiver] are kept as the felts read,
    [hex(0)] being the sentinel ["0x0"]. *)
Record DepositQueueItem : Type := mkItem {
  request_id : nat;
  user : Z;
  receiver : Z;
  usdc_amount : Q;
  min_shares : Z;
  timestamp : Z;
  processed : bool
}.

Record t : Type := mk {
  running : bool;
  last_processed_id : Z;
  processing_interval : Z
}.

(** [__init__]. *)
Definition init : t := mk false 0 30.

Definition MAX_DEPOSITS : nat := 100.

(** The struct of [get_pending_deposit]: user, receiver, amount (low,
    high), min_shares (low, high), timestamp, processed.  An empty or
    short answer gives [None]. *)
Definition parse_deposit (request_id : nat) (result : list Z)
  : option DepositQueueItem :=
  match result with
  | r0 :: r1 :: r2 :: r3 :: r4 :: r5 :: r6 :: r7 :: _ =>
      let usdc_amount_raw := (r2 + Z.shiftl r3 128)%Z in
      let min_shares_raw := (r4 + Z.shiftl r5 128)%Z in
      Some (mkItem request_id r0 r1
              (inject_Z usdc_amount_raw / 1000000)
              min_shares_raw r6 (negb (r7 =? 0)%Z))
  | _ => None
  end.

Section Methods.
Variable W : Type.
Variable gw : Gateways W.
Variable settings : Settings.

(** [_get_pending_deposit]. *)
Definition _get_pending_deposit (request_id : nat)
  : M W t (option DepositQueueItem) :=
  result <- gateway
              (CallContract "get_pending_deposit" [Z.of_nat request_id])
              (gw_call_contract gw "get_pending_deposit"
                 [Z.of_nat request_id]) ;;
  ret (parse_deposit request_id result).

(** [_process_single_deposit]. *)
Definition _process_single_deposit (deposit : DepositQueueItem)
  : M W t bool :=
  process_result <- gateway (InvokeContract "process_deposits" [1%Z])
                      (gw_invoke_contract gw "process_deposits" [1%Z]) ;;
  if negb (truthy process_result) then ret false
  else
    let actual_usdc := usdc_amount deposit / 2 in
    _ <- gateway GetUsdcBalance (gw_get_usdc_balance gw) ;;
    _ <- gateway (DepositToExtended actual_usdc)
           (gw_deposit_to_extended gw actual_usdc) ;;
    _ <- gateway (OpenShortPosition (actual_usdc * leverage settings))
           (gw_open_short_position gw
              (actual_usdc * leverage settings)) ;;
    ret true.

(** The body of the scan for one id; [true] is the [break]. *)
Definition scan_deposit (request_id : nat) : M W t bool :=
  deposit <- _get_pending_deposit request_id ;;
  match deposit with
  | None => ret false
  | Some d =>
      if (user d =? 0)%Z then ret true
      else if processed d then ret false
      else if leb (usdc_amount d) 0.01 then ret false
      else
        _ <- _process_single_deposit d ;;
        ret false
  end.

(** [_process_pending_deposits]. *)
Definition _process_pending_deposits : M W t unit :=
  for_each_break (seq 0 MAX_DEPOSITS) scan_deposit.

(** The queue entry the ledger shows for an id in the world [w]. *)
Definition deposit_view (w : W) (request_id : nat)
  : option DepositQueueItem :=
  parse_deposit request_id
    (fst (gw_call_contract gw "get_pending_deposit"
            [Z.of_nat request_id] w)).

(** Every live entry of the queue is marked processed on-chain. *)
Definition settled (w : W) : Prop :=
  forall request_id d,
    deposit_view w request_id = Some d ->
    user d <> 0%Z -> processed d = true.

(** Reading the queue does not change what the queue shows. *)
Definition reads_keep_settled : Prop :=
  forall request_id w,
    settled w ->
    settled (snd (gw_call_contract gw "get_pending_deposit"
                    [Z.of_nat request_id] w)).

End Methods.
End DepositProcessor.

(** ** services/withdrawal_processor.py *)

Module WithdrawalProcessor.

Inductive WithdrawalStatus : Type :=
| PENDING | PROCESSING | READY | COMPLETED | CANCELLED.

(** [WithdrawalStatus(n)]; a value outside the enum raises. *)
Definition status_of_int (n : Z) : option WithdrawalStatus :=
  match n with
  | 0%Z => Some PENDING
  | 1%Z => Some PROCESSING
  | 2%Z => Some READY
  | 3%Z => Some COMPLETED
  | 4%Z => Some CANCELLED
  | _ => None
  end.

Record WithdrawalQueueItem : Type := mkItem {
  request_id : nat;
  user : Z;
  shares : Z;
  min_assets : Z;
  usdc_value : Q;
  timestamp : Z;
  status : WithdrawalStatus
}.

Inductive step : Type := closing_position | waiting_usdc.

(** A value of [processing_withdrawals]. *)
Record entry : Type := mkEntry {
  data_user : Z;
  data_shares : Z;
  data_usdc_value : Q;
  data_started_at : Z;
  data_step : step
}.

Definition set_step (st : step) (e : entry) : entry :=
  mkEntry (data_user e) (data_shares e) (data_usdc_value e)
    (data_started_at e) st.

Record t : Type := mk {
  running : bool;
  processing_interval : Z;
  processing_withdrawals : Dict.t entry
}.

(** [__init__]. *)
Definition init : t := mk false 30 (Dict.empty entry).

Definition update_processing (f : Dict.t entry -> Dict.t entry) (p : t)
  : t :=
  mk (running p) (processing_interval p) (f (processing_withdrawals p)).

(** The struct of [get_pending_withdrawal]: user, shares, min_assets and
    usdc_value (low, high each), timestamp, status.  An empty or short
    answer, or a status outside the enum, gives [None]. *)
Definition parse_withdrawal (request_id : nat) (result : list Z)
  : option WithdrawalQueueItem :=
  match result with
  | r0 :: r1 :: r2 :: r3 :: r4 :: r5 :: r6 :: r7 :: r8 :: _ =>
      let shares := (r1 + Z.shiftl r2 128)%Z in
      let min_assets := (r3 + Z.shiftl r4 128)%Z in
      let usdc_value := (r5 + Z.shiftl r6 128)%Z in
      match status_of_int r8 with
      | Some st =>
          Some (mkItem request_id r0 shares min_assets
                  (inject_Z usdc_value / 1000000) r7 st)
      | None => None
      end
  | _ => None
  end.

Section Methods.
Variable W : Type.
Variable gw : Gateways W.
Variable settings : Settings.

(** [datetime.now()]. *)
Definition now : M W t Z :=
  fun s w => let r := gw_now gw w in mkRes (fst r) s (snd r) [].

(** [_get_withdrawal_queue_length]. *)
Definition _get_withdrawal_queue_length : M W t Z :=
  result <- gateway (CallContract "get_withdrawal_queue_length" [])
              (gw_call_contract gw "get_withdrawal_queue_length" []) ;;
  ret match result with
      | [] => 0%Z
      | r :: _ => r
      end.

(** [_get_pending_withdrawal]. *)
Definition _get_pending_withdrawal (request_id : nat)
  : M W t (option WithdrawalQueueItem) :=
  result <- gateway
              (CallContract "get_pending_withdrawal"
                 [Z.of_nat request_id])
              (gw_call_contract gw "get_pending_withdrawal"
                 [Z.of_nat request_id]) ;;
  ret (parse_withdrawal request_id result).

(** [_calculate_usdc_value]: [float(result[0]) / 1e6]. *)
Definition _calculate_usdc_value (shares : Z) : M W t Q :=
  result <- gateway (CallContract "preview_redeem" [shares])
              (gw_call_contract gw "preview_redeem" [shares]) ;;
  ret match result with
      | [] => 0
      | r :: _ => Float.div (Float.of_int r) 1000000
      end.

(** [_close_proportional_position]: [false] when reading the positions
    raises. *)
Definition _close_proportional_position (usdc_amount : Q) : M W t bool :=
  positions <- gateway GetPositions (gw_get_positions gw) ;;
  match positions with
  | Raised => ret false
  | Returned [] => ret true
  | Returned ps =>
      match find (fun p => String.eqb (market p)
                             (settings_market settings)) ps with
      | None => ret true
      | Some btc_position =>
          let close_size := usdc_amount * leverage settings in
          (if ltb close_size (Qabs (size btc_position)) then
             gateway (ClosePosition (Some close_size))
               (gw_close_position gw (Some close_size))
           else
             gateway (ClosePosition None) (gw_close_position gw None)) ;;;
          ret true
      end
  end.

(** [_start_processing], the tracked entry and step 1: the entry is
    stored under the request id, then the position is closed; a failed
    close is logged and the processing continues. *)
Definition open_entry (withdrawal : WithdrawalQueueItem)
  (extended_usdc : Q) : M W t unit :=
  time <- now ;;
  set_self (update_processing
              (Dict.set (request_id withdrawal)
                 (mkEntry (user withdrawal) (shares withdrawal)
                    extended_usdc time closing_position))) ;;;
  _ <- _close_proportional_position extended_usdc ;;
  ret tt.

(** [_start_processing], step 2: the withdrawal from the exchange. *)
Definition request_withdrawal (id : nat) (extended_usdc : Q)
  : M W t unit :=
  withdrawal_requested <-
    gateway (WithdrawFromExtended extended_usdc)
      (gw_withdraw_from_extended gw extended_usdc) ;;
  if truthy withdrawal_requested then
    set_self (update_processing (fun d =>
      match Dict.get id d with
      | Some e => Dict.set id (set_step waiting_usdc e) d
      | None => d
      end))
  else
    set_self (update_processing (Dict.del id)).

(** [_start_processing].  No call of the body raises, the gateways
    catch their own errors: the [except] branch is not reached. *)
Definition _start_processing (withdrawal : WithdrawalQueueItem)
  : M W t unit :=
  emit (LogStartProcessing (request_id withdrawal)) ;;;
  usdc_value <- _calculate_usdc_value (shares withdrawal) ;;
  if leb usdc_value 0 then ret tt
  else
    let extended_usdc := usdc_value / 2 in
    open_entry withdrawal extended_usdc ;;;
    request_withdrawal (request_id withdrawal) extended_usdc.

(** The body of the scan for one id. *)
Definition scan_withdrawal (request_id : nat) : M W t unit :=
  withdrawal <- _get_pending_withdrawal request_id ;;
  match withdrawal with
  | Some item =>
      match status item with
      | PENDING =>
          p <- get_self ;;
          if negb (Dict.mem request_id (processing_withdrawals p))
          then _start_processing item
          else ret tt
      | _ => ret tt
      end
  | None => ret tt
  end.

(** [_process_pending_withdrawals]. *)
Definition _process_pending_withdrawals : M W t unit :=
  queue_length <- _get_withdrawal_queue_length ;;
  if (queue_length =? 0)%Z then ret tt
  else for_each (seq 0 (Z.to_nat queue_length)) scan_withdrawal.

(** [_complete_processing]. *)
Definition _complete_processing (request_id : nat) (data : entry)
  : M W t bool :=
  forward_success <-
    gateway (SendUsdcToVault (data_usdc_value data))
      (gw_send_usdc_to_vault gw (data_usdc_value data)) ;;
  if negb (truthy forward_success) then ret false
  else
    let usdc_amount_raw := usdc_raw (data_usdc_value data) in
    result <-
      gateway (InvokeContract "mark_withdrawal_ready"
                 [Z.of_nat request_id; usdc_amount_raw])
        (gw_invoke_contract gw "mark_withdrawal_ready"
           [Z.of_nat request_id; usdc_amount_raw]) ;;
    ret (truthy result).

(** The body of the loop of [_check_processing_withdrawals]; [true]
    when the id joins [completed]. *)
Definition check_entry (request_id : nat) (data : entry) : M W t bool :=
  match data_step data with
  | waiting_usdc =>
      usdc_balance <- gateway GetUsdcBalance (gw_get_usdc_balance gw) ;;
      if leb (data_usdc_value data) usdc_balance
      then _complete_processing request_id data
      else ret false
  | closing_position => ret false
  end.

Fixpoint check_entries (items : list (nat * entry)) : M W t (list nat) :=
  match items with
  | [] => ret []
  | (request_id, data) :: rest =>
      success <- check_entry request_id data ;;
      completed <- check_entries rest ;;
      ret (if success : bool then request_id :: completed
           else completed)
  end.

(** [_check_processing_withdrawals]. *)
Definition _check_processing_withdrawals : M W t unit :=
  p <- get_self ;;
  completed <- check_entries (processing_withdrawals p) ;;
  set_self (update_processing (fun d =>
    fold_left (fun d request_id => Dict.del request_id d)
      completed d)).

(** One iteration of the loop of [start]. *)
Definition tick : M W t unit :=
  _process_pending_withdrawals ;;;
  _check_processing_withdrawals.

Fixpoint ticks (n : nat) : M W t unit :=
  match n with
  | O => ret tt
  | S k => tick ;;; ticks k
  end.

End Methods.
End WithdrawalProcessor.

(** ** starknet_client.py: calldata of a contract call *)

Module StarknetClient.

(** The limbs of a [u256]: [value & ((1 << 128) - 1)] and
    [value >> 128]. *)
Definition low (value : Z) : Z := Z.land value (Z.shiftl 1 128 - 1).
Definition high (value : Z) : Z := Z.shiftr value 128.

(** [_serialize_u256], before the limbs are written in hexadecimal. *)
Definition _serialize_u256 (value : Z) : list Z := [low value; high value].

(** The value the queue readers rebuild from two felts:
    [low + (high << 128)]. *)
Definition u256_value (lo hi : Z) : Z := (lo + Z.shiftl hi 128)%Z.

(** The calldata loop of [invoke_contract] and [call_contract]: the
    positions listed in [u256_indices] become two felts. *)
Fixpoint serialize_from (i : nat) (calldata : list Z)
  (u256_indices : list nat) : list Z :=
  match calldata with
  | [] => []
  | c :: rest =>
      (if existsb (Nat.eqb i) u256_indices then _serialize_u256 c else [c])
      ++ serialize_from (S i) rest u256_indices
  end.

Definition serialize_calldata (calldata : list Z) (u256_indices : list nat)
  : list Z :=
  serialize_from 0 calldata u256_indices.

End StarknetClient.

(** ** starknet_client.py: AutoDepositor *)

Module AutoDepositor.

Record t : Type := mk {
  last_balance : Q;
  min_deposit_amount : Q
}.

(** [__init__]. *)
Definition init : t := mk 0 1.


Section Methods.
Variable W : Type.
Variable gw : Gateways W.


End Methods.
End AutoDepositor.

(** ** extended_client.py: prepare_vault_withdrawal *)

Module ExtendedClient.

(** The answer of [prepare_vault_withdrawal]: the dict of status
    ["pending"] with its amount, or a dict of status ["error"]. *)
Inductive prepared : Type :=
| Pending (amount_usdc : Q)
| Error.

Section Methods.
Variable W : Type.
Variable gw : Gateways W.
Variable settings : Settings.

(** The two views of the vault [StarknetClient] reads by selector,
    [get_total_usdc_deposited] and [total_supply]; both answer 0 on an
    error. *)
Variable gw_get_vault_total_usdc : W -> Q * W.
Variable gw_get_vault_total_shares : W -> Q * W.

(** [prepare_vault_withdrawal], on the global [vault_monitor].  Any
    exception, here the one of reading the short position, gives the
    error dict. *)
Definition prepare_vault_withdrawal (shares_to_burn : Q)
  : M W VaultMonitor.t prepared :=
  total_usdc <- gateway (CallContract "get_total_usdc_deposited" [])
                  gw_get_vault_total_usdc ;;
  total_shares <- gateway (CallContract "total_supply" [])
                    gw_get_vault_total_shares ;;
  if leb total_shares 0 then ret Error
  else
    let usdc_amount := shares_to_burn / total_shares * total_usdc in
    position <- gateway GetShortPosition (gw_get_short_position gw) ;;
    match position with
    | Raised => ret Error
    | Returned position =>
        (match position with
         | Some pos =>
             if ltb 0 (size pos) then
               let btc_to_close :=
                 shares_to_burn / total_shares * size pos in
               _ <- gateway (ClosePosition (Some btc_to_close))
                      (gw_close_position gw (Some btc_to_close)) ;;
               ret tt
             else ret tt
         | None => ret tt
         end) ;;;
        withdraw_result <-
          gateway (WithdrawFromExtended usdc_amount)
            (gw_withdraw_from_extended gw usdc_amount) ;;
        match withdraw_result with
        | Some status =>
            if String.eqb status "success" then
              VaultMonitor.expect_withdrawal usdc_amount ;;;
              ret (Pending usdc_amount)
            else ret Error
        | None => ret Error
        end
    end.

End Methods.
End ExtendedClient.

(** ** rebalancer.py *)

Module Rebalancer.

(** The dict [run_once] returns: the action of the pass, or the action
    ["ERROR"]. *)
Inductive result : Type :=
| Ran (a : Strategy.action)
| ERROR.

Record t : Type := mk {
  interval : Z;
  running : bool;
  iteration_count : Z;
  last_action : option Strategy.action;
  last_run : option Z
}.

(** [__init__], with [settings.rebalance_interval_seconds]. *)
Definition init (rebalance_interval_seconds : Z) : t :=
  mk rebalance_interval_seconds false 0 None None.

Section Methods.
Variable W : Type.
Variable gw : Gateways W.
Variable settings : Settings.

(** [auto_depositor.sync_vault_nav]: one [update_nav] call with
    [int(equity * 1e6)] as a [u256], [None] without an account or on an
    error.  The call is recorded by the calldata it is to send. *)
Variable gw_sync_vault_nav : Q -> W -> option Z * W.

(** [run_once]. *)
Definition run_once : M W t result :=
  time <- (fun s w => let r := gw_now gw w in
                      mkRes (fst r) s (snd r) []) ;;
  set_self (fun r => mk (interval r) (running r) (iteration_count r + 1)
                       (last_action r) (Some time)) ;;;
  pass <- Strategy.execute_strategy gw settings ;;
  match pass with
  | Raised => ret ERROR
  | Returned a =>
      set_self (fun r => mk (interval r) (running r) (iteration_count r)
                           (Some a) (last_run r)) ;;;
      state <- Strategy.get_state gw settings ;;
      (match state with
       | Raised => ret tt
       | Returned st =>
           let equity := Strategy.state_equity st in
           _ <- gateway (InvokeContract "update_nav"
                           [usdc_raw equity; 0%Z])
                  (gw_sync_vault_nav equity) ;;
           ret tt
       end) ;;;
      ret (Ran a)
  end.

End Methods.
End Rebalancer.

(** ** Observations on the calls of a run *)

(** An on-chain [update_nav] invocation. *)
Definition is_update_nav (e : event) : bool :=
  match e with
  | InvokeContract fn _ => String.eqb fn "update_nav"
  | _ => false
  end.

Definition nav_invoked (l : list event) : bool := existsb is_update_nav l.


(** A mint invocation of the deposit processor. *)
Definition is_mint (e : event) : bool :=
  match e with
  | InvokeContract fn _ => String.eqb fn "process_deposits"
  | _ => false
  end.

Definition mints (l : list event) : nat := List.length (filter is_mint l).

(** A read of the deposit queue. *)
Definition is_deposit_read (e : event) : bool :=
  match e with
  | CallContract fn _ => String.eqb fn "get_pending_deposit"
  | _ => false
  end.

(** The start of the processing of the withdrawal [id]. *)
Definition is_start (id : nat) (e : event) : bool :=
  match e with
  | LogStartProcessing k => Nat.eqb id k
  | _ => false
  end.

Definition starts (id : nat) (l : list event) : nat :=
  List.length (filter (is_start id) l).

(** An order placed on the exchange. *)
Definition is_order (e : event) : bool :=
  match e with
  | OpenShortPosition _ => true
  | ClosePosition _ => true
  | _ => false
  end.

Definition orders (l : list event) : list event := filter is_order l.

(** A transfer of funds to the vault. *)
Definition is_forward (e : event) : bool :=
  match e with
  | SendUsdcToVault _ => true
  | _ => false
  end.

(** A withdrawal requested from the exchange. *)
Definition is_exchange_withdrawal (e : event) : bool :=
  match e with
  | WithdrawFromExtended _ => true
  | _ => false
  end.


(** ** A scripted world

    Every gateway answers from a fixed script; only the operator wallet
    moves, through the successive readings in [usdc_readings] (the last one
    stays). *)

Module Sim.

Record world : Type := mkWorld {
  account_balance : outcome (option Balance);
  invoke_answer : option Z;
  send_answer : option Z;
  deposit_answer : option Z;
  usdc_readings : list Q;
  views : nat -> string -> list Z -> list Z;
  funding_rate : outcome Q;
  positions : outcome (list Position);
  short_position : outcome (option Position);
  mark_prices : list (outcome Q);
  exchange_balance : option Balance;
  wbtc_held : Q;
  order_answer : option string;
  close_answer : option string;
  withdraw_answer : option string;
  clock : Z;
  invoked : nat
}.

Definition set_usdc (l : list Q) (w : world) : world :=
  mkWorld (account_balance w) (invoke_answer w) (send_answer w)
    (deposit_answer w) l (views w) (funding_rate w) (positions w)
    (short_position w) (mark_prices w) (exchange_balance w) (wbtc_held w)
    (order_answer w) (close_answer w) (withdraw_answer w) (clock w)
    (invoked w).

Definition set_marks (l : list (outcome Q)) (w : world) : world :=
  mkWorld (account_balance w) (invoke_answer w) (send_answer w)
    (deposit_answer w) (usdc_readings w) (views w) (funding_rate w)
    (positions w) (short_position w) l (exchange_balance w) (wbtc_held w)
    (order_answer w) (close_answer w) (withdraw_answer w) (clock w)
    (invoked w).

Definition set_views (v : nat -> string -> list Z -> list Z) (w : world)
  : world :=
  mkWorld (account_balance w) (invoke_answer w) (send_answer w)
    (deposit_answer w) (usdc_readings w) v (funding_rate w)
    (positions w) (short_position w) (mark_prices w) (exchange_balance w)
    (wbtc_held w) (order_answer w) (close_answer w) (withdraw_answer w)
    (clock w) (invoked w).

Definition set_send (a : option Z) (w : world) : world :=
  mkWorld (account_balance w) (invoke_answer w) a (deposit_answer w)
    (usdc_readings w) (views w) (funding_rate w) (positions w)
    (short_position w) (mark_prices w) (exchange_balance w) (wbtc_held w)
    (order_answer w) (close_answer w) (withdraw_answer w) (clock w)
    (invoked w).

Definition set_withdraw (a : option string) (w : world) : world :=
  mkWorld (account_balance w) (invoke_answer w) (send_answer w)
    (deposit_answer w) (usdc_readings w) (views w) (funding_rate w)
    (positions w) (short_position w) (mark_prices w) (exchange_balance w)
    (wbtc_held w) (order_answer w) (close_answer w) a (clock w)
    (invoked w).

(** An accepted invocation is counted; the views may depend on the
    count. *)
Definition invoke (w : world) : option Z * world :=
  match invoke_answer w with
  | Some tx =>
      (Some tx,
       mkWorld (account_balance w) (invoke_answer w) (send_answer w)
         (deposit_answer w) (usdc_readings w) (views w) (funding_rate w)
         (positions w) (short_position w) (mark_prices w)
         (exchange_balance w) (wbtc_held w) (order_answer w)
         (close_answer w) (withdraw_answer w) (clock w) (S (invoked w)))
  | None => (None, w)
  end.

Definition read_usdc (w : world) : Q * world :=
  match usdc_readings w with
  | [] => (0, w)
  | [b] => (b, w)
  | b :: rest => (b, set_usdc rest w)
  end.

Definition read_mark (w : world) : outcome Q * world :=
  match mark_prices w with
  | [] => (Raised, w)
  | [p] => (p, w)
  | p :: rest => (p, set_marks rest w)
  end.

Definition gw : Gateways world :=
  mkGateways
    (fun fn args w => (views w (invoked w) fn args, w))
    (fun _ _ w => invoke w)
    read_usdc
    (fun w => (wbtc_held w, w))
    (fun _ w => (send_answer w, w))
    (fun _ w => (deposit_answer w, w))
    (fun w => (account_balance w, w))
    (fun w => (exchange_balance w, w))
    (fun w => (funding_rate w, w))
    (fun w => (positions w, w))
    (fun w => (short_position w, w))
    read_mark
    (fun _ w => (order_answer w, w))
    (fun _ w => (close_answer w, w))
    (fun _ w => (withdraw_answer w, w))
    (fun w => (clock w, w)).

(** A world in which every call succeeds and nothing is queued. *)
Definition quiet : world :=
  mkWorld (Returned (Some (mkBalance 0 0 0 0))) (Some 1%Z) (Some 2%Z)
    (Some 3%Z) [] (fun _ _ _ => []) (Returned 0) (Returned [])
    (Returned None) [Returned 100000] (Some (mkBalance 0 0 0 0)) 0
    (Some "success"%string) (Some "success"%string)
    (Some "success"%string) 0 0.

Definition with_equity (e : Q) (w : world) : world :=
  mkWorld (Returned (Some (mkBalance e e e e))) (invoke_answer w)
    (send_answer w) (deposit_answer w) (usdc_readings w) (views w)
    (funding_rate w) (positions w) (short_position w) (mark_prices w)
    (Some (mkBalance e e e e)) (wbtc_held w) (order_answer w)
    (close_answer w) (withdraw_answer w) (clock w) (invoked w).

End Sim.

(** ** Scenarios of the specification *)

Module Scenario.

(** A reporter whose last report was 1_000_000. *)
Definition reporter : NAVReporter.t :=
  NAVReporter.mk true 3600 (Some 0%Z) 1000000 500.

(** A reporter whose last report was the float 8800000000000319 / 2^33,
    and an equity 5% and a little more below it; a reporter whose last
    report was the float nearest to 1_952_529.63, and the float nearest to
    1_854_903.1485, a little less than 5% below it. *)
Definition reporter_above : NAVReporter.t :=
  NAVReporter.mk true 3600 (Some 0%Z) (8800000000000319 # 8589934592) 500.
Definition equity_above : Q := 8360000000000303 # 8589934592.
Definition reporter_below : NAVReporter.t :=
  NAVReporter.mk true 3600 (Some 0%Z) (2096512726330245 # 1073741824) 500.
Definition equity_below : Q := 7966748360054931 # 4294967296.

(** The exchange shows an equity of [e]; every transaction succeeds. *)
Definition exchange_equity (e : Q) : Sim.world :=
  Sim.with_equity e Sim.quiet.

(** The operator wallet shows the readings [l], one per poll. *)
Definition wallet (l : list Q) : Sim.world := Sim.set_usdc l Sim.quiet.

(** A monitor that last saw 100 in the wallet and holds 5 of deposits. *)
Definition monitor : VaultMonitor.t := VaultMonitor.mk 100 5 0 true.

(** Risk asset worth 100 (1 unit at 100), a short of notional 80, an
    exchange equity of 80: total NAV 180. *)
Definition underhedged : Sim.world :=
  Sim.mkWorld (Returned (Some (mkBalance 80 80 80 80))) (Some 1%Z)
    (Some 2%Z) (Some 3%Z) [] (fun _ _ _ => []) (Returned 0.0001)
    (Returned [mkPosition "BTC-USD" 0.8 80 100 0])
    (Returned (Some (mkPosition "BTC-USD" 0.8 80 100 0)))
    [Returned 100] (Some (mkBalance 80 80 80 80)) 1
    (Some "success"%string) (Some "success"%string)
    (Some "success"%string) 0 0.




(** A position manager that closed the hedge for funding. *)
Definition latched : PositionManager.t :=
  PositionManager.set_closed_due_to_funding true PositionManager.init.

(** The exchange shows the funding rate [rate]. *)
Definition funding (rate : Q) : Sim.world :=
  Sim.mkWorld (Returned None) (Some 1%Z) (Some 2%Z) (Some 3%Z) []
    (fun _ _ _ => []) (Returned rate) (Returned []) (Returned None)
    [Returned 100] None 0 (Some "success"%string)
    (Some "success"%string) (Some "success"%string) 0 0.

(** The deposit queue of the specification: entry 0 of user 0xA holds
    1000.00, entry 1 is the sentinel; the ledger marks entry 0 processed
    once an invocation was accepted. *)
Definition deposit_views (accepted : nat) (fn : string) (args : list Z)
  : list Z :=
  if String.eqb fn "get_pending_deposit" then
    match args with
    | [0%Z] =>
        [10; 11; 1000000000; 0; 0; 0; 1700000000;
         match accepted with O => 0 | S _ => 1 end]%Z
    | _ => [0; 0; 0; 0; 0; 0; 0; 0]%Z
    end
  else [].

Definition deposit_queue : Sim.world :=
  Sim.set_views deposit_views Sim.quiet.

(** The withdrawal queue of the specification: three requests, the
    request 2 of user 0xA is PENDING with a settlement value of 500.00
    until an invocation is accepted, READY afterwards; the preview
    values its shares at 500.00. *)
Definition withdrawal_views (accepted : nat) (fn : string)
  (args : list Z) : list Z :=
  if String.eqb fn "get_withdrawal_queue_length" then [3%Z]
  else if String.eqb fn "get_pending_withdrawal" then
    match args with
    | [2%Z] =>
        [10; 1000; 0; 0; 0; 500000000; 0; 1700000000;
         match accepted with O => 0 | S _ => 2 end]%Z
    | _ => [11; 5; 0; 0; 0; 100000000; 0; 1600000000; 3]%Z
    end
  else if String.eqb fn "preview_redeem" then [500000000%Z]
  else [].

(** The wallet holds 0 at the first check and 250.00 at the second. *)
Definition withdrawal_queue : Sim.world :=
  Sim.set_usdc [0; 250] (Sim.set_views withdrawal_views Sim.quiet).

(** The same queue when the preview values the shares at 16.777212. *)
Definition uneven_views (accepted : nat) (fn : string) (args : list Z)
  : list Z :=
  if String.eqb fn "preview_redeem" then [16777212%Z]
  else withdrawal_views accepted fn args.

Definition uneven_queue : Sim.world :=
  Sim.set_usdc [0; 250] (Sim.set_views uneven_views Sim.quiet).

(** The request 2 as the ledger shows it. *)
Definition request : WithdrawalProcessor.WithdrawalQueueItem :=
  WithdrawalProcessor.mkItem 2 10 1000 0 (inject_Z 500000000 / 1000000)
    1700000000 WithdrawalProcessor.PENDING.

(** A processor with the request 2 in flight, waiting for 250.00. *)
Definition in_flight : WithdrawalProcessor.t :=
  WithdrawalProcessor.mk true 30
    [(2%nat, WithdrawalProcessor.mkEntry 10 1000 250 0
               WithdrawalProcessor.waiting_usdc)].

(** The wallet holds the 250.00 but the transfer to the vault fails. *)
Definition forward_fails : Sim.world :=
  Sim.set_send None (Sim.set_usdc [250] (Sim.set_views withdrawal_views
                                           Sim.quiet)).

(** The exchange refuses the withdrawal request with [None]. *)
Definition exchange_refuses : Sim.world :=
  Sim.set_withdraw None withdrawal_queue.

End Scenario.

(** * Properties *)

Unset Implicit Arguments.

#[local] Arguments Qabs : simpl never.
#[local] Arguments Qplus : simpl never.
#[local] Arguments Qminus : simpl never.
#[local] Arguments Qmult : simpl never.
#[local] Arguments Qdiv : simpl never.
#[local] Arguments Qopp : simpl never.
#[local] Arguments Qeq_bool : simpl never.
#[local] Arguments Qpower : simpl never.
#[local] Arguments Qred : simpl never.

(** ** Numbers and traces *)

Lemma leb_le (x y : Q) : leb x y = true <-> x <= y.
Proof. unfold leb. apply Qle_bool_iff. Qed.

Lemma leb_gt (x y : Q) : leb x y = false <-> y < x.
Proof.
  unfold leb. split; intro H.
  - apply Qnot_le_lt. intro Hle. apply Qle_bool_iff in Hle. congruence.
  - destruct (Qle_bool x y) eqn:E; [|reflexivity].
    apply Qle_bool_iff in E. apply Qlt_not_le in H. contradiction.
Qed.

Lemma ltb_lt (x y : Q) : ltb x y = true <-> x < y.
Proof.
  unfold ltb. rewrite negb_true_iff. apply (leb_gt y x).
Qed.

Lemma ltb_ge (x y : Q) : ltb x y = false <-> y <= x.
Proof.
  unfold ltb. rewrite negb_false_iff. apply (leb_le y x).
Qed.

(** ** Rounding to binary64 *)

Section FloatFacts.
Import Float.

Lemma two_power_pos (k : Z) : 0 < 2 ^ k.
Proof. apply Qpower_0_lt. reflexivity. Qed.

Lemma two_power_succ (k : Z) : 2 ^ (k + 1) == 2 * 2 ^ k.
Proof.
  rewrite Qpower_plus by (intro H; discriminate H).
  rewrite Qpower_1_r. ring.
Qed.

Lemma two_power_log2 (n : Z) :
  (0 < n)%Z ->
  2 ^ Z.log2 n <= inject_Z n /\ inject_Z n < 2 ^ (Z.log2 n + 1).
Proof.
  intros Hn. destruct (Z.log2_spec n Hn) as [Hlo Hhi].
  pose proof (Z.log2_nonneg n) as H0.
  split.
  - change 2 with (inject_Z 2). rewrite <- Zpower_Qpower by exact H0.
    rewrite <- Zle_Qle. exact Hlo.
  - change 2 with (inject_Z 2). rewrite <- Zpower_Qpower by lia.
    rewrite <- Zlt_Qlt. exact Hhi.
Qed.

Lemma ilog2_spec (x : Q) :
  0 < x -> 2 ^ ilog2 x <= x /\ x < 2 ^ (ilog2 x + 1).
Proof.
  intros Hx. unfold ilog2.
  destruct x as [n d]. 
  assert (Hn : (0 < n)%Z).
  { unfold Qlt in Hx. simpl in Hx. lia. }
  cbn [Qnum Qden].
  destruct (two_power_log2 n Hn) as [Hn1 Hn2].
  destruct (two_power_log2 (Z.pos d) eq_refl) as [Hd1 Hd2].
  set (ln := Z.log2 n) in *. set (ld := Z.log2 (Z.pos d)) in *.
  assert (Ex : n # d == inject_Z n / inject_Z (Z.pos d))
    by apply Qmake_Qdiv.
  assert (Hd0 : 0 < inject_Z (Z.pos d)) by reflexivity.
  pose proof (two_power_pos ld) as Pd.
  pose proof (two_power_pos ln) as Pn.
  assert (Ek : 2 ^ ln == 2 ^ (ln - ld) * 2 ^ ld).
  { rewrite <- Qpower_plus by (intro H; discriminate H).
    apply Qpower_comp; [reflexivity|lia]. }
  pose proof (two_power_pos (ln - ld)) as Pk.
  assert (Ed : inject_Z n == (n # d) * inject_Z (Z.pos d)).
  { rewrite Ex. field. intro H. rewrite H in Hd0. discriminate Hd0. }
  set (x := n # d) in *. set (D := inject_Z (Z.pos d)) in *.
  set (N := inject_Z n) in *.
  set (A := 2 ^ ln) in *. set (B := 2 ^ ld) in *.
  assert (Hup : x < 2 ^ (ln - ld + 1)).
  { rewrite two_power_succ. rewrite two_power_succ in Hn2.
    fold A in Hn2. set (K := 2 ^ (ln - ld)) in *.
    apply Qnot_le_lt. intro Hc.
    assert (2 * K * B <= x * D) by nra.
    lra. }
  assert (Hlo : 2 ^ (ln - ld - 1) <= x).
  { assert (E1 : 2 ^ (ln - ld) == 2 * 2 ^ (ln - ld - 1)).
    { rewrite <- two_power_succ. apply Qpower_comp; [reflexivity|lia]. }
    pose proof (two_power_pos (ln - ld - 1)) as Pk1.
    rewrite two_power_succ in Hd2. fold B in Hd2.
    set (K := 2 ^ (ln - ld)) in *. set (K1 := 2 ^ (ln - ld - 1)) in *.
    apply Qnot_lt_le. intro Hc.
    assert (x * D < K1 * (2 * B)) by nra.
    assert (K1 * (2 * B) == A) by (rewrite Ek, E1; ring).
    lra. }
  destruct (Qle_bool (2 ^ (ln - ld)) x) eqn:E.
  - apply Qle_bool_iff in E. split; assumption.
  - assert (Hlt : x < 2 ^ (ln - ld)).
    { apply Qnot_le_lt. intro H. apply Qle_bool_iff in H. congruence. }
    split; [exact Hlo|].
    assert (E1 : 2 ^ (ln - ld - 1 + 1) == 2 ^ (ln - ld))
      by (apply Qpower_comp; [reflexivity|lia]).
    rewrite E1. exact Hlt.
Qed.

Lemma nearest_even_spec (y : Q) :
  y - (1 # 2) <= inject_Z (nearest_even y) /\
  inject_Z (nearest_even y) <= y + (1 # 2).
Proof.
  unfold nearest_even.
  pose proof (Qfloor_le y) as Hlo. pose proof (Qlt_floor y) as Hhi.
  set (f := Qfloor y) in *.
  rewrite inject_Z_plus in Hhi.
  change (inject_Z 1) with 1 in Hhi.
  destruct (Qcompare_spec (y - inject_Z f) (1 # 2)) as [E|E|E].
  - destruct (Z.even f).
    + split; lra.
    + rewrite inject_Z_plus. change (inject_Z 1) with 1. split; lra.
  - split; lra.
  - rewrite inject_Z_plus. change (inject_Z 1) with 1. split; lra.
Qed.

Lemma nearest_even_nonneg (y : Q) : 0 <= y -> (0 <= nearest_even y)%Z.
Proof.
  intros Hy. unfold nearest_even.
  assert (H0 : (0 <= Qfloor y)%Z).
  { change 0%Z with (Qfloor 0). apply Qfloor_resp_le. exact Hy. }
  destruct (Qcompare _ _); [destruct (Z.even _)| |]; lia.
Qed.

Lemma round_nonneg (x : Q) : 0 <= x -> 0 <= round x.
Proof.
  intros Hx. unfold round.
  destruct (Qeq_bool x 0); [lra|].
  rewrite Qred_correct.
  pose proof (two_power_pos (ulp_exponent x)) as Hp.
  set (p := 2 ^ ulp_exponent x) in *.
  assert (Hy : 0 <= x / p) by (apply Qle_shift_div_l; [exact Hp|lra]).
  apply nearest_even_nonneg in Hy.
  rewrite Zle_Qle in Hy. change (inject_Z 0) with 0 in Hy. nra.
Qed.

(** The rounding error: half a unit in the last place, which is at most
    the unit roundoff [2^-53] of the value in the normal range and
    [2^-1075] below it. *)
Lemma round_error (x : Q) :
  Qabs (round x - x) <= 2 ^ (-53) * Qabs x + 2 ^ (-1075).
Proof.
  pose proof (two_power_pos (-53)) as Hu.
  pose proof (two_power_pos (-1075)) as Ht.
  pose proof (Qabs_nonneg x) as Hax.
  unfold round.
  destruct (Qeq_bool x 0) eqn:E0.
  { apply Qeq_bool_iff in E0.
    assert (E : 0 - x == 0) by lra.
    rewrite E. change (Qabs 0) with 0. nra. }
  apply Qeq_bool_neq in E0.
  rewrite Qred_correct.
  assert (Hpos : 0 < Qabs x).
  { apply Qabs_case; intros H.
    - destruct (Qlt_le_dec 0 x); [assumption|]. exfalso. apply E0. lra.
    - destruct (Qlt_le_dec x 0); [lra|]. exfalso. apply E0. lra. }
  destruct (ilog2_spec (Qabs x) Hpos) as [Hlo _].
  unfold ulp_exponent.
  set (il := ilog2 (Qabs x)) in *.
  set (e := Z.max (il - 52) (-1074)).
  pose proof (two_power_pos e) as Hp.
  destruct (nearest_even_spec (x / 2 ^ e)) as [H1 H2].
  set (m := inject_Z (nearest_even (x / 2 ^ e))) in *.
  assert (Ex : x / 2 ^ e * 2 ^ e == x).
  { field. intro H. rewrite H in Hp. discriminate Hp. }
  set (p := 2 ^ e) in *. set (y := x / p) in *.
  assert (Herr : Qabs (m * p - x) <= p * (1 # 2)).
  { apply Qabs_Qle_condition. split; nra. }
  assert (Hhalf : p * (1 # 2) <= 2 ^ (-53) * Qabs x + 2 ^ (-1075)).
  { unfold p, e.
    destruct (Z.max_spec (il - 52) (-1074)) as [[_ ->]|[_ ->]].
    - assert (E : 2 ^ (-1074) == 2 * 2 ^ (-1075)) by reflexivity.
      rewrite E. nra.
    - assert (E : 2 ^ (il - 52) == 2 ^ il * (2 * 2 ^ (-53))).
      { assert (E1 : 2 * 2 ^ (-53) == 2 ^ (-52)) by reflexivity.
        rewrite E1. rewrite <- Qpower_plus by (intro H; discriminate H).
        apply Qpower_comp; [reflexivity|lia]. }
      rewrite E. set (P := 2 ^ il) in *. nra. }
  lra.
Qed.

Lemma round_abs_bounds (x : Q) :
  (1 - 2 ^ (-53)) * Qabs x - 2 ^ (-1075) <= Qabs (round x) /\
  Qabs (round x) <= (1 + 2 ^ (-53)) * Qabs x + 2 ^ (-1075).
Proof.
  pose proof (round_error x) as H.
  pose proof (Qabs_triangle_reverse (round x) x) as H1.
  pose proof (Qabs_triangle_reverse x (round x)) as H2.
  assert (E : Qabs (x - round x) == Qabs (round x - x)).
  { rewrite <- Qabs_opp. apply Qabs_wd. ring. }
  rewrite E in H2. split; lra.
Qed.

Lemma unit_roundoff_value : 2 ^ (-53) == 1 # 9007199254740992.
Proof. reflexivity. Qed.

Lemma epsilon_value : Float.epsilon == 1 # 4503599627370496.
Proof. reflexivity. Qed.

Lemma tiny_small : 2 ^ (-1075) <= 2 ^ (-53) * (1 # 1000000000000).
Proof. vm_compute. discriminate. Qed.

Lemma round_bounds_nonneg (x : Q) :
  0 <= x ->
  0 <= round x /\
  (1 - 2 ^ (-53)) * x - 2 ^ (-1075) <= round x /\
  round x <= (1 + 2 ^ (-53)) * x + 2 ^ (-1075).
Proof.
  intros Hx. pose proof (round_nonneg x Hx) as Hr.
  destruct (round_abs_bounds x) as [H1 H2].
  rewrite (Qabs_pos x) in H1, H2 by exact Hx.
  rewrite (Qabs_pos (round x)) in H1, H2 by exact Hr.
  repeat split; assumption.
Qed.

(** [int] of a float that is not negative is its floor. *)
Lemma int_floor (x : Q) :
  0 <= x -> inject_Z (Py.int x) <= x /\ x < inject_Z (Py.int x) + 1.
Proof.
  intros Hx.
  assert (E : Py.int x = Qfloor x).
  { destruct x as [n d]. unfold Py.int, Qfloor. cbn [Qnum Qden].
    apply Z.quot_div_nonneg; [|reflexivity].
    unfold Qle in Hx. simpl in Hx. lia. }
  rewrite E. split; [apply Qfloor_le|].
  pose proof (Qlt_floor x) as H. rewrite inject_Z_plus in H. exact H.
Qed.

(** The valuation of a preview of [r] raw units and the raw amount of
    its half: two roundings away from [r / 1e6], and half of [r] or one
    less. *)
Lemma half_raw_bounds (r : Z) :
  (0 < r < 2 ^ 50)%Z ->
  let V := div (of_int r) 1000000 in
  0 < V /\
  Qabs (V - inject_Z r / 1000000) <=
    2 * epsilon * (inject_Z r / 1000000) /\
  (r - 2 <= 2 * usdc_raw (V / 2) <= r)%Z.
Proof.
  intros [Hr0 Hr1]. cbv zeta. unfold usdc_raw, div, of_int, mul.
  unfold Qdiv. change (/ 1000000) with (1 # 1000000).
  change (/ 2) with (1 # 2).
  pose proof unit_roundoff_value as Eu.
  pose proof epsilon_value as Ee.
  pose proof tiny_small as Et.
  pose proof (two_power_pos (-1075)) as Ht.
  assert (HR0 : 1 <= inject_Z r).
  { change 1 with (inject_Z 1). rewrite <- Zle_Qle. lia. }
  assert (HR1 : inject_Z r <= 1125899906842624).
  { change 1125899906842624 with (inject_Z (2 ^ 50)).
    rewrite <- Zle_Qle. lia. }
  set (R := inject_Z r) in *.
  assert (H0 : 0 <= R) by lra.
  destruct (round_bounds_nonneg R H0) as (Hx0 & L0 & U0).
  set (x0 := round R) in *.
  assert (H1 : 0 <= x0 * (1 # 1000000)) by lra.
  destruct (round_bounds_nonneg (x0 * (1 # 1000000)) H1)
    as (Hx1 & L1 & U1).
  set (x1 := round (x0 * (1 # 1000000))) in *.
  assert (H2 : 0 <= x1 * (1 # 2) * 1000000) by lra.
  destruct (round_bounds_nonneg (x1 * (1 # 2) * 1000000) H2)
    as (Hx2 & L2 & U2).
  set (x2 := round (x1 * (1 # 2) * 1000000)) in *.
  destruct (int_floor x2 Hx2) as [F1 F2].
  set (raw := Py.int x2) in *.
  rewrite Eu in L0, U0, L1, U1, L2, U2, Et.
  set (t := 2 ^ (-1075)) in *.
  split; [lra|]. split.
  - rewrite Ee. apply Qabs_Qle_condition. split; lra.
  - split.
    + assert (H : inject_Z (r + -3) < inject_Z (2 * raw)).
      { rewrite inject_Z_mult, inject_Z_plus. fold R.
        change (inject_Z 2) with 2. change (inject_Z (-3)) with (-3).
        lra. }
      rewrite <- Zlt_Qlt in H. lia.
    + assert (H : inject_Z (2 * raw) < inject_Z (r + 1)).
      { rewrite inject_Z_mult, inject_Z_plus. fold R.
        change (inject_Z 2) with 2. change (inject_Z 1) with 1.
        lra. }
      rewrite <- Zlt_Qlt in H. lia.
Qed.

End FloatFacts.

(** Running a method: unfold the monad and compute. *)
Ltac run :=
  unfold bind, gateway, ret, get_self, set_self, emit; simpl.

(** ** NAV reporter *)

Section NAVReporterFacts.
Import NAVReporter.
Context {W : Type}.
Variable gw : Gateways W.

(** The bps the code computes, in binary64. *)
Lemma change_bps_accept (new_nav last : Q) :
  1 <= last * 1000000 ->
  Qabs (new_nav - last) / last <= 0.05 * (1 - 2 * Float.epsilon) ->
  Float.div (Float.mul (Qabs (Float.sub new_nav last)) 10000) last
    <= 500.
Proof.
  intros HL Hc. unfold Float.div, Float.mul, Float.sub.
  assert (HL0 : 0 < last) by lra.
  pose proof unit_roundoff_value as Eu.
  pose proof epsilon_value as Ee.
  pose proof tiny_small as Et.
  pose proof (two_power_pos (-1075)) as Ht.
  pose proof (Qabs_nonneg (new_nav - last)) as HA.
  destruct (round_abs_bounds (new_nav - last)) as [_ H1].
  pose proof (Qabs_nonneg (Float.round (new_nav - last))) as Ha1.
  set (A := Qabs (new_nav - last)) in *.
  set (a1 := Qabs (Float.round (new_nav - last))) in *.
  assert (Hs0 : 0 <= a1 * 10000) by lra.
  destruct (round_bounds_nonneg (a1 * 10000) Hs0) as (Hs & _ & H2).
  set (s := Float.round (a1 * 10000)) in *.
  assert (Hq0 : 0 <= s / last)
    by (apply Qle_shift_div_l; [exact HL0|lra]).
  destruct (round_bounds_nonneg (s / last) Hq0) as (_ & _ & H3).
  set (b := Float.round (s / last)) in *.
  assert (HAL : A <= 0.05 * (1 - 2 * Float.epsilon) * last).
  { assert (E : A == A / last * last)
      by (field; intro H; rewrite H in HL0; discriminate HL0).
    rewrite E. set (q := A / last) in *. nra. }
  rewrite Ee in HAL. rewrite Eu in H1, H2, H3, Et.
  set (t := 2 ^ (-1075)) in *.
  assert (Hq : s / last <= 500 * (1 - (3 # 2) * (1 # 9007199254740992))).
  { apply Qle_shift_div_r; [exact HL0|]. lra. }
  set (q := s / last) in *. lra.
Qed.

Lemma change_bps_reject (new_nav last : Q) :
  1 <= last * 1000000 ->
  0.05 * (1 + 2 * Float.epsilon) < Qabs (new_nav - last) / last ->
  500 <
  Float.div (Float.mul (Qabs (Float.sub new_nav last)) 10000) last.
Proof.
  intros HL Hc. unfold Float.div, Float.mul, Float.sub.
  assert (HL0 : 0 < last) by lra.
  pose proof unit_roundoff_value as Eu.
  pose proof epsilon_value as Ee.
  pose proof tiny_small as Et.
  pose proof (two_power_pos (-1075)) as Ht.
  pose proof (Qabs_nonneg (new_nav - last)) as HA.
  destruct (round_abs_bounds (new_nav - last)) as [H1 _].
  pose proof (Qabs_nonneg (Float.round (new_nav - last))) as Ha1.
  set (A := Qabs (new_nav - last)) in *.
  set (a1 := Qabs (Float.round (new_nav - last))) in *.
  assert (Hs0 : 0 <= a1 * 10000) by lra.
  destruct (round_bounds_nonneg (a1 * 10000) Hs0) as (Hs & H2 & _).
  set (s := Float.round (a1 * 10000)) in *.
  assert (Hq0 : 0 <= s / last)
    by (apply Qle_shift_div_l; [exact HL0|lra]).
  destruct (round_bounds_nonneg (s / last) Hq0) as (_ & H3 & _).
  set (b := Float.round (s / last)) in *.
  assert (HAL : 0.05 * (1 + 2 * Float.epsilon) * last < A).
  { assert (E : A == A / last * last)
      by (field; intro H; rewrite H in HL0; discriminate HL0).
    rewrite E. set (q := A / last) in *. nra. }
  rewrite Ee in HAL. rewrite Eu in H1, H2, H3, Et.
  set (t := 2 ^ (-1075)) in *.
  assert (Hq : 500 * (1 + (3 # 2) * (1 # 9007199254740992)) < s / last).
  { apply Qlt_shift_div_l; [exact HL0|]. lra. }
  set (q := s / last) in *. lra.
Qed.

(** The test of the code against the exact relative change: it accepts
    below 5% and rejects above 5%, up to two units of [epsilon]. *)
Lemma is_safe_update_accepts (r : t) (nav : Q) :
  max_change_bps r == 500 ->
  1 <= last_nav r * 1000000 ->
  Qabs (nav - last_nav r) / last_nav r <= 0.05 * (1 - 2 * Float.epsilon) ->
  _is_safe_update r nav = true.
Proof.
  intros Hbps HL Hc. unfold _is_safe_update.
  destruct (leb (last_nav r) 0); [reflexivity|].
  apply leb_le. rewrite Hbps. apply change_bps_accept; assumption.
Qed.

Lemma is_safe_update_rejects (r : t) (nav : Q) :
  max_change_bps r == 500 ->
  1 <= last_nav r * 1000000 ->
  0.05 * (1 + 2 * Float.epsilon) < Qabs (nav - last_nav r) / last_nav r ->
  _is_safe_update r nav = false.
Proof.
  intros Hbps HL Hc. unfold _is_safe_update.
  destruct (leb (last_nav r) 0) eqn:E.
  - apply leb_le in E. lra.
  - apply leb_gt. rewrite Hbps. apply change_bps_reject; assumption.
Qed.

Lemma is_safe_update_first (r : t) (nav : Q) :
  last_nav r <= 0 -> _is_safe_update r nav = true.
Proof.
  intros H. unfold _is_safe_update.
  apply leb_le in H. rewrite H. reflexivity.
Qed.

(** What [_report_nav] does, by cases on the equity read and the check. *)
Lemma report_nav_cases (r : t) (w : W) :
  let eq := _get_extended_equity gw r w in
  let out := _report_nav gw r w in
  (leb (val eq) 0 = true \/ _is_safe_update r (val eq) = false ->
     evs out = [GetAccountBalance] /\ self out = r) /\
  (leb (val eq) 0 = false -> _is_safe_update r (val eq) = true ->
     evs out = [GetAccountBalance;
                InvokeContract "update_nav" [usdc_raw (val eq)]] /\
     last_nav (self out) =
       if truthy (fst (gw_invoke_contract gw "update_nav"
                         [usdc_raw (val eq)] (wld eq)))
       then val eq else last_nav r).
Proof.
  unfold _report_nav, _get_extended_equity, _update_vault_nav, now.
  run.
  destruct (gw_get_account_balance gw w) as [[|[bal|]] w1]; simpl.
  all: match goal with
       | |- context [leb ?x 0] => destruct (leb x 0) eqn:E1; simpl
       end.
  all: try (split; [intros _; split; reflexivity | discriminate]).
  all: match goal with
       | |- context [_is_safe_update ?r0 ?x] =>
           destruct (_is_safe_update r0 x) eqn:E2; simpl
       end.
  all: try (split; [intros _; split; reflexivity | discriminate]).
  all: destruct (gw_invoke_contract gw "update_nav" _ w1) as [[tx|] w2];
    simpl.
  all: split; [intros [H|H]; discriminate | intros _ _; split; reflexivity].
Qed.

End NAVReporterFacts.

(** ** NAV rate limit *)

Section NAVRateLimit.
Import NAVReporter.
Context {W : Type}.
Variable gw : Gateways W.

(** C1 (NAV rate limit), as the code has it.  The reporter tests the
    change in basis points computed in binary64, so the 5% bound holds up
    to the rounding of three operations.  For a last report of at least
    one raw unit: an update is invoked only for a positive NAV whose
    relative change is at most 5% times [1 + 2 epsilon]; a positive NAV
    whose change is at most 5% times [1 - 2 epsilon] is sent; above 5%
    times [1 + 2 epsilon] there is no on-chain call and the reporter is
    unchanged.  Between the two the rounding decides.  A NAV that is not
    positive is never sent; with [last_nav <= 0] any positive NAV is sent
    as the first report, and becomes [last_nav] when the invocation
    succeeds. *)
Theorem report_nav_rate_limit (r : t) (w : W) :
  max_change_bps r == 500 ->
  let nav := val (_get_extended_equity gw r w) in
  let out := _report_nav gw r w in
  let change := Qabs (nav - last_nav r) / last_nav r in
  let sent := InvokeContract "update_nav" [usdc_raw nav] in
  (1 <= last_nav r * 1000000 -> last_nav r * 1000000 < 2 ^ 256 ->
     (nav_invoked (evs out) = true ->
        0 < nav /\ change <= 0.05 * (1 + 2 * Float.epsilon)) /\
     (0 < nav -> change <= 0.05 * (1 - 2 * Float.epsilon) ->
        evs out = [GetAccountBalance; sent] /\
        last_nav (self out) =
          if truthy (fst (gw_invoke_contract gw "update_nav"
                            [usdc_raw nav]
                            (wld (_get_extended_equity gw r w))))
          then nav else last_nav r) /\
     (0.05 * (1 + 2 * Float.epsilon) < change ->
        nav_invoked (evs out) = false /\ self out = r))
  /\
  (nav_invoked (evs out) = true <->
   0 < nav /\ _is_safe_update r nav = true) /\
  (nav <= 0 -> evs out = [GetAccountBalance] /\ self out = r) /\
  (last_nav r <= 0 -> 0 < nav ->
     evs out = [GetAccountBalance; sent] /\
     last_nav (self out) =
       if truthy (fst (gw_invoke_contract gw "update_nav" [usdc_raw nav]
                         (wld (_get_extended_equity gw r w))))
       then nav else last_nav r).
Proof.
  intros Hbps nav out change sent.
  destruct (report_nav_cases gw r w) as [Hskip Hsend].
  fold nav in Hskip, Hsend. fold out in Hskip, Hsend.
  assert (Hiff : nav_invoked (evs out) = true <->
                 0 < nav /\ _is_safe_update r nav = true).
  { destruct (leb nav 0) eqn:E1.
    - destruct (Hskip (or_introl eq_refl)) as [He _]. rewrite He.
      apply leb_le in E1.
      split; [discriminate|]. intros [H _]. exfalso. lra.
    - apply leb_gt in E1.
      destruct (_is_safe_update r nav) eqn:E2.
      + destruct (Hsend eq_refl eq_refl) as [He _]. rewrite He.
        split; [intros _; split; [exact E1|reflexivity]|reflexivity].
      + destruct (Hskip (or_intror eq_refl)) as [He _]. rewrite He.
        split; [discriminate|]. intros [_ H]. discriminate H. }
  split; [|split; [exact Hiff|split]].
  - intros HL _. split; [|split].
    + intros Hinv. apply Hiff in Hinv. destruct Hinv as [Hnav Hsafe].
      split; [exact Hnav|].
      apply Qnot_lt_le. intros Hc.
      rewrite (is_safe_update_rejects r nav Hbps HL Hc) in Hsafe.
      discriminate Hsafe.
    + intros Hnav Hc. apply Hsend.
      * apply leb_gt. exact Hnav.
      * apply is_safe_update_accepts; assumption.
    + intros Hc.
      destruct (Hskip (or_intror
                         (is_safe_update_rejects r nav Hbps HL Hc)))
        as [He Hs].
      rewrite He, Hs. split; reflexivity.
  - intros Hnav. apply Hskip. left. apply leb_le. exact Hnav.
  - intros Hfirst Hnav.
    apply Hsend.
    + apply leb_gt. exact Hnav.
    + apply is_safe_update_first. exact Hfirst.
Qed.

End NAVRateLimit.

(** The scenario of the specification: last report 1_000_000, proposed
    1_060_000 (6%) is skipped and 1_040_000 (4%) is sent; and a first
    report of 1_000 is sent. *)
Lemma report_nav_rate_limit_witness :
  (nav_invoked
     (evs (NAVReporter._report_nav Sim.gw Scenario.reporter
             (Scenario.exchange_equity 1060000))) = false /\
   self (NAVReporter._report_nav Sim.gw Scenario.reporter
           (Scenario.exchange_equity 1060000)) = Scenario.reporter) /\
  evs (NAVReporter._report_nav Sim.gw Scenario.reporter
         (Scenario.exchange_equity 1040000)) =
    [GetAccountBalance; InvokeContract "update_nav" [1040000000000%Z]] /\
  evs (NAVReporter._report_nav Sim.gw NAVReporter.init
         (Scenario.exchange_equity 1000)) =
    [GetAccountBalance; InvokeContract "update_nav" [1000000000%Z]].
Proof.
  assert (Hb : NAVReporter.max_change_bps Scenario.reporter == 500)
    by reflexivity.
  assert (Hl : 1 <= NAVReporter.last_nav Scenario.reporter * 1000000)
    by (vm_compute; discriminate).
  assert (Hu : NAVReporter.last_nav Scenario.reporter * 1000000 < 2 ^ 256)
    by reflexivity.
  split; [|split].
  - destruct (report_nav_rate_limit Sim.gw Scenario.reporter
                (Scenario.exchange_equity 1060000) Hb) as [H _].
    destruct (H Hl Hu) as (_ & _ & H3).
    apply H3. reflexivity.
  - destruct (report_nav_rate_limit Sim.gw Scenario.reporter
                (Scenario.exchange_equity 1040000) Hb) as [H _].
    destruct (H Hl Hu) as (_ & H2 & _).
    assert (Hn : 0 < 1040000) by reflexivity.
    assert (Hc : Qabs (1040000 - 1000000) / 1000000 <=
                 0.05 * (1 - 2 * Float.epsilon))
      by (vm_compute; discriminate).
    exact (proj1 (H2 Hn Hc)).
  - assert (Hb0 : NAVReporter.max_change_bps NAVReporter.init == 500)
      by reflexivity.
    assert (Hp : NAVReporter.last_nav NAVReporter.init <= 0)
      by (vm_compute; discriminate).
    assert (Hn : 0 < 1000) by reflexivity.
    destruct (report_nav_rate_limit Sim.gw NAVReporter.init
                (Scenario.exchange_equity 1000) Hb0) as (_ & _ & _ & H).
    exact (proj1 (H Hp Hn)).
Defined.

(** C1 as stated fails at the bound.  The last report is the float
    8800000000000319 / 2^33 (about 1_024_454.83) and the exchange shows
    the float 8360000000000303 / 2^33: the change is above 5%, the code
    computes 500.0 bps and invokes the update.  In the other direction,
    from the float nearest to 1_952_529.63 to the float nearest to
    1_854_903.1485 the change is below 5%, the code computes
    500.00000000000006 bps and skips the update. *)
Lemma report_nav_rate_limit_counterexample :
  (0 < NAVReporter.last_nav Scenario.reporter_above /\
   0.05 < Qabs (Scenario.equity_above -
                NAVReporter.last_nav Scenario.reporter_above) /
          NAVReporter.last_nav Scenario.reporter_above /\
   nav_invoked
     (evs (NAVReporter._report_nav Sim.gw Scenario.reporter_above
             (Scenario.exchange_equity Scenario.equity_above))) = true) /\
  (0 < Scenario.equity_below /\
   Qabs (Scenario.equity_below -
         NAVReporter.last_nav Scenario.reporter_below) /
   NAVReporter.last_nav Scenario.reporter_below <= 0.05 /\
   nav_invoked
     (evs (NAVReporter._report_nav Sim.gw Scenario.reporter_below
             (Scenario.exchange_equity Scenario.equity_below))) = false).
Proof.
  split; (split; [reflexivity|split]).
  - reflexivity.
  - vm_compute. reflexivity.
  - vm_compute. discriminate.
  - vm_compute. reflexivity.
Qed.

(** ** The force path *)

Section ForceUpdate.
Import NAVReporter.
Context {W : Type}.
Variable gw : Gateways W.

(** C4, as the code has it.  [force_update] never consults
    [_is_safe_update]: a forced value [nav > 0] is sent on-chain whatever
    [last_nav] is, and becomes [last_nav] exactly when the invocation
    succeeds; a forced value [nav <= 0] makes no call and changes
    nothing. *)
Theorem force_update_skips_rate_limit (r : t) (w : W) (nav : Q) :
  let out := force_update gw (Some nav) r w in
  let sent := truthy (fst (gw_invoke_contract gw "update_nav"
                             [usdc_raw nav] w)) in
  (0 < nav ->
     evs out = [InvokeContract "update_nav" [usdc_raw nav]] /\
     val out = sent /\
     last_nav (self out) = if sent then nav else last_nav r) /\
  (nav <= 0 -> evs out = [] /\ val out = false /\ self out = r).
Proof.
  unfold force_update, _update_vault_nav, now. run.
  split; intros H.
  - apply leb_gt in H. rewrite H.
    destruct (gw_invoke_contract gw "update_nav" _ w) as [[tx|] w1];
      simpl; repeat split; reflexivity.
  - apply leb_le in H. rewrite H. simpl. repeat split; reflexivity.
Qed.

End ForceUpdate.

Lemma force_update_skips_rate_limit_witness :
  evs (NAVReporter.force_update Sim.gw (Some 1060000) Scenario.reporter
         Sim.quiet) =
    [InvokeContract "update_nav" [1060000000000%Z]] /\
  evs (NAVReporter.force_update Sim.gw (Some (-1)) Scenario.reporter
         Sim.quiet) = [].
Proof.
  split.
  - assert (Hn : 0 < 1060000) by reflexivity.
    exact (proj1 (proj1 (force_update_skips_rate_limit Sim.gw
                           Scenario.reporter Sim.quiet 1060000) Hn)).
  - assert (Hn : -1 <= 0) by (vm_compute; discriminate).
    exact (proj1 (proj2 (force_update_skips_rate_limit Sim.gw
                           Scenario.reporter Sim.quiet (-1)) Hn)).
Defined.

(** C4 as stated fails: with last report 1_000_000, a forced 1_060_000 (6%
    away) is invoked on-chain and replaces [last_nav]. *)
Lemma force_update_rate_limit_counterexample :
  0 < NAVReporter.last_nav Scenario.reporter /\
  0.05 < Qabs (1060000 - NAVReporter.last_nav Scenario.reporter)
         / NAVReporter.last_nav Scenario.reporter /\
  nav_invoked
    (evs (NAVReporter.force_update Sim.gw (Some 1060000) Scenario.reporter
            Sim.quiet)) = true /\
  NAVReporter.last_nav
    (self (NAVReporter.force_update Sim.gw (Some 1060000) Scenario.reporter
             Sim.quiet)) = 1060000 /\
  ~ NAVReporter.last_nav
      (self (NAVReporter.force_update Sim.gw (Some 1060000)
               Scenario.reporter Sim.quiet))
    == NAVReporter.last_nav Scenario.reporter.
Proof.
  repeat split; try reflexivity.
  vm_compute. discriminate.
Qed.

(** ** Balance monitor *)

(** Boolean tests of the code as order facts. *)
Ltac order_facts :=
  repeat match goal with
  | H : _ && _ = true |- _ => apply andb_true_iff in H; destruct H
  | H : ltb _ _ = true |- _ => apply ltb_lt in H
  | H : ltb _ _ = false |- _ => apply ltb_ge in H
  | H : leb _ _ = true |- _ => apply leb_le in H
  | H : leb _ _ = false |- _ => apply leb_gt in H
  end.

Lemma min_cases (x y : Q) :
  (y < x /\ Py.min x y = y) \/ (x <= y /\ Py.min x y = x).
Proof.
  unfold Py.min. destruct (ltb y x) eqn:E; order_facts; tauto.
Qed.

Lemma max_cases (x y : Q) :
  (x < y /\ Py.max x y = y) \/ (y <= x /\ Py.max x y = x).
Proof.
  unfold Py.max. destruct (ltb x y) eqn:E; order_facts; tauto.
Qed.

Section StrategyFrame.
Context {W S : Type}.
Variable gw : Gateways W.
Variable settings : Settings.

(** A strategy pass never writes the object it runs on. *)
Lemma execute_strategy_self (s : S) (w : W) :
  self (Strategy.execute_strategy gw settings s w) = s.
Proof.
  unfold Strategy.execute_strategy, Strategy.act_on, Strategy.get_state,
    Strategy.open_close_or_hold, bind_raise.
  run.
  destruct (gw_get_funding_rate gw w) as [[|rate] w1]; simpl;
    [reflexivity|].
  destruct (gw_get_short_position gw w1) as [[|pos] w2]; simpl;
    [reflexivity|].
  destruct (gw_get_balance gw w2) as [bal w3]; simpl.
  destruct (gw_get_mark_price gw w3) as [[|price] w4]; simpl;
    [reflexivity|].
  destruct (gw_get_vault_wbtc_held gw w4) as [held w5]; simpl.
  repeat match goal with
  | |- context [if ?b then _ else _] => destruct b; simpl
  | |- context [gw_open_short_position gw ?x ?w] =>
      destruct (gw_open_short_position gw x w) as [? ?]; simpl
  | |- context [gw_close_position gw ?x ?w] =>
      destruct (gw_close_position gw x w) as [? ?]; simpl
  | |- context [gw_get_mark_price gw ?w] =>
      destruct (gw_get_mark_price gw w) as [[|?] ?]; simpl
  end; reflexivity.
Qed.

End StrategyFrame.

Section VaultMonitorFacts.
Import VaultMonitor.
Context {W : Type}.
Variable gw : Gateways W.
Variable settings : Settings.

Lemma observed_increase_nonneg (m : t) (w : W) :
  0 <= observed_increase gw m w.
Proof.
  unfold observed_increase.
  destruct (ltb (last_balance m) (fst (gw_get_usdc_balance gw w))) eqn:E;
    order_facts; lra.
Qed.

(** A poll adds to [pending_deposit] at most the increase it observes and
    never adds to [pending_withdrawal_amount]. *)
Lemma check_bounds (m : t) (w : W) :
  let out := check_for_balance_changes gw m w in
  pending_deposit (self out) <=
    pending_deposit m + observed_increase gw m w /\
  pending_withdrawal_amount (self out) <= pending_withdrawal_amount m.
Proof.
  pose proof (observed_increase_nonneg m w) as Hinc. revert Hinc.
  unfold check_for_balance_changes, forward_available, classify_increase,
    _save_state, observed_increase.
  run.
  destruct (gw_get_usdc_balance gw w) as [cur w1]; simpl.
  destruct m as [lb pd pw rn]; simpl.
  intros Hinc.
  repeat (simpl; match goal with
    | |- context [Py.min ?a ?b] =>
        destruct (min_cases a b) as [[? ->]|[? ->]]
    | |- context [gw_send_usdc_to_vault gw ?a ?w'] =>
        destruct (gw_send_usdc_to_vault gw a w') as [[?|] ?]
    | |- context [ltb ?a ?b] => destruct (ltb a b) eqn:?
    end).
  all: simpl in *; order_facts; split; lra.
Qed.

Lemma expect_bounds (m : t) (w : W) (amount : Q) :
  let out := expect_withdrawal amount m w in
  pending_deposit (self out) = pending_deposit m /\
  pending_withdrawal_amount (self out) =
    pending_withdrawal_amount m + amount.
Proof.
  unfold expect_withdrawal, _save_state. run. split; reflexivity.
Qed.

(** A deposit pass leaves [pending_deposit] as it is or resets it. *)
Lemma auto_deposit_bounds (m : t) (w : W) :
  let out := auto_deposit_if_pending gw settings m w in
  (pending_deposit (self out) = pending_deposit m \/
   pending_deposit (self out) = 0) /\
  pending_withdrawal_amount (self out) = pending_withdrawal_amount m.
Proof.
  unfold auto_deposit_if_pending. run.
  destruct (leb 1 (pending_deposit m)); simpl; [|tauto].
  destruct (gw_deposit_to_extended gw (pending_deposit m) w)
    as [[tx|] w1]; simpl; [|tauto].
  pose proof (execute_strategy_self gw settings
                (set_pending_deposit 0 m) w1) as Hs.
  destruct (Strategy.execute_strategy gw settings
              (set_pending_deposit 0 m) w1) as [a s1 w2 e].
  simpl in *. subst s1. simpl. tauto.
Qed.

Lemma run_op_covered (o : op) (m : t) (w : W) (c : tally) :
  covered m c ->
  covered (self (run_op gw settings o m w)) (count_op gw o m w c).
Proof.
  intros (H0 & Hd & Hw). unfold covered.
  destruct o as [|amount|].
  - pose proof (check_bounds m w) as [B1 B2].
    pose proof (observed_increase_nonneg m w) as B0.
    unfold run_op, count_op, bind, ret.
    destruct (check_for_balance_changes gw m w) as [a s1 w1 e].
    simpl in *. repeat split; lra.
  - pose proof (expect_bounds m w amount) as [B1 B2].
    change (run_op gw settings (Expect amount) m w)
      with (expect_withdrawal amount m w).
    rewrite B1, B2. simpl. repeat split; lra.
  - pose proof (auto_deposit_bounds m w) as [B1 B2].
    unfold run_op, count_op, bind, ret.
    destruct (auto_deposit_if_pending gw settings m w) as [a s1 w1 e].
    simpl in *. rewrite B2. destruct B1 as [-> | ->]; repeat split; lra.
Qed.

Lemma run_ops_covered (ops : list op) :
  forall (m : t) (w : W) (c : tally),
    covered m c ->
    covered (fst (fst (run_ops gw settings ops m w c)))
            (snd (run_ops gw settings ops m w c)).
Proof.
  induction ops as [|o rest IH]; intros m w c H; simpl.
  - exact H.
  - apply IH. apply run_op_covered. exact H.
Qed.

Lemma run_ops_expected (ops : list op) :
  (forall amount, ~ In (Expect amount) ops) ->
  forall (m : t) (w : W) (c : tally),
    total_expected (snd (run_ops gw settings ops m w c)) =
    total_expected c.
Proof.
  induction ops as [|o rest IH]; intros Hno m w c; simpl.
  - reflexivity.
  - rewrite IH.
    + destruct o as [|amount|]; simpl; try reflexivity.
      exfalso. apply (Hno amount). left. reflexivity.
    + intros amount Hin. apply (Hno amount). right. exact Hin.
Qed.

(** C9, as the code has it.  From a monitor with nothing pending, after
    any sequence of polls, registered withdrawals and deposit passes:
    [pending_deposit] never exceeds the inflow observed so far,
    [pending_withdrawal_amount] never exceeds the amounts registered by
    [expect_withdrawal], so their sum never exceeds the observed inflow
    plus the registered amounts; when nothing was registered the sum
    never exceeds the observed inflow. *)
Theorem classification_never_invents_funds (m0 : t) (ops : list op)
  (w : W) :
  pending_deposit m0 == 0 ->
  pending_withdrawal_amount m0 == 0 ->
  let final := run_ops gw settings ops m0 w (mkTally 0 0) in
  let m := fst (fst final) in
  let c := snd final in
  pending_deposit m <= total_inflow c /\
  pending_withdrawal_amount m <= total_expected c /\
  pending_deposit m + pending_withdrawal_amount m <=
    total_inflow c + total_expected c /\
  ((forall amount, ~ In (Expect amount) ops) ->
   pending_deposit m + pending_withdrawal_amount m <= total_inflow c).
Proof.
  intros Hd0 Hw0 final m c.
  assert (H : covered m c).
  { apply run_ops_covered. unfold covered. simpl. repeat split; lra. }
  destruct H as (H0 & Hd & Hw).
  repeat split; try assumption; try lra.
  intros Hno.
  assert (E : total_expected c = 0).
  { unfold c, final. rewrite run_ops_expected by exact Hno. reflexivity. }
  rewrite E in Hw. lra.
Qed.

(** C10 (a decrease is never classified).  With no withdrawal expected
    and a reading not above the last observed balance, the poll only
    reads the wallet, stores the reading as the last observed balance and
    returns 0: nothing is forwarded, deposited or saved, and the pending
    amounts are untouched. *)
Theorem balance_decrease_not_classified (m : t) (w : W) :
  pending_withdrawal_amount m == 0 ->
  fst (gw_get_usdc_balance gw w) <= last_balance m ->
  let out := check_for_balance_changes gw m w in
  val out = 0 /\
  evs out = [GetUsdcBalance] /\
  self out = set_last_balance (fst (gw_get_usdc_balance gw w)) m /\
  pending_deposit (self out) = pending_deposit m /\
  pending_withdrawal_amount (self out) = pending_withdrawal_amount m /\
  last_balance (self out) = fst (gw_get_usdc_balance gw w).
Proof.
  intros Hpw Hle.
  unfold check_for_balance_changes, forward_available. run.
  destruct (gw_get_usdc_balance gw w) as [cur w1]; simpl in *.
  assert (E1 : ltb 0 (pending_withdrawal_amount m) = false)
    by (apply ltb_ge; lra).
  assert (E2 : ltb (last_balance m) cur = false)
    by (apply ltb_ge; exact Hle).
  rewrite E1. simpl. rewrite E2. simpl.
  repeat split; reflexivity.
Qed.

End VaultMonitorFacts.

(** Two polls see the wallet rise to 50 and then to 80; nothing was
    registered: the pending amounts stay within the 80 observed. *)
Lemma classification_never_invents_funds_witness :
  (forall amount,
     ~ In (VaultMonitor.Expect amount)
          [VaultMonitor.Check; VaultMonitor.Check]) /\
  VaultMonitor.pending_deposit
    (fst (fst (VaultMonitor.run_ops Sim.gw default_settings
                 [VaultMonitor.Check; VaultMonitor.Check] VaultMonitor.init
                 (Scenario.wallet [50; 80]) (VaultMonitor.mkTally 0 0)))) +
  VaultMonitor.pending_withdrawal_amount
    (fst (fst (VaultMonitor.run_ops Sim.gw default_settings
                 [VaultMonitor.Check; VaultMonitor.Check] VaultMonitor.init
                 (Scenario.wallet [50; 80]) (VaultMonitor.mkTally 0 0)))) <=
  VaultMonitor.total_inflow
    (snd (VaultMonitor.run_ops Sim.gw default_settings
            [VaultMonitor.Check; VaultMonitor.Check] VaultMonitor.init
            (Scenario.wallet [50; 80]) (VaultMonitor.mkTally 0 0))).
Proof.
  assert (Hno : forall amount,
            ~ In (VaultMonitor.Expect amount)
                 [VaultMonitor.Check; VaultMonitor.Check]).
  { intros amount [H|[H|[]]]; discriminate H. }
  assert (Hd : VaultMonitor.pending_deposit VaultMonitor.init == 0)
    by reflexivity.
  assert (Hw : VaultMonitor.pending_withdrawal_amount VaultMonitor.init
               == 0) by reflexivity.
  split; [exact Hno|].
  exact (proj2 (proj2 (proj2
           (classification_never_invents_funds Sim.gw default_settings
              VaultMonitor.init [VaultMonitor.Check; VaultMonitor.Check]
              (Scenario.wallet [50; 80]) Hd Hw))) Hno).
Defined.

(** C9 as stated fails: a withdrawal of 100 is registered, the next poll
    sees an empty wallet; 100 is pending against an observed inflow of 0. *)
Lemma classification_conservation_counterexample :
  VaultMonitor.total_inflow
    (snd (VaultMonitor.run_ops Sim.gw default_settings
            [VaultMonitor.Expect 100; VaultMonitor.Check] VaultMonitor.init
            (Scenario.wallet [0]) (VaultMonitor.mkTally 0 0))) == 0 /\
  VaultMonitor.pending_deposit
    (fst (fst (VaultMonitor.run_ops Sim.gw default_settings
                 [VaultMonitor.Expect 100; VaultMonitor.Check]
                 VaultMonitor.init (Scenario.wallet [0])
                 (VaultMonitor.mkTally 0 0)))) +
  VaultMonitor.pending_withdrawal_amount
    (fst (fst (VaultMonitor.run_ops Sim.gw default_settings
                 [VaultMonitor.Expect 100; VaultMonitor.Check]
                 VaultMonitor.init (Scenario.wallet [0])
                 (VaultMonitor.mkTally 0 0)))) == 100 /\
  ~ (VaultMonitor.pending_deposit
       (fst (fst (VaultMonitor.run_ops Sim.gw default_settings
                    [VaultMonitor.Expect 100; VaultMonitor.Check]
                    VaultMonitor.init (Scenario.wallet [0])
                    (VaultMonitor.mkTally 0 0)))) +
     VaultMonitor.pending_withdrawal_amount
       (fst (fst (VaultMonitor.run_ops Sim.gw default_settings
                    [VaultMonitor.Expect 100; VaultMonitor.Check]
                    VaultMonitor.init (Scenario.wallet [0])
                    (VaultMonitor.mkTally 0 0)))) <=
     VaultMonitor.total_inflow
       (snd (VaultMonitor.run_ops Sim.gw default_settings
               [VaultMonitor.Expect 100; VaultMonitor.Check]
               VaultMonitor.init (Scenario.wallet [0])
               (VaultMonitor.mkTally 0 0)))).
Proof.
  repeat split; try reflexivity.
  vm_compute. intros H. apply H. reflexivity.
Qed.

(** The wallet falls from 100 to 60 with nothing expected. *)
Lemma balance_decrease_not_classified_witness :
  val (VaultMonitor.check_for_balance_changes Sim.gw Scenario.monitor
         (Scenario.wallet [60])) = 0 /\
  evs (VaultMonitor.check_for_balance_changes Sim.gw Scenario.monitor
         (Scenario.wallet [60])) = [GetUsdcBalance] /\
  self (VaultMonitor.check_for_balance_changes Sim.gw Scenario.monitor
          (Scenario.wallet [60])) = VaultMonitor.mk 60 5 0 true.
Proof.
  assert (H1 : VaultMonitor.pending_withdrawal_amount Scenario.monitor == 0)
    by reflexivity.
  assert (H2 : fst (gw_get_usdc_balance Sim.gw (Scenario.wallet [60]))
               <= VaultMonitor.last_balance Scenario.monitor)
    by (vm_compute; discriminate).
  destruct (balance_decrease_not_classified Sim.gw Scenario.monitor
              (Scenario.wallet [60]) H1 H2) as (A & B & C & _).
  repeat split; assumption.
Defined.

(** ** Delta rebalancing *)

Section DeltaRebalancing.
Import Strategy.
Context {W S : Type}.
Variable gw : Gateways W.
Variable settings : Settings.







End DeltaRebalancing.



(** ** Funding-close latch *)

Section FundingLatch.
Import PositionManager.
Context {W : Type}.
Variable gw : Gateways W.

(** What one funding check does, by the rate observed and the flag. *)
Lemma check_funding_rate_cases (m : t) (w : W) (rate : Q) :
  fst (gw_get_funding_rate gw w) = Returned rate ->
  let out := _check_funding_rate gw m w in
  (rate < negative_funding_threshold m ->
     position_closed_due_to_funding m = false ->
     evs out = [GetFundingRate; ClosePosition None] /\
     position_closed_due_to_funding (self out) = true) /\
  (rate < negative_funding_threshold m ->
     position_closed_due_to_funding m = true ->
     evs out = [GetFundingRate] /\ self out = m) /\
  (negative_funding_threshold m <= rate ->
     evs out = [GetFundingRate] /\
     position_closed_due_to_funding (self out) = false).
Proof.
  intros Hrate. unfold _check_funding_rate, _close_all_positions. run.
  destruct (gw_get_funding_rate gw w) as [o w1]. simpl in Hrate.
  subst o. simpl.
  destruct (ltb rate (negative_funding_threshold m)) eqn:E;
    destruct (position_closed_due_to_funding m) eqn:F; simpl.
  all: order_facts.
  all: repeat split; intros; try discriminate; try reflexivity.
  all: try (exfalso; lra).
  all: destruct m; simpl in *; congruence.
Qed.

End FundingLatch.

(** C8 at the input where it fails: the flag is set and the funding rate
    observed is -0.00005, negative but not below the threshold of -0.0001;
    the check clears the flag although funding has not turned positive. *)
Theorem funding_flag_cleared_at_negative_rate :
  -0.00005 < 0 /\
  PositionManager.position_closed_due_to_funding Scenario.latched = true /\
  PositionManager.position_closed_due_to_funding
    (self (PositionManager._check_funding_rate Sim.gw Scenario.latched
             (Scenario.funding (-0.00005)))) = false /\
  evs (PositionManager._check_funding_rate Sim.gw Scenario.latched
         (Scenario.funding (-0.00005))) = [GetFundingRate].
Proof.
  repeat split; reflexivity.
Qed.

(** ** Deposit scan *)

Section DepositScan.
Import DepositProcessor.
Context {W : Type}.
Variable gw : Gateways W.
Variable settings : Settings.

(** An entry that reads as processed is skipped after the read. *)
Lemma scan_deposit_processed (request_id : nat) (s : t) (w : W)
  (d : DepositQueueItem) :
  deposit_view gw w request_id = Some d ->
  processed d = true ->
  let out := scan_deposit gw settings request_id s w in
  evs out = [CallContract "get_pending_deposit" [Z.of_nat request_id]] /\
  self out = s /\
  wld out = snd (gw_call_contract gw "get_pending_deposit"
                   [Z.of_nat request_id] w).
Proof.
  unfold deposit_view, scan_deposit, _get_pending_deposit. run.
  intros -> Hp. destruct (user d =? 0)%Z; simpl.
  - repeat split; reflexivity.
  - rewrite Hp. simpl. repeat split; reflexivity.
Qed.

(** In a settled queue one step of the scan only reads. *)
Lemma scan_deposit_settled (request_id : nat) (s : t) (w : W) :
  settled gw w ->
  let out := scan_deposit gw settings request_id s w in
  evs out = [CallContract "get_pending_deposit" [Z.of_nat request_id]] /\
  self out = s /\
  wld out = snd (gw_call_contract gw "get_pending_deposit"
                   [Z.of_nat request_id] w).
Proof.
  intros Hs.
  destruct (deposit_view gw w request_id) as [d|] eqn:E.
  - destruct (Z.eq_dec (user d) 0) as [Hu|Hu].
    + revert E. unfold deposit_view, scan_deposit, _get_pending_deposit.
      run. intros ->. apply Z.eqb_eq in Hu. rewrite Hu. simpl.
      repeat split; reflexivity.
    + apply (scan_deposit_processed request_id s w d E).
      exact (Hs request_id d E Hu).
  - revert E. unfold deposit_view, scan_deposit, _get_pending_deposit.
    run. intros ->. simpl. repeat split; reflexivity.
Qed.

Lemma scan_settled_reads_only (ids : list nat) :
  reads_keep_settled gw ->
  forall (s : t) (w : W),
    settled gw w ->
    let out := for_each_break ids (scan_deposit gw settings) s w in
    forallb is_deposit_read (evs out) = true /\ self out = s.
Proof.
  intros Hkeep. induction ids as [|i rest IH]; intros s w Hs; simpl.
  - split; reflexivity.
  - destruct (scan_deposit_settled i s w Hs) as (He & Hself & Hw).
    unfold bind.
    destruct (scan_deposit gw settings i s w) as [stop s1 w1 e1].
    simpl in He, Hself, Hw. subst e1 s1 w1.
    destruct stop; simpl.
    + split; reflexivity.
    + specialize (IH s _ (Hkeep i w Hs)). simpl in IH.
      destruct (for_each_break rest (scan_deposit gw settings) s _)
        as [u s2 w2 e2].
      simpl in *. exact IH.
Qed.

Lemma reads_are_not_mints (l : list event) :
  forallb is_deposit_read l = true -> mints l = 0%nat.
Proof.
  unfold mints. induction l as [|e l IH]; simpl; [reflexivity|].
  intros H. apply andb_true_iff in H as [He Hl].
  destruct e; simpl in *; try discriminate. exact (IH Hl).
Qed.

(** C3 (idempotent deposit scan).  Reading the queue leaving the queue
    as it is: an entry whose [processed] flag is read as true is skipped
    with no call but the read; a scan of a queue whose live entries are
    all processed makes no mint invocation; and when the first of two
    scans in a row leaves the queue so, the second one mints nothing. *)
Theorem deposit_scan_idempotent (s : t) (w : W) :
  reads_keep_settled gw ->
  (forall request_id s' w' d,
     deposit_view gw w' request_id = Some d ->
     processed d = true ->
     evs (scan_deposit gw settings request_id s' w') =
       [CallContract "get_pending_deposit" [Z.of_nat request_id]]) /\
  (settled gw w ->
     mints (evs (_process_pending_deposits gw settings s w)) = 0%nat /\
     forallb is_deposit_read
       (evs (_process_pending_deposits gw settings s w)) = true) /\
  (let first := _process_pending_deposits gw settings s w in
   settled gw (wld first) ->
   mints (evs (_process_pending_deposits gw settings (self first)
                 (wld first))) = 0%nat).
Proof.
  intros Hkeep. split; [|split].
  - intros request_id s' w' d E Hp.
    exact (proj1 (scan_deposit_processed request_id s' w' d E Hp)).
  - intros Hs.
    pose proof (scan_settled_reads_only (seq 0 MAX_DEPOSITS) Hkeep s w Hs)
      as [Hr _].
    split; [apply reads_are_not_mints|]; exact Hr.
  - intros first Hs. apply reads_are_not_mints.
    apply (scan_settled_reads_only (seq 0 MAX_DEPOSITS) Hkeep _ _ Hs).
Qed.

End DepositScan.

(** The scenario of the specification, twice in a row: the first scan mints
    for entry 0 once and stops at the sentinel, the ledger marks the entry,
    and the second scan mints nothing. *)
Lemma deposit_scan_idempotent_witness :
  mints (evs (DepositProcessor._process_pending_deposits Sim.gw
                default_settings DepositProcessor.init
                Scenario.deposit_queue)) = 1%nat /\
  mints (evs (DepositProcessor._process_pending_deposits Sim.gw
                default_settings DepositProcessor.init
                (wld (DepositProcessor._process_pending_deposits Sim.gw
                        default_settings DepositProcessor.init
                        Scenario.deposit_queue)))) = 0%nat.
Proof.
  assert (Hkeep : DepositProcessor.reads_keep_settled Sim.gw).
  { intros request_id w H. exact H. }
  assert (Hs : DepositProcessor.settled Sim.gw
                 (wld (DepositProcessor._process_pending_deposits Sim.gw
                         default_settings DepositProcessor.init
                         Scenario.deposit_queue))).
  { intros request_id d E Hu.
    destruct request_id as [|n].
    - vm_compute in E. injection E as <-. reflexivity.
    - exfalso. apply Hu.
      unfold DepositProcessor.deposit_view in E. simpl in E.
      injection E as <-. reflexivity. }
  split.
  - reflexivity.
  - exact (proj2 (proj2 (deposit_scan_idempotent Sim.gw default_settings
                           DepositProcessor.init Scenario.deposit_queue
                           Hkeep)) Hs).
Defined.

(** ** The dict of withdrawals in flight *)

Section DictFacts.
Context {V : Type}.

Lemma dict_get_set_same (k : nat) (v : V) (d : Dict.t V) :
  Dict.get k (Dict.set k v d) = Some v.
Proof.
  induction d as [|[k' v'] rest IH]; simpl.
  - rewrite Nat.eqb_refl. reflexivity.
  - destruct (Nat.eqb k k') eqn:E; simpl.
    + rewrite Nat.eqb_refl. reflexivity.
    + rewrite E. exact IH.
Qed.

Lemma dict_get_set_other (k k' : nat) (v : V) (d : Dict.t V) :
  k <> k' -> Dict.get k' (Dict.set k v d) = Dict.get k' d.
Proof.
  intros Hne. induction d as [|[k0 v0] rest IH]; simpl.
  - destruct (Nat.eqb k' k) eqn:E; [|reflexivity].
    apply Nat.eqb_eq in E. congruence.
  - destruct (Nat.eqb k k0) eqn:E; simpl.
    + apply Nat.eqb_eq in E. subst k0.
      destruct (Nat.eqb k' k) eqn:E'; [|reflexivity].
      apply Nat.eqb_eq in E'. congruence.
    + rewrite IH. reflexivity.
Qed.

Lemma dict_get_del_same (k : nat) (d : Dict.t V) :
  Dict.get k (Dict.del k d) = None.
Proof.
  unfold Dict.del. induction d as [|[k' v'] rest IH]; simpl.
  - reflexivity.
  - destruct (Nat.eqb k k') eqn:E; simpl.
    + exact IH.
    + rewrite E. exact IH.
Qed.

Lemma dict_get_del_other (k k' : nat) (d : Dict.t V) :
  k <> k' -> Dict.get k' (Dict.del k d) = Dict.get k' d.
Proof.
  intros Hne. unfold Dict.del.
  induction d as [|[k0 v0] rest IH]; simpl.
  - reflexivity.
  - destruct (Nat.eqb k k0) eqn:E; simpl.
    + apply Nat.eqb_eq in E. subst k0.
      destruct (Nat.eqb k' k) eqn:E'; [|exact IH].
      apply Nat.eqb_eq in E'. congruence.
    + rewrite IH. reflexivity.
Qed.

Lemma dict_count_absent (k : nat) (d : Dict.t V) :
  Dict.get k d = None -> Dict.count k d = 0%nat.
Proof.
  unfold Dict.count. induction d as [|[k' v'] rest IH]; simpl.
  - reflexivity.
  - destruct (Nat.eqb k k'); [discriminate|exact IH].
Qed.

Lemma dict_count_set_eq (k k' : nat) (v : V) (d : Dict.t V) :
  Dict.count k' (Dict.set k v d) =
  (Dict.count k' d +
   if Dict.mem k d then 0 else if Nat.eqb k' k then 1 else 0)%nat.
Proof.
  unfold Dict.count, Dict.mem.
  induction d as [|[k0 v0] rest IH]; simpl.
  - destruct (Nat.eqb k' k); reflexivity.
  - destruct (Nat.eqb k k0) eqn:E; simpl.
    + apply Nat.eqb_eq in E. subst k0.
      destruct (Nat.eqb k' k); simpl; lia.
    + destruct (Nat.eqb k' k0); simpl; rewrite IH; lia.
Qed.

(** An assignment never makes a second entry under a key. *)
Lemma dict_count_set (k k' : nat) (v : V) (d : Dict.t V) :
  (Dict.count k' d <= 1)%nat -> (Dict.count k' (Dict.set k v d) <= 1)%nat.
Proof.
  intros H. rewrite dict_count_set_eq.
  unfold Dict.mem. destruct (Dict.get k d) eqn:G; simpl; [lia|].
  destruct (Nat.eqb k' k) eqn:E; [|lia].
  apply Nat.eqb_eq in E. subst k'.
  rewrite (dict_count_absent k d G). lia.
Qed.

Lemma dict_count_del (k k' : nat) (d : Dict.t V) :
  (Dict.count k' (Dict.del k d) <= Dict.count k' d)%nat.
Proof.
  unfold Dict.count, Dict.del.
  induction d as [|[k0 v0] rest IH]; simpl.
  - lia.
  - destruct (Nat.eqb k k0); simpl; destruct (Nat.eqb k' k0); simpl; lia.
Qed.

Lemma dict_count_dels (ks : list nat) (k' : nat) :
  forall d : Dict.t V,
    (Dict.count k'
       (fold_left (fun d k => Dict.del k d) ks d) <= Dict.count k' d)%nat.
Proof.
  induction ks as [|k rest IH]; intros d; simpl.
  - lia.
  - specialize (IH (Dict.del k d)).
    pose proof (dict_count_del k k' d). lia.
Qed.

End DictFacts.

(** ** Running a method step by step *)

Section BindFacts.
Context {W S A B : Type}.
Variables (m : M W S A) (f : A -> M W S B) (s : S) (w : W).

Lemma bind_evs :
  evs (bind m f s w) =
  evs (m s w) ++ evs (f (val (m s w)) (self (m s w)) (wld (m s w))).
Proof.
  unfold bind. destruct (m s w) as [a s1 w1 e1]. simpl.
  destruct (f a s1 w1). reflexivity.
Qed.

Lemma bind_self :
  self (bind m f s w) =
  self (f (val (m s w)) (self (m s w)) (wld (m s w))).
Proof.
  unfold bind. destruct (m s w) as [a s1 w1 e1]. simpl.
  destruct (f a s1 w1). reflexivity.
Qed.

Lemma bind_wld :
  wld (bind m f s w) =
  wld (f (val (m s w)) (self (m s w)) (wld (m s w))).
Proof.
  unfold bind. destruct (m s w) as [a s1 w1 e1]. simpl.
  destruct (f a s1 w1). reflexivity.
Qed.

Lemma bind_val :
  val (bind m f s w) =
  val (f (val (m s w)) (self (m s w)) (wld (m s w))).
Proof.
  unfold bind. destruct (m s w) as [a s1 w1 e1]. simpl.
  destruct (f a s1 w1). reflexivity.
Qed.

End BindFacts.

Lemma starts_app (id : nat) (l1 l2 : list event) :
  starts id (l1 ++ l2) = (starts id l1 + starts id l2)%nat.
Proof.
  unfold starts. rewrite filter_app, length_app. reflexivity.
Qed.

(** ** Withdrawal state machine *)

(** One more answer of a gateway, or one more test of the code. *)
Ltac answer gw :=
  match goal with
  | |- context [gw_call_contract gw ?fn ?a ?w] =>
      destruct (gw_call_contract gw fn a w) as [[|? ?] ?]
  | |- context [gw_now gw ?w] => destruct (gw_now gw w) as [? ?]
  | |- context [gw_get_positions gw ?w] =>
      destruct (gw_get_positions gw w) as [[|[|? ?]] ?]
  | |- context [gw_close_position gw ?a ?w] =>
      destruct (gw_close_position gw a w) as [? ?]
  | |- context [gw_withdraw_from_extended gw ?a ?w] =>
      destruct (gw_withdraw_from_extended gw a w) as [[?|] ?]
  | |- context [gw_get_usdc_balance gw ?w] =>
      destruct (gw_get_usdc_balance gw w) as [? ?]
  | |- context [gw_send_usdc_to_vault gw ?a ?w] =>
      destruct (gw_send_usdc_to_vault gw a w) as [[?|] ?]
  | |- context [gw_invoke_contract gw ?fn ?a ?w] =>
      destruct (gw_invoke_contract gw fn a w) as [[?|] ?]
  | |- context [if ?b then _ else _] => destruct b eqn:?
  | |- context [match find ?f ?l with _ => _ end] =>
      destruct (find f l) as [?|]
  end; simpl.

Section WithdrawalFacts.
Import WithdrawalProcessor.
Context {W : Type}.
Variable gw : Gateways W.
Variable settings : Settings.

Lemma starts_cons_start (k id : nat) (l : list event) :
  starts k (LogStartProcessing id :: l) =
  ((if Nat.eqb k id then 1 else 0) + starts k l)%nat.
Proof.
  unfold starts. simpl. destruct (Nat.eqb k id); reflexivity.
Qed.

(** [_start_processing] logs one start, for its own id, and touches no
    other key. *)
Lemma start_processing_effect (item : WithdrawalQueueItem) (p : t)
  (w : W) (k : nat) :
  let out := _start_processing gw settings item p w in
  starts k (evs out) = (if Nat.eqb k (request_id item) then 1 else 0)%nat /\
  (k <> request_id item ->
     Dict.get k (processing_withdrawals (self out)) = Dict.get k
       (processing_withdrawals p)) /\
  ((Dict.count k (processing_withdrawals p) <= 1)%nat ->
     (Dict.count k (processing_withdrawals (self out)) <= 1)%nat).
Proof.
  unfold _start_processing, open_entry, request_withdrawal,
    _calculate_usdc_value, _close_proportional_position, now.
  run.
  destruct (Nat.eqb k (request_id item)) eqn:Ek.
  all: repeat answer gw.
  all: rewrite starts_cons_start, Ek.
  all: unfold starts, update_processing; simpl.
  all: rewrite ?dict_get_set_same.
  all: split; [lia|split].
  all: try (intros _; reflexivity).
  all: try (intros H; exact H).
  all: intros H.
  all: rewrite ?dict_get_set_other, ?dict_get_del_other,
         ?dict_get_set_other by congruence.
  all: try reflexivity.
  all: repeat first [ apply dict_count_set
                    | eapply Nat.le_trans; [apply dict_count_del|] ].
  all: exact H.
Qed.

Lemma parse_withdrawal_id (id : nat) (result : list Z)
  (item : WithdrawalQueueItem) :
  parse_withdrawal id result = Some item -> request_id item = id.
Proof.
  unfold parse_withdrawal.
  destruct result as [|r0 [|r1 [|r2 [|r3 [|r4 [|r5 [|r6 [|r7 [|r8 rest]]]]]]]]];
    try discriminate.
  destruct (status_of_int r8); [|discriminate].
  intros H. injection H as <-. reflexivity.
Qed.

(** One step of the scan, run. *)
Lemma scan_withdrawal_run (id : nat) (p : t) (w : W) :
  scan_withdrawal gw settings id p w =
  let r := gw_call_contract gw "get_pending_withdrawal" [Z.of_nat id] w in
  let read := CallContract "get_pending_withdrawal" [Z.of_nat id] in
  match parse_withdrawal id (fst r) with
  | Some item =>
      match status item with
      | PENDING =>
          if negb (Dict.mem id (processing_withdrawals p)) then
            let o := _start_processing gw settings item p (snd r) in
            mkRes tt (self o) (wld o) (read :: evs o)
          else mkRes tt p (snd r) [read]
      | _ => mkRes tt p (snd r) [read]
      end
  | None => mkRes tt p (snd r) [read]
  end.
Proof.
  unfold scan_withdrawal, _get_pending_withdrawal, bind, gateway, ret,
    get_self.
  simpl.
  destruct (parse_withdrawal id _) as [item|]; simpl; [|reflexivity].
  destruct (status item); simpl; try reflexivity.
  destruct (Dict.mem id (processing_withdrawals p)); simpl; [reflexivity|].
  destruct (_start_processing gw settings item p _) as [[] p1 w1 e1].
  reflexivity.
Qed.

(** One step of the scan: only the id scanned can be started, and it is
    started only when it has no entry. *)
Lemma scan_withdrawal_effect (id : nat) (p : t) (w : W) (k : nat) :
  let out := scan_withdrawal gw settings id p w in
  (k <> id ->
     starts k (evs out) = 0%nat /\
     Dict.get k (processing_withdrawals (self out)) = Dict.get k
       (processing_withdrawals p)) /\
  (Dict.mem id (processing_withdrawals p) = true ->
     starts k (evs out) = 0%nat /\ self out = p) /\
  (Dict.mem id (processing_withdrawals p) = false ->
     Dict.mem id (processing_withdrawals (self out)) = true ->
     starts id (evs out) = 1%nat) /\
  ((Dict.count k (processing_withdrawals p) <= 1)%nat ->
     (Dict.count k (processing_withdrawals (self out)) <= 1)%nat).
Proof.
  rewrite scan_withdrawal_run. cbv zeta.
  destruct (gw_call_contract gw "get_pending_withdrawal" [Z.of_nat id] w)
    as [result w1]; simpl.
  assert (Hidle :
    (k <> id ->
       starts k [CallContract "get_pending_withdrawal" [Z.of_nat id]]
         = 0%nat /\ Dict.get k (processing_withdrawals p) = Dict.get k
           (processing_withdrawals p)) /\
    (Dict.mem id (processing_withdrawals p) = true ->
       starts k [CallContract "get_pending_withdrawal" [Z.of_nat id]]
         = 0%nat /\ p = p) /\
    (Dict.mem id (processing_withdrawals p) = false ->
       Dict.mem id (processing_withdrawals p) = true ->
       starts id [CallContract "get_pending_withdrawal" [Z.of_nat id]]
         = 1%nat) /\
    ((Dict.count k (processing_withdrawals p) <= 1)%nat ->
       (Dict.count k (processing_withdrawals p) <= 1)%nat)).
  { repeat split; try reflexivity; try tauto. congruence. }
  destruct (parse_withdrawal id result) as [item|] eqn:Ep; simpl;
    [|exact Hidle].
  apply parse_withdrawal_id in Ep.
  destruct (status item); simpl; try exact Hidle.
  destruct (Dict.mem id (processing_withdrawals p)) eqn:Em; simpl.
  { repeat split; intros; try reflexivity; try discriminate;
      assumption. }
  pose proof (start_processing_effect item p w1 k)
    as (Hs & Hg & Hc).
  pose proof (start_processing_effect item p w1 id)
    as (Hsid & _ & _).
  rewrite Ep in *.
  destruct (_start_processing gw settings item p w1) as [u p1 w2 e1].
  simpl in *.
  change (CallContract "get_pending_withdrawal" [Z.of_nat id] :: e1)
    with ([CallContract "get_pending_withdrawal" [Z.of_nat id]] ++ e1).
  rewrite !starts_app, Hs, Hsid, Nat.eqb_refl.
  repeat split; try discriminate.
  - apply Nat.eqb_neq in H. rewrite H. reflexivity.
  - apply Hg. exact H.
  - exact Hc.
Qed.

(** The scan over the ids [ids]. *)
Lemma scan_loop_effect (id : nat) (ids : list nat) :
  forall (p : t) (w : W),
    let out := for_each ids (scan_withdrawal gw settings) p w in
    (~ In id ids ->
       starts id (evs out) = 0%nat /\
       Dict.get id (processing_withdrawals (self out)) = Dict.get id
         (processing_withdrawals p)) /\
    (Dict.mem id (processing_withdrawals p) = true ->
       starts id (evs out) = 0%nat /\
       Dict.get id (processing_withdrawals (self out)) = Dict.get id
         (processing_withdrawals p)) /\
    (NoDup ids ->
       Dict.mem id (processing_withdrawals p) = false ->
       Dict.mem id (processing_withdrawals (self out)) = true ->
       starts id (evs out) = 1%nat).
Proof.
  induction ids as [|i rest IH]; intros p w; simpl.
  - repeat split; try reflexivity. congruence.
  - rewrite bind_evs, bind_self, starts_app.
    pose proof (scan_withdrawal_effect i p w id)
      as (Hother & Hpresent & Hstarted & _).
    set (one := scan_withdrawal gw settings i p w) in *.
    specialize (IH (self one) (wld one)). simpl in IH.
    destruct IH as (IHa & IHb & IHc).
    split; [|split].
    + intros Hnot.
      destruct (Hother ltac:(intros ->; apply Hnot; left; reflexivity))
        as [H1 H2].
      destruct (IHa ltac:(intros Hin; apply Hnot; right; exact Hin))
        as [H3 H4].
      rewrite H1, H3, H4, H2. split; reflexivity.
    + intros Hmem.
      destruct (Nat.eq_dec id i) as [<-|Hne].
      * destruct (Hpresent Hmem) as [H1 H2].
        rewrite H2 in IHb |- *. destruct (IHb Hmem) as [H3 H4].
        rewrite H1, H3, H4. split; reflexivity.
      * destruct (Hother Hne) as [H1 H2].
        assert (Hmem' : Dict.mem id (processing_withdrawals (self one)) = true).
        { unfold Dict.mem in *. rewrite H2. exact Hmem. }
        destruct (IHb Hmem') as [H3 H4].
        rewrite H1, H3, H4, H2. split; reflexivity.
    + intros Hnd Habsent Hfinal.
      apply NoDup_cons_iff in Hnd as [Hnotin Hnd].
      destruct (Nat.eq_dec id i) as [<-|Hne].
      * destruct (IHa Hnotin) as [H3 H4].
        rewrite H3. unfold Dict.mem in Hfinal. rewrite H4 in Hfinal.
        rewrite (Hstarted Habsent Hfinal). reflexivity.
      * destruct (Hother Hne) as [H1 H2].
        assert (Habsent' : Dict.mem id (processing_withdrawals (self one))
          = false).
        { unfold Dict.mem in *. rewrite H2. exact Habsent. }
        rewrite H1, (IHc Hnd Habsent' Hfinal). reflexivity.
Qed.

Lemma scan_loop_count (k : nat) (ids : list nat) :
  forall (p : t) (w : W),
    (Dict.count k (processing_withdrawals p) <= 1)%nat ->
    (Dict.count k
       (processing_withdrawals (self (for_each ids
         (scan_withdrawal gw settings) p w)))
     <= 1)%nat.
Proof.
  induction ids as [|i rest IH]; intros p w H; simpl.
  - exact H.
  - rewrite bind_self. apply IH.
    apply (scan_withdrawal_effect i p w k). exact H.
Qed.

(** [_process_pending_withdrawals], run. *)
Lemma process_pending_run (p : t) (w : W) :
  _process_pending_withdrawals gw settings p w =
  let r := gw_call_contract gw "get_withdrawal_queue_length" [] w in
  let read := CallContract "get_withdrawal_queue_length" [] in
  let queue_length := match fst r with [] => 0%Z | n :: _ => n end in
  if (queue_length =? 0)%Z then mkRes tt p (snd r) [read]
  else
    let o := for_each (seq 0 (Z.to_nat queue_length))
               (scan_withdrawal gw settings) p (snd r) in
    mkRes tt (self o) (wld o) (read :: evs o).
Proof.
  unfold _process_pending_withdrawals, _get_withdrawal_queue_length,
    bind, gateway, ret.
  simpl.
  destruct (match fst (gw_call_contract gw _ [] w) with
            | [] => 0%Z
            | n :: _ => n
            end =? 0)%Z; simpl; [reflexivity|].
  destruct (for_each _ _ p _) as [[] p1 w1 e1]. reflexivity.
Qed.

(** A scan starts an id at most once, and never an id in flight. *)
Lemma process_pending_effect (id : nat) (p : t) (w : W) :
  let out := _process_pending_withdrawals gw settings p w in
  (Dict.mem id (processing_withdrawals p) = true ->
     starts id (evs out) = 0%nat /\
     Dict.get id (processing_withdrawals (self out)) = Dict.get id
       (processing_withdrawals p)) /\
  (Dict.mem id (processing_withdrawals p) = false ->
     Dict.mem id (processing_withdrawals (self out)) = true ->
     starts id (evs out) = 1%nat) /\
  ((Dict.count id (processing_withdrawals p) <= 1)%nat ->
     (Dict.count id (processing_withdrawals (self out)) <= 1)%nat).
Proof.
  rewrite process_pending_run. cbv zeta.
  set (r := gw_call_contract gw "get_withdrawal_queue_length" [] w).
  set (n := match fst r with [] => 0%Z | x :: _ => x end).
  destruct (n =? 0)%Z; simpl.
  - repeat split; intros; try reflexivity; try assumption. congruence.
  - pose proof (scan_loop_effect id (seq 0 (Z.to_nat n)) p (snd r))
      as (_ & Hb & Hc).
    pose proof (scan_loop_count id (seq 0 (Z.to_nat n)) p (snd r)) as Hn.
    change (CallContract "get_withdrawal_queue_length" [] ::
            evs (for_each (seq 0 (Z.to_nat n))
                   (scan_withdrawal gw settings) p (snd r)))
      with ([CallContract "get_withdrawal_queue_length" []] ++
            evs (for_each (seq 0 (Z.to_nat n))
                   (scan_withdrawal gw settings) p (snd r))).
    rewrite starts_app. simpl.
    split; [exact Hb|split; [|exact Hn]].
    apply Hc. apply seq_NoDup.
Qed.

(** Checking an entry writes nothing and starts nothing. *)
Lemma check_entry_frame (id : nat) (data : entry) (p : t) (w : W)
  (k : nat) :
  self (check_entry gw id data p w) = p /\
  starts k (evs (check_entry gw id data p w)) = 0%nat.
Proof.
  unfold check_entry, _complete_processing.
  destruct (data_step data); run; [split; reflexivity|].
  repeat answer gw; split; reflexivity.
Qed.

Lemma check_entries_frame (k : nat) (items : list (nat * entry)) :
  forall (p : t) (w : W),
    self (check_entries gw items p w) = p /\
    starts k (evs (check_entries gw items p w)) = 0%nat.
Proof.
  induction items as [|[id data] rest IH]; intros p w; simpl.
  - split; reflexivity.
  - rewrite bind_self, bind_evs, bind_self, bind_evs, !starts_app.
    destruct (check_entry_frame id data p w k) as [H1 H2].
    rewrite H1, H2.
    destruct (IH p (wld (check_entry gw id data p w))) as [H3 H4].
    rewrite H3, H4. simpl. split; reflexivity.
Qed.

(** [_check_processing_withdrawals] only deletes entries. *)
Lemma check_processing_effect (k : nat) (p : t) (w : W) :
  let out := _check_processing_withdrawals gw p w in
  starts k (evs out) = 0%nat /\
  (Dict.count k (processing_withdrawals (self out)) <= Dict.count k
    (processing_withdrawals p))%nat.
Proof.
  unfold _check_processing_withdrawals. cbv zeta.
  rewrite bind_evs, bind_self, bind_evs, bind_self, !starts_app.
  unfold get_self, set_self. simpl.
  destruct (check_entries_frame k (processing_withdrawals p) p w) as [H1 H2].
  rewrite H1, H2. simpl. split; [reflexivity|].
  apply dict_count_dels.
Qed.

Lemma tick_count (k : nat) (p : t) (w : W) :
  (Dict.count k (processing_withdrawals p) <= 1)%nat ->
  (Dict.count k (processing_withdrawals (self (tick gw settings p w)))
    <= 1)%nat.
Proof.
  intros H. unfold tick. rewrite bind_self.
  pose proof (process_pending_effect k p w) as (_ & _ & Hc).
  set (one := _process_pending_withdrawals gw settings p w) in *.
  pose proof (check_processing_effect k (self one) (wld one)) as [_ Hd].
  eapply Nat.le_trans; [exact Hd|exact (Hc H)].
Qed.

Lemma ticks_count (k : nat) (n : nat) :
  forall (p : t) (w : W),
    (Dict.count k (processing_withdrawals p) <= 1)%nat ->
    (Dict.count k (processing_withdrawals (self (ticks gw settings n p w)))
      <= 1)%nat.
Proof.
  induction n as [|n IH]; intros p w H; simpl.
  - exact H.
  - rewrite bind_self. apply IH. apply tick_count. exact H.
Qed.

(** C2 (withdrawal dedup).  From the empty processing set, after any
    number of polling ticks, and after the scan of one more tick, a
    request id has at most one entry.  A scan that finds an entry for a
    PENDING id starts nothing for it and leaves the entry as it is; and
    when a scan starts an id that had no entry and leaves its entry in
    flight, the next scan, whatever the ledger shows then, skips it: the
    two scans start it exactly once. *)
Theorem withdrawal_dedup (id : nat) :
  (forall (n : nat) (w : W),
     let after := ticks gw settings n init w in
     (Dict.count id (processing_withdrawals (self after)) <= 1)%nat /\
     (Dict.count id
        (processing_withdrawals (self (_process_pending_withdrawals gw settings
                          (self after) (wld after)))) <= 1)%nat) /\
  (forall (p : t) (w : W),
     Dict.mem id (processing_withdrawals p) = true ->
     let out := _process_pending_withdrawals gw settings p w in
     starts id (evs out) = 0%nat /\
     Dict.get id (processing_withdrawals (self out)) = Dict.get id
       (processing_withdrawals p)) /\
  (forall (p : t) (w w' : W),
     Dict.mem id (processing_withdrawals p) = false ->
     let first := _process_pending_withdrawals gw settings p w in
     Dict.mem id (processing_withdrawals (self first)) = true ->
     let second :=
       _process_pending_withdrawals gw settings (self first) w' in
     starts id (evs first ++ evs second) = 1%nat /\
     Dict.get id (processing_withdrawals (self second)) =
       Dict.get id (processing_withdrawals (self first))).
Proof.
  split; [|split].
  - intros n w after.
    assert (H : (Dict.count id (processing_withdrawals (self after)) <= 1)%nat).
    { apply ticks_count. unfold init, Dict.count, Dict.empty. simpl. lia. }
    split; [exact H|].
    apply (process_pending_effect id (self after) (wld after)). exact H.
  - intros p w Hmem. apply (process_pending_effect id p w). exact Hmem.
  - intros p w w' Habsent first Hflight second.
    pose proof (process_pending_effect id p w) as (_ & Hc & _).
    pose proof (process_pending_effect id (self first) w') as (Hb & _ & _).
    destruct (Hb Hflight) as [H0 Hg].
    rewrite starts_app. fold first in Hc. fold second in H0, Hg.
    rewrite (Hc Habsent Hflight), H0. split; [reflexivity|exact Hg].
Qed.

(** [_start_processing], run step by step. *)
Lemma start_processing_run (item : WithdrawalQueueItem) (p : t) (w : W) :
  _start_processing gw settings item p w =
  let id := request_id item in
  let quote := _calculate_usdc_value gw (shares item) p w in
  if leb (val quote) 0
  then mkRes tt (self quote) (wld quote)
         (LogStartProcessing id :: evs quote)
  else
    let pre := open_entry gw settings item (val quote / 2)
                 (self quote) (wld quote) in
    let req := request_withdrawal gw id (val quote / 2)
                 (self pre) (wld pre) in
    mkRes tt (self req) (wld req)
      (LogStartProcessing id :: evs quote ++ evs pre ++ evs req).
Proof.
  unfold _start_processing, bind, emit, ret. cbv zeta.
  destruct (_calculate_usdc_value gw (shares item) p w)
    as [v p1 w1 e1]; simpl.
  destruct (leb v 0); simpl; [rewrite app_nil_r; reflexivity|].
  destruct (open_entry gw settings item (v / 2) p1 w1)
    as [[] p2 w2 e2]; simpl.
  destruct (request_withdrawal gw (request_id item) (v / 2) p2 w2)
    as [[] p3 w3 e3]; simpl.
  reflexivity.
Qed.

Lemma calculate_usdc_value_frame (n : Z) (p : t) (w : W) :
  self (_calculate_usdc_value gw n p w) = p /\
  evs (_calculate_usdc_value gw n p w) = [CallContract "preview_redeem" [n]].
Proof.
  unfold _calculate_usdc_value. run. split; reflexivity.
Qed.

(** The entry is stored with the half value and no withdrawal is
    requested yet. *)
Lemma open_entry_effect (item : WithdrawalQueueItem) (x : Q) (p : t)
  (w : W) :
  let pre := open_entry gw settings item x p w in
  processing_withdrawals (self pre) =
    Dict.set (request_id item)
      (mkEntry (user item) (shares item) x (fst (gw_now gw w))
         closing_position)
      (processing_withdrawals p) /\
  filter is_exchange_withdrawal (evs pre) = [].
Proof.
  unfold open_entry, _close_proportional_position, now. run.
  repeat answer gw; split; reflexivity.
Qed.

(** The request decides the entry: kept and waiting when the exchange
    answers, deleted when it answers [None]. *)
Lemma request_withdrawal_effect (id : nat) (x : Q) (p : t) (w : W) :
  let req := request_withdrawal gw id x p w in
  evs req = [WithdrawFromExtended x] /\
  processing_withdrawals (self req) =
    if truthy (fst (gw_withdraw_from_extended gw x w))
    then match Dict.get id (processing_withdrawals p) with
         | Some e => Dict.set id (set_step waiting_usdc e)
           (processing_withdrawals p)
         | None => processing_withdrawals p
         end
    else Dict.del id (processing_withdrawals p).
Proof.
  unfold request_withdrawal. run.
  destruct (gw_withdraw_from_extended gw x w) as [[st|] w1]; simpl;
    split; reflexivity.
Qed.

(** The value [_calculate_usdc_value] returns. *)
Lemma calculate_usdc_value_val (n : Z) (p : t) (w : W) :
  val (_calculate_usdc_value gw n p w) =
  match fst (gw_call_contract gw "preview_redeem" [n] w) with
  | [] => 0
  | r :: _ => Float.div (Float.of_int r) 1000000
  end.
Proof.
  unfold _calculate_usdc_value. run.
  destruct (gw_call_contract gw "preview_redeem" [n] w) as [[|r rest] w1];
    reflexivity.
Qed.

(** C6 (half-value split and READY transition), as the code has it.  [V]
    is the float the code values the shares at, [float(preview) / 1e6].
    For [V > 0] the processing requests from the exchange exactly one
    withdrawal, of [V / 2], and the entry it keeps holds [V / 2] and
    waits for the settlement.  The check of an entry forwards to the
    vault and invokes [mark_withdrawal_ready] only with the entry's
    amount, only for an entry that waits, and only when the wallet read
    holds at least that amount; it completes only through the read, the
    forward and the invocation, in this order.  The amount of the
    invocation is [int(amount * 1e6)] in binary64: for a preview of [r]
    raw units, [r] below [2^50], [V] is within two [epsilon] of
    [r / 1e6] and the raw amount of [V / 2] is the half of [r] or one
    unit less. *)
Theorem withdrawal_half_value (item : WithdrawalQueueItem) (p : t)
  (w : W) :
  let V := val (_calculate_usdc_value gw (shares item) p w) in
  0 < V ->
  let out := _start_processing gw settings item p w in
  filter is_exchange_withdrawal (evs out) =
    [WithdrawFromExtended (V / 2)] /\
  (forall e,
     Dict.get (request_id item) (processing_withdrawals (self out)) = Some e ->
     data_usdc_value e = V / 2 /\ data_step e = waiting_usdc) /\
  (forall (id : nat) (data : entry) (p' : t) (w' : W),
     let held := fst (gw_get_usdc_balance gw w') in
     let check := check_entry gw id data p' w' in
     let amount := data_usdc_value data in
     let forward := SendUsdcToVault amount in
     let ready := InvokeContract "mark_withdrawal_ready"
                    [Z.of_nat id; usdc_raw amount] in
     (forall e, In e (evs check) ->
        e = GetUsdcBalance \/
        ((e = forward \/ e = ready) /\
         amount <= held /\ data_step data = waiting_usdc)) /\
     (data_step data = waiting_usdc -> amount <= held ->
        In forward (evs check)) /\
     (val check = true ->
        evs check = [GetUsdcBalance; forward; ready] /\ amount <= held)) /\
  (forall r rest,
     fst (gw_call_contract gw "preview_redeem" [shares item] w) =
       r :: rest ->
     (0 < r < 2 ^ 50)%Z ->
     Qabs (V - inject_Z r / 1000000) <=
       2 * Float.epsilon * (inject_Z r / 1000000) /\
     (r - 2 <= 2 * usdc_raw (V / 2) <= r)%Z).
Proof.
  intros V HV out. subst out.
  assert (Hraw : forall r rest,
            fst (gw_call_contract gw "preview_redeem" [shares item] w) =
              r :: rest ->
            (0 < r < 2 ^ 50)%Z ->
            Qabs (V - inject_Z r / 1000000) <=
              2 * Float.epsilon * (inject_Z r / 1000000) /\
            (r - 2 <= 2 * usdc_raw (V / 2) <= r)%Z).
  { intros r rest Hres Hr. unfold V.
    rewrite calculate_usdc_value_val, Hres.
    destruct (half_raw_bounds r Hr) as (_ & H1 & H2).
    split; assumption. }
  rewrite start_processing_run. cbv zeta. fold V.
  destruct (calculate_usdc_value_frame (shares item) p w) as [Hs He].
  rewrite Hs, He.
  assert (E : leb V 0 = false) by (apply leb_gt; exact HV).
  rewrite E.
  set (w1 := wld (_calculate_usdc_value gw (shares item) p w)).
  clearbody w1. simpl.
  destruct (open_entry_effect item (V / 2) p w1) as [Hd Hf].
  set (pre := open_entry gw settings item (V / 2) p w1) in *.
  destruct (request_withdrawal_effect (request_id item) (V / 2)
              (self pre) (wld pre)) as [Hr Hq].
  split; [|split; [|split; [|exact Hraw]]].
  - rewrite filter_app, Hf, Hr. reflexivity.
  - intros e. rewrite Hq, Hd, dict_get_set_same.
    destruct (truthy _).
    + rewrite dict_get_set_same. intros H. injection H as <-.
      split; reflexivity.
    + rewrite dict_get_del_same. discriminate.
  - intros id data p' w'. cbv zeta.
    unfold check_entry, _complete_processing.
    destruct (data_step data) eqn:Estep; run.
    { repeat split; intros; try contradiction; discriminate. }
    destruct (gw_get_usdc_balance gw w') as [held w2]; simpl.
    destruct (leb (data_usdc_value data) held) eqn:El; simpl.
    + apply leb_le in El.
      destruct (gw_send_usdc_to_vault gw (data_usdc_value data) w2)
        as [[tx|] w3]; simpl.
      * destruct (gw_invoke_contract gw "mark_withdrawal_ready" _ w3)
          as [[tx'|] w4]; simpl.
        all: repeat split; try assumption; try discriminate;
          try (right; left; reflexivity).
        all: intros e [<-|[<-|[<-|[]]]]; tauto.
      * repeat split; try assumption; try discriminate;
          try (right; left; reflexivity).
        intros e [<-|[<-|[]]]; tauto.
    + apply leb_gt in El.
      repeat split; try discriminate.
      * intros e [<-|[]]. left. reflexivity.
      * intros _ Hle. exfalso. lra.
Qed.

Lemma dict_get_dels (id : nat) (ks : list nat) :
  forall d : Dict.t entry,
    Dict.get id (fold_left (fun d k => Dict.del k d) ks d) =
    if existsb (Nat.eqb id) ks then None else Dict.get id d.
Proof.
  induction ks as [|k rest IH]; intros d; simpl.
  - reflexivity.
  - rewrite IH. destruct (Nat.eqb id k) eqn:E; simpl.
    + apply Nat.eqb_eq in E. subst k.
      rewrite dict_get_del_same. destruct (existsb _ rest); reflexivity.
    + rewrite dict_get_del_other; [reflexivity|].
      intros ->. rewrite Nat.eqb_refl in E. discriminate.
Qed.

(** An entry completes exactly when the wallet holds its amount, the
    forward is accepted and the invocation is accepted. *)
Lemma check_entry_true (id : nat) (data : entry) (p : t) (w : W) :
  let read := gw_get_usdc_balance gw w in
  let sent := gw_send_usdc_to_vault gw (data_usdc_value data) (snd read) in
  let marked := gw_invoke_contract gw "mark_withdrawal_ready"
                  [Z.of_nat id; usdc_raw (data_usdc_value data)]
                  (snd sent) in
  val (check_entry gw id data p w) = true <->
  (data_step data = waiting_usdc /\
   data_usdc_value data <= fst read /\
   truthy (fst sent) = true /\
   truthy (fst marked) = true).
Proof.
  cbv zeta. unfold check_entry, _complete_processing.
  destruct (data_step data); run.
  { split; [discriminate|]. intros (H & _). discriminate. }
  destruct (gw_get_usdc_balance gw w) as [held w1]; simpl.
  destruct (leb (data_usdc_value data) held) eqn:El; simpl.
  - apply leb_le in El.
    destruct (gw_send_usdc_to_vault gw (data_usdc_value data) w1)
      as [[tx|] w2]; simpl.
    + destruct (gw_invoke_contract gw "mark_withdrawal_ready" _ w2)
        as [[tx'|] w3]; simpl; tauto.
    + split; [discriminate|]. intros (_ & _ & H & _). discriminate.
  - apply leb_gt in El.
    split; [discriminate|]. intros (_ & H & _). exfalso. lra.
Qed.

(** Every id of [completed] comes from an entry whose check
    succeeded. *)
Lemma check_entries_completed (id : nat) (items : list (nat * entry))
  (p : t) :
  forall w : W,
    existsb (Nat.eqb id) (val (check_entries gw items p w)) = true ->
    exists data w',
      In (id, data) items /\ val (check_entry gw id data p w') = true.
Proof.
  induction items as [|[k data] rest IH]; intros w; simpl.
  - discriminate.
  - rewrite bind_val, bind_val.
    destruct (check_entry_frame k data p w id) as [Hself _].
    rewrite Hself.
    set (one := check_entry gw k data p w) in *.
    destruct (check_entries_frame id rest p (wld one)) as [Hself' _].
    unfold ret. simpl.
    destruct (val one) eqn:Ev; simpl.
    + destruct (Nat.eqb id k) eqn:E; simpl.
      * apply Nat.eqb_eq in E. subst k. intros _.
        exists data, w. split; [left; reflexivity|exact Ev].
      * intros H. destruct (IH (wld one) H) as (d & w' & Hin & Ht).
        exists d, w'. split; [right; exact Hin|exact Ht].
    + intros H. destruct (IH (wld one) H) as (d & w' & Hin & Ht).
      exists d, w'. split; [right; exact Hin|exact Ht].
Qed.

Lemma check_processing_dict (p : t) (w : W) :
  processing_withdrawals (self (_check_processing_withdrawals gw p w)) =
  fold_left (fun d k => Dict.del k d)
    (val (check_entries gw (processing_withdrawals p) p w))
      (processing_withdrawals p).
Proof.
  unfold _check_processing_withdrawals.
  rewrite bind_self, bind_self. unfold get_self, set_self. simpl.
  destruct (check_entries_frame 0%nat (processing_withdrawals p) p w) as [H _].
  rewrite H. reflexivity.
Qed.

(** C5, as the code has it.  The check removes an entry only when it is
    in [completed], and an id is in [completed] only through an entry
    whose check succeeded: the wallet holds the amount, the forward and
    the [mark_withdrawal_ready] invocation are both accepted; when any of
    the three fails the entry stays, waiting, for the next check.  At
    the start, an exchange that answers [None] to the withdrawal request
    gets the entry deleted, an exchange that answers success keeps it
    waiting for the settlement, whatever the close of the position did.
    A PENDING request with no entry is started again by the next scan. *)
Theorem processing_entry_removal (id : nat) :
  (forall (p : t) (w : W),
     let completed := val (check_entries gw (processing_withdrawals p) p w) in
     let out := _check_processing_withdrawals gw p w in
     Dict.get id (processing_withdrawals (self out)) =
       (if existsb (Nat.eqb id) completed then None
        else Dict.get id (processing_withdrawals p)) /\
     (existsb (Nat.eqb id) completed = true ->
      exists data w',
        In (id, data) (processing_withdrawals p) /\
        val (check_entry gw id data p w') = true)) /\
  (forall (data : entry) (p : t) (w : W),
     let read := gw_get_usdc_balance gw w in
     let sent :=
       gw_send_usdc_to_vault gw (data_usdc_value data) (snd read) in
     let marked :=
       gw_invoke_contract gw "mark_withdrawal_ready"
         [Z.of_nat id; usdc_raw (data_usdc_value data)] (snd sent) in
     val (check_entry gw id data p w) = true <->
     (data_step data = waiting_usdc /\
      data_usdc_value data <= fst read /\
      truthy (fst sent) = true /\
      truthy (fst marked) = true)) /\
  (forall (item : WithdrawalQueueItem) (p : t) (w : W),
     request_id item = id ->
     let quote := _calculate_usdc_value gw (shares item) p w in
     let V := val quote in
     0 < V ->
     let pre := open_entry gw settings item (V / 2) p (wld quote) in
     let answer := fst (gw_withdraw_from_extended gw (V / 2) (wld pre)) in
     let out := _start_processing gw settings item p w in
     (answer = None -> Dict.get id (processing_withdrawals (self out))
       = None) /\
     (answer = Some "success"%string ->
      Dict.get id (processing_withdrawals (self out)) =
        Some (mkEntry (user item) (shares item) (V / 2)
                (fst (gw_now gw (wld quote))) waiting_usdc))) /\
  (forall (item : WithdrawalQueueItem) (p : t) (w : W),
     Dict.get id (processing_withdrawals p) = None ->
     parse_withdrawal id
       (fst (gw_call_contract gw "get_pending_withdrawal"
               [Z.of_nat id] w)) = Some item ->
     status item = PENDING ->
     starts id (evs (scan_withdrawal gw settings id p w)) = 1%nat).
Proof.
  split; [|split; [|split]].
  - intros p w completed out. split.
    + unfold out. rewrite check_processing_dict. apply dict_get_dels.
    + apply check_entries_completed.
  - intros data p w. apply check_entry_true.
  - intros item p w Hid quote V HV pre answer out.
    subst out. rewrite start_processing_run. cbv zeta.
    fold quote. fold V.
    destruct (calculate_usdc_value_frame (shares item) p w) as [Hs _].
    fold quote in Hs.
    assert (E : leb V 0 = false) by (apply leb_gt; exact HV).
    rewrite E, Hs. fold pre. simpl.
    destruct (open_entry_effect item (V / 2) p (wld quote)) as [Hd _].
    fold pre in Hd.
    destruct (request_withdrawal_effect (request_id item) (V / 2)
                (self pre) (wld pre)) as [_ Hq].
    rewrite Hq, Hd, dict_get_set_same, Hid. fold answer.
    split; intros ->; simpl.
    + apply dict_get_del_same.
    + apply dict_get_set_same.
  - intros item p w Hnone Hparse Hst.
    rewrite scan_withdrawal_run. cbv zeta. rewrite Hparse, Hst.
    unfold Dict.mem. rewrite Hnone. simpl.
    pose proof (start_processing_effect item p
                  (snd (gw_call_contract gw "get_pending_withdrawal"
                          [Z.of_nat id] w)) id) as (H & _).
    rewrite (parse_withdrawal_id id _ item Hparse), Nat.eqb_refl in H.
    change (starts id ([CallContract "get_pending_withdrawal"
                          [Z.of_nat id]] ++
                       evs (_start_processing gw settings item p
                              (snd (gw_call_contract gw
                                      "get_pending_withdrawal"
                                      [Z.of_nat id] w)))) = 1%nat).
    rewrite starts_app, H. reflexivity.
Qed.

End WithdrawalFacts.

(** The scenario of the specification: the request 2 is started by the
    first scan and stays in flight; the second scan sees it PENDING again
    and skips it. *)
Lemma withdrawal_dedup_witness :
  starts 2
    (evs (WithdrawalProcessor._process_pending_withdrawals Sim.gw
            default_settings WithdrawalProcessor.init
            Scenario.withdrawal_queue) ++
     evs (WithdrawalProcessor._process_pending_withdrawals Sim.gw
            default_settings
            (self (WithdrawalProcessor._process_pending_withdrawals Sim.gw
                     default_settings WithdrawalProcessor.init
                     Scenario.withdrawal_queue))
            Scenario.withdrawal_queue)) = 1%nat.
Proof.
  assert (H1 : Dict.mem 2
                 (WithdrawalProcessor.processing_withdrawals
                    WithdrawalProcessor.init) = false) by reflexivity.
  assert (H2 : Dict.mem 2
                 (WithdrawalProcessor.processing_withdrawals
                    (self (WithdrawalProcessor._process_pending_withdrawals
                             Sim.gw default_settings
                             WithdrawalProcessor.init
                             Scenario.withdrawal_queue))) = true)
    by reflexivity.
  exact (proj1 (proj2 (proj2 (withdrawal_dedup Sim.gw default_settings 2))
                  WithdrawalProcessor.init Scenario.withdrawal_queue
                  Scenario.withdrawal_queue H1 H2)).
Defined.

(** The scenario of the specification: the value of 500.00 is split, the
    exchange is asked for 250.00; over two ticks the wallet goes from 0 to
    250.00, and the second tick forwards 250.00 and marks the request 2
    ready with 250_000_000. *)
Lemma withdrawal_half_value_witness :
  val (WithdrawalProcessor._calculate_usdc_value Sim.gw
         (WithdrawalProcessor.shares Scenario.request)
         WithdrawalProcessor.init Scenario.withdrawal_queue) = 500 /\
  filter is_exchange_withdrawal
    (evs (WithdrawalProcessor._start_processing Sim.gw default_settings
            Scenario.request WithdrawalProcessor.init
            Scenario.withdrawal_queue)) =
    [WithdrawFromExtended (500 / 2)] /\
  evs (WithdrawalProcessor.tick Sim.gw default_settings
         (self (WithdrawalProcessor.tick Sim.gw default_settings
                  WithdrawalProcessor.init Scenario.withdrawal_queue))
         (wld (WithdrawalProcessor.tick Sim.gw default_settings
                 WithdrawalProcessor.init Scenario.withdrawal_queue))) =
    [CallContract "get_withdrawal_queue_length" [];
     CallContract "get_pending_withdrawal" [0%Z];
     CallContract "get_pending_withdrawal" [1%Z];
     CallContract "get_pending_withdrawal" [2%Z];
     GetUsdcBalance;
     SendUsdcToVault (500 / 2);
     InvokeContract "mark_withdrawal_ready" [2%Z; 250000000%Z]] /\
  (500000000 - 2 <= 2 * 250000000 <= 500000000)%Z.
Proof.
  assert (HV : 0 < val (WithdrawalProcessor._calculate_usdc_value Sim.gw
                          (WithdrawalProcessor.shares Scenario.request)
                          WithdrawalProcessor.init
                          Scenario.withdrawal_queue)) by reflexivity.
  assert (Hr : (0 < 500000000 < 2 ^ 50)%Z) by (split; reflexivity).
  split; [reflexivity|]. split; [|split].
  - exact (proj1 (withdrawal_half_value Sim.gw default_settings
                    Scenario.request WithdrawalProcessor.init
                    Scenario.withdrawal_queue HV)).
  - reflexivity.
  - exact (proj2 (proj2 (proj2 (proj2
             (withdrawal_half_value Sim.gw default_settings
                Scenario.request WithdrawalProcessor.init
                Scenario.withdrawal_queue HV)))
             500000000%Z [] eq_refl Hr)).
Defined.

(** C6 as stated fails by one raw unit.  The preview values the shares of
    the request 2 at 16_777_212 raw units; the float of 16.777212, halved
    and converted back, is 8_388_605.999..., and the request is marked
    ready with 8_388_605, not with the half 8_388_606. *)
Lemma withdrawal_half_value_counterexample :
  fst (gw_call_contract Sim.gw "preview_redeem"
         [WithdrawalProcessor.shares Scenario.request]
         Scenario.uneven_queue) = [16777212%Z] /\
  In (InvokeContract "mark_withdrawal_ready" [2%Z; 8388605%Z])
    (evs (WithdrawalProcessor.tick Sim.gw default_settings
            (self (WithdrawalProcessor.tick Sim.gw default_settings
                     WithdrawalProcessor.init Scenario.uneven_queue))
            (wld (WithdrawalProcessor.tick Sim.gw default_settings
                    WithdrawalProcessor.init Scenario.uneven_queue)))) /\
  (2 * 8388605 <> 16777212)%Z.
Proof.
  split; [reflexivity|]. split; [|discriminate].
  vm_compute. do 6 right. left. reflexivity.
Qed.

(** An exchange that answers [None] to the request gets the entry of the
    request 2 deleted. *)
Lemma processing_entry_removal_witness :
  Dict.get 2
    (WithdrawalProcessor.processing_withdrawals
       (self (WithdrawalProcessor._start_processing Sim.gw default_settings
                Scenario.request WithdrawalProcessor.init
                Scenario.exchange_refuses))) = None.
Proof.
  assert (Hid : WithdrawalProcessor.request_id Scenario.request = 2%nat)
    by reflexivity.
  assert (HV : 0 < val (WithdrawalProcessor._calculate_usdc_value Sim.gw
                          (WithdrawalProcessor.shares Scenario.request)
                          WithdrawalProcessor.init
                          Scenario.exchange_refuses)) by reflexivity.
  exact (proj1 (proj1 (proj2 (proj2
           (processing_entry_removal Sim.gw default_settings 2)))
           Scenario.request WithdrawalProcessor.init
           Scenario.exchange_refuses Hid HV) eq_refl).
Defined.

(** C5 as stated fails: the request 2 waits for 250.00, the wallet holds
    them, the transfer to the vault fails.  The entry is not cleared: it
    stays, waiting, and the next scan, which still sees the request
    PENDING, does not start it again from the closing of the position. *)
Lemma processing_entry_not_cleared_counterexample :
  evs (WithdrawalProcessor._check_processing_withdrawals Sim.gw
         Scenario.in_flight Scenario.forward_fails) =
    [GetUsdcBalance; SendUsdcToVault 250] /\
  self (WithdrawalProcessor._check_processing_withdrawals Sim.gw
          Scenario.in_flight Scenario.forward_fails) = Scenario.in_flight /\
  Dict.mem 2 (WithdrawalProcessor.processing_withdrawals
                Scenario.in_flight) = true /\
  starts 2
    (evs (WithdrawalProcessor._process_pending_withdrawals Sim.gw
            default_settings
            (self (WithdrawalProcessor._check_processing_withdrawals Sim.gw
                     Scenario.in_flight Scenario.forward_fails))
            (wld (WithdrawalProcessor._check_processing_withdrawals Sim.gw
                    Scenario.in_flight Scenario.forward_fails)))) = 0%nat.
Proof.
  repeat split; reflexivity.
Qed.

(** * Further properties of the code *)

(** ** Calldata of a contract call *)

Section Calldata.
Import StarknetClient.

Lemma low_mod (v : Z) : low v = (v mod 2 ^ 128)%Z.
Proof.
  unfold low. rewrite Z.shiftl_1_l.
  change (2 ^ 128 - 1)%Z with (Z.pred (2 ^ 128)).
  rewrite <- Z.ones_equiv. apply Z.land_ones. lia.
Qed.

Lemma high_div (v : Z) : high v = (v / 2 ^ 128)%Z.
Proof.
  unfold high. apply Z.shiftr_div_pow2. lia.
Qed.

(** X1 (u256 limbs).  The two limbs a value is split into rebuild the
    value with [low + (high << 128)], the expression of the queue readers;
    for a value of 256 bits both limbs are 128-bit naturals. *)
Theorem u256_split_join (v : Z) :
  u256_value (low v) (high v) = v /\
  ((0 <= v < 2 ^ 256)%Z ->
   (0 <= low v < 2 ^ 128)%Z /\ (0 <= high v < 2 ^ 128)%Z).
Proof.
  unfold u256_value. rewrite low_mod, high_div, Z.shiftl_mul_pow2 by lia.
  split.
  - pose proof (Z.div_mod v (2 ^ 128) ltac:(lia)). lia.
  - intros [H0 H1]. split.
    + apply Z.mod_pos_bound. lia.
    + split.
      * apply Z.div_pos; lia.
      * apply Z.div_lt_upper_bound; [lia|].
        change (2 ^ 128 * 2 ^ 128)%Z with (2 ^ 256)%Z. exact H1.
Qed.

Lemma serialize_from_small (calldata : list Z) (u256_indices : list nat) :
  Forall (fun c => (0 <= c < 2 ^ 128)%Z) calldata ->
  forall i,
    (forall k, (i <= k < i + List.length calldata)%nat ->
               existsb (Nat.eqb k) u256_indices = true) ->
    serialize_from i calldata u256_indices =
    flat_map (fun c => [c; 0%Z]) calldata.
Proof.
  induction 1 as [|c rest Hc Hrest IH]; intros i Hflag; simpl.
  - reflexivity.
  - rewrite (Hflag i) by (simpl; lia).
    unfold _serialize_u256. rewrite low_mod, high_div.
    rewrite Z.mod_small, Z.div_small by exact Hc.
    simpl. f_equal. f_equal. apply IH.
    intros k Hk. apply Hflag. simpl. lia.
Qed.

Lemma serialize_from_length (calldata : list Z) (u256_indices : list nat) :
  forall i,
    List.length (serialize_from i calldata u256_indices) =
    (List.length calldata +
     List.length (filter (fun k => existsb (Nat.eqb k) u256_indices)
                    (seq i (List.length calldata))))%nat.
Proof.
  induction calldata as [|c rest IH]; intros i; simpl.
  - reflexivity.
  - rewrite length_app, IH.
    destruct (existsb (Nat.eqb i) u256_indices); simpl; lia.
Qed.

(** X2 (serialized calldata).  Every position flagged as [u256] adds one
    felt to the calldata; when all positions are flagged and the values
    are below 2^128, each value is written as the value followed by 0,
    which is how [send_usdc_to_vault] writes its amount by hand. *)
Theorem serialize_calldata_shape (calldata : list Z)
  (u256_indices : list nat) :
  List.length (serialize_calldata calldata u256_indices) =
    (List.length calldata +
     List.length (filter (fun k => existsb (Nat.eqb k) u256_indices)
                    (seq 0 (List.length calldata))))%nat /\
  (Forall (fun c => (0 <= c < 2 ^ 128)%Z) calldata ->
   (forall k, (k < List.length calldata)%nat -> In k u256_indices) ->
   serialize_calldata calldata u256_indices =
   flat_map (fun c => [c; 0%Z]) calldata).
Proof.
  split.
  - apply serialize_from_length.
  - intros Hsmall Hall. apply serialize_from_small; [exact Hsmall|].
    intros k Hk. apply existsb_exists. exists k. split.
    + apply Hall. lia.
    + apply Nat.eqb_refl.
Qed.

End Calldata.

(** A 200-bit value, and the calldata of [mark_withdrawal_ready] for the
    request 2 and 250_000_000. *)
Lemma u256_split_join_witness :
  (0 <= StarknetClient.low (2 ^ 200 + 7) < 2 ^ 128)%Z /\
  (0 <= StarknetClient.high (2 ^ 200 + 7) < 2 ^ 128)%Z.
Proof.
  assert (H : (0 <= 2 ^ 200 + 7 < 2 ^ 256)%Z)
    by (split; [apply Z.leb_le|apply Z.ltb_lt]; reflexivity).
  exact (proj2 (u256_split_join (2 ^ 200 + 7)) H).
Defined.

Lemma serialize_calldata_shape_witness :
  StarknetClient.serialize_calldata [2; 250000000]%Z [0; 1]%nat =
  [2; 0; 250000000; 0]%Z.
Proof.
  assert (H1 : Forall (fun c => (0 <= c < 2 ^ 128)%Z) [2; 250000000]%Z).
  { repeat constructor; try discriminate; reflexivity. }
  assert (H2 : forall k, (k < List.length [2; 250000000]%Z)%nat ->
                         In k [0; 1]%nat).
  { intros k Hk. simpl in Hk.
    destruct k as [|[|k]]; simpl; [tauto|tauto|lia]. }
  exact (proj2 (serialize_calldata_shape [2; 250000000]%Z [0; 1]%nat)
           H1 H2).
Defined.

(** ** NAV reporter: reachable states and the status clock *)

Section NAVReporterMore.
Import NAVReporter.
Context {W : Type}.
Variable gw : Gateways W.

(** A scheduled report keeps the limit and moves [last_nav] only to a
    positive value. *)
Lemma report_nav_step (r : t) (w : W) :
  let out := _report_nav gw r w in
  max_change_bps (self out) = max_change_bps r /\
  (last_nav (self out) = last_nav r \/ 0 < last_nav (self out)).
Proof.
  unfold _report_nav, _get_extended_equity, _update_vault_nav, now. run.
  destruct (gw_get_account_balance gw w) as [[|[bal|]] w1]; simpl.
  all: try (split; [reflexivity|left; reflexivity]).
  all: match goal with
       | |- context [leb ?x 0] => destruct (leb x 0) eqn:E1; simpl
       end.
  all: try (split; [reflexivity|left; reflexivity]).
  all: match goal with
       | |- context [_is_safe_update ?r0 ?x] =>
           destruct (_is_safe_update r0 x); simpl
       end.
  all: try (split; [reflexivity|left; reflexivity]).
  all: destruct (gw_invoke_contract gw "update_nav" _ w1) as [[tx|] w2];
    simpl.
  all: try (split; [reflexivity|left; reflexivity]).
  all: split; [reflexivity|right; apply leb_gt; exact E1].
Qed.

(** So does a forced update. *)
Lemma force_update_step (nav : option Q) (r : t) (w : W) :
  let out := force_update gw nav r w in
  max_change_bps (self out) = max_change_bps r /\
  (last_nav (self out) = last_nav r \/ 0 < last_nav (self out)).
Proof.
  unfold force_update, _get_extended_equity, _update_vault_nav, now.
  destruct nav as [n|]; run.
  2: destruct (gw_get_account_balance gw w) as [[|[bal|]] w1]; simpl.
  all: try (split; [reflexivity|left; reflexivity]).
  all: match goal with
       | |- context [leb ?x 0] => destruct (leb x 0) eqn:E1; simpl
       end.
  all: try (split; [reflexivity|left; reflexivity]).
  all: match goal with
       | |- context [gw_invoke_contract gw "update_nav" ?a ?w'] =>
           destruct (gw_invoke_contract gw "update_nav" a w')
             as [[tx|] w2]; simpl
       end.
  all: try (split; [reflexivity|left; reflexivity]).
  all: split; [reflexivity|right; apply leb_gt; exact E1].
Qed.

Lemma run_ops_step (ops : list op) :
  forall (r : t) (w : W),
    let out := for_each ops (run_op gw) r w in
    max_change_bps (self out) = max_change_bps r /\
    (last_nav (self out) = last_nav r \/ 0 < last_nav (self out)).
Proof.
  induction ops as [|o rest IH]; intros r w; simpl.
  - split; [reflexivity|left; reflexivity].
  - rewrite bind_self.
    assert (Hone :
      max_change_bps (self (run_op gw o r w)) = max_change_bps r /\
      (last_nav (self (run_op gw o r w)) = last_nav r \/
       0 < last_nav (self (run_op gw o r w)))).
    { destruct o as [|nav]; simpl.
      - apply report_nav_step.
      - rewrite bind_self. unfold ret. simpl. apply force_update_step. }
    destruct Hone as [Hb Hn].
    destruct (IH (self (run_op gw o r w)) (wld (run_op gw o r w)))
      as [Hb' Hn'].
    split; [congruence|].
    destruct Hn' as [Hn'|Hn']; [|right; exact Hn'].
    rewrite Hn'. exact Hn.
Qed.

(** X3 (reachable reporter states).  After any sequence of scheduled
    reports and forced updates on a fresh reporter, the limit is still 500
    bps and [last_nav] is either the initial 0 or positive: it is never
    set to a non-positive value. *)
Theorem reporter_reachable_state (ops : list op) (w : W) :
  let out := for_each ops (run_op gw) init w in
  max_change_bps (self out) = 500 /\
  (last_nav (self out) = 0 \/ 0 < last_nav (self out)).
Proof.
  exact (run_ops_step ops init w).
Qed.

Lemma int_micro (n : Z) :
  Py.int (inject_Z n / 1000000) = Z.quot n 1000000.
Proof.
  unfold Py.int, Qdiv, Qmult, Qinv, inject_Z. simpl.
  rewrite Z.mul_1_r. reflexivity.
Qed.

(** X4 (seconds to the next update).  The status never shows a negative
    wait: it is 0 before the first update and once the interval has
    elapsed, and at most the interval when the clock has not gone back
    behind the last update; reading it changes nothing. *)
Theorem time_to_next_update_bounds (r : t) (w : W) :
  let out := _time_to_next_update gw r w in
  let time := fst (gw_now gw w) in
  (0 <= val out)%Z /\
  self out = r /\ evs out = [] /\
  (last_update r = None -> val out = 0%Z) /\
  (forall last, last_update r = Some last ->
     ((0 <= update_interval r)%Z -> (last <= time)%Z ->
      (val out <= update_interval r)%Z) /\
     ((last + update_interval r * 1000000 <= time)%Z -> val out = 0%Z)).
Proof.
  unfold _time_to_next_update, now. run.
  destruct (last_update r) as [last|] eqn:El; simpl.
  - destruct (gw_now gw w) as [time w1]; simpl.
    rewrite int_micro.
    set (d := (last + update_interval r * 1000000 - time)%Z).
    pose proof (Z.quot_rem' d 1000000) as Hq.
    pose proof (Z.rem_bound_pos_neg d 1000000) as Hr1.
    pose proof (Z.rem_bound_neg_pos d 1000000) as Hr2.
    pose proof (Z.rem_bound_pos_pos d 1000000) as Hr3.
    split; [lia|]. split; [reflexivity|]. split; [reflexivity|].
    split; [discriminate|].
    intros l Hl. injection Hl as <-. split.
    + intros Hi Ht. unfold d in *. lia.
    + intros Ht. unfold d in *. lia.
  - split; [lia|]. split; [reflexivity|]. split; [reflexivity|].
    split; [reflexivity|]. intros l Hl. discriminate Hl.
Qed.

End NAVReporterMore.

(** The reporter of the scenario, read at the instant of its last
    update: a full interval is left. *)
Lemma time_to_next_update_bounds_witness :
  (val (NAVReporter._time_to_next_update Sim.gw Scenario.reporter
          Sim.quiet) <= 3600)%Z.
Proof.
  assert (H1 : (0 <= NAVReporter.update_interval Scenario.reporter)%Z)
    by (apply Z.leb_le; reflexivity).
  assert (H2 : (0 <= fst (gw_now Sim.gw Sim.quiet))%Z)
    by (apply Z.leb_le; reflexivity).
  destruct (time_to_next_update_bounds Sim.gw Scenario.reporter Sim.quiet)
    as (_ & _ & _ & _ & H).
  exact (proj1 (H 0%Z eq_refl) H1 H2).
Defined.

(** ** Deposit processor: one entry, one mint *)

Section DepositMore.
Import DepositProcessor.
Context {W : Type}.
Variable gw : Gateways W.
Variable settings : Settings.

(** X5 (one deposit).  When the mint invocation is refused nothing else
    happens: no funds go to the exchange, no short is opened, and the
    answer is [False].  When it is accepted, half of the recorded amount is
    deposited to the exchange and a short of that half times the leverage
    is opened, and the answer is [True] whatever these two calls
    answered. *)
Theorem process_single_deposit_flow (d : DepositQueueItem) (s : t)
  (w : W) :
  let out := _process_single_deposit gw settings d s w in
  let mint := InvokeContract "process_deposits" [1%Z] in
  let half := usdc_amount d / 2 in
  self out = s /\
  (fst (gw_invoke_contract gw "process_deposits" [1%Z] w) = None ->
   evs out = [mint] /\ val out = false) /\
  (fst (gw_invoke_contract gw "process_deposits" [1%Z] w) <> None ->
   evs out = [mint; GetUsdcBalance; DepositToExtended half;
              OpenShortPosition (half * leverage settings)] /\
   val out = true).
Proof.
  unfold _process_single_deposit. run.
  destruct (gw_invoke_contract gw "process_deposits" [1%Z] w)
    as [[tx|] w1]; simpl.
  - split; [reflexivity|]. split.
    + discriminate.
    + intros _. split; reflexivity.
  - split; [reflexivity|]. split.
    + intros _. split; reflexivity.
    + intros H. contradiction.
Qed.

Lemma process_single_deposit_mints (d : DepositQueueItem) (s : t) (w : W) :
  mints (evs (_process_single_deposit gw settings d s w)) = 1%nat /\
  filter is_deposit_read (evs (_process_single_deposit gw settings d s w))
    = [] /\
  self (_process_single_deposit gw settings d s w) = s.
Proof.
  unfold _process_single_deposit. run.
  destruct (gw_invoke_contract gw "process_deposits" [1%Z] w)
    as [[tx|] w1]; simpl; repeat split; reflexivity.
Qed.

Lemma mints_app (l1 l2 : list event) :
  mints (l1 ++ l2) = (mints l1 + mints l2)%nat.
Proof.
  unfold mints. rewrite filter_app, length_app. reflexivity.
Qed.

(** One step of the scan, run. *)
Lemma scan_deposit_run (id : nat) (s : t) (w : W) :
  scan_deposit gw settings id s w =
  let r := gw_call_contract gw "get_pending_deposit" [Z.of_nat id] w in
  let read := CallContract "get_pending_deposit" [Z.of_nat id] in
  match parse_deposit id (fst r) with
  | None => mkRes false s (snd r) [read]
  | Some d =>
      if (user d =? 0)%Z then mkRes true s (snd r) [read]
      else if processed d then mkRes false s (snd r) [read]
      else if leb (usdc_amount d) 0.01 then mkRes false s (snd r) [read]
      else
        let o := _process_single_deposit gw settings d s (snd r) in
        mkRes false (self o) (wld o) (read :: evs o)
  end.
Proof.
  unfold scan_deposit, _get_pending_deposit, bind, gateway, ret. simpl.
  destruct (parse_deposit id _) as [d|]; simpl; [|reflexivity].
  destruct (user d =? 0)%Z; simpl; [reflexivity|].
  destruct (processed d); simpl; [reflexivity|].
  destruct (leb (usdc_amount d) 0.01); simpl; [reflexivity|].
  destruct (_process_single_deposit gw settings d s _) as [b s1 w1 e1].
  simpl. rewrite app_nil_r. reflexivity.
Qed.

(** X6 (when a deposit is minted).  The step of the scan for an id
    invokes the mint exactly when the entry is readable, is not the
    sentinel, is not processed and holds more than 0.01, and then once; it
    ends the scan exactly when the entry is readable and is the sentinel:
    an unreadable entry is passed over. *)
Theorem scan_deposit_decision (id : nat) (s : t) (w : W) :
  let out := scan_deposit gw settings id s w in
  let entry := deposit_view gw w id in
  (mints (evs out) <= 1)%nat /\
  (mints (evs out) = 1%nat <->
   exists d, entry = Some d /\ user d <> 0%Z /\ processed d = false /\
             0.01 < usdc_amount d) /\
  (val out = true <-> exists d, entry = Some d /\ user d = 0%Z) /\
  self out = s.
Proof.
  cbv zeta. rewrite scan_deposit_run. cbv zeta. unfold deposit_view.
  destruct (parse_deposit id _) as [d|]; simpl.
  2: { split; [unfold mints; simpl; lia|].
       split; [split; [discriminate|intros (d & H & _); discriminate]|].
       split; [split; [discriminate|intros (d & H & _); discriminate]|].
       reflexivity. }
  destruct (user d =? 0)%Z eqn:Eu; simpl.
  { apply Z.eqb_eq in Eu.
    split; [unfold mints; simpl; lia|].
    split; [split; [discriminate|]|].
    { intros (d' & H & Hu & _). injection H as <-. contradiction. }
    split; [|reflexivity].
    split; [|reflexivity].
    intros _. exists d. split; [reflexivity|exact Eu]. }
  apply Z.eqb_neq in Eu.
  assert (Hnostop :
    false = true <-> exists d0, Some d = Some d0 /\ user d0 = 0%Z).
  { split; [discriminate|].
    intros (d' & H & Hu). injection H as <-. contradiction. }
  destruct (processed d) eqn:Ep; simpl.
  { split; [unfold mints; simpl; lia|].
    split; [split; [discriminate|]|].
    { intros (d' & H & _ & Hp & _). injection H as <-. congruence. }
    split; [exact Hnostop|reflexivity]. }
  destruct (leb (usdc_amount d) 0.01) eqn:Ea; simpl.
  { apply leb_le in Ea.
    split; [unfold mints; simpl; lia|].
    split; [split; [discriminate|]|].
    { intros (d' & H & _ & _ & Hlt). injection H as <-. lra. }
    split; [exact Hnostop|reflexivity]. }
  apply leb_gt in Ea.
  destruct (process_single_deposit_mints d s
              (snd (gw_call_contract gw "get_pending_deposit"
                      [Z.of_nat id] w))) as (Hm & _ & Hs).
  change (CallContract "get_pending_deposit" [Z.of_nat id] ::
          evs (_process_single_deposit gw settings d s
                 (snd (gw_call_contract gw "get_pending_deposit"
                         [Z.of_nat id] w))))
    with ([CallContract "get_pending_deposit" [Z.of_nat id]] ++
          evs (_process_single_deposit gw settings d s
                 (snd (gw_call_contract gw "get_pending_deposit"
                         [Z.of_nat id] w)))).
  rewrite mints_app, Hm.
  split; [unfold mints; simpl; lia|].
  split; [split|].
  - intros _. exists d. repeat split; assumption.
  - intros _. reflexivity.
  - split; [exact Hnostop|exact Hs].
Qed.

Lemma scan_deposit_mints_le (id : nat) (s : t) (w : W) :
  (mints (evs (scan_deposit gw settings id s w)) <= 1)%nat.
Proof.
  rewrite scan_deposit_run. cbv zeta.
  destruct (parse_deposit id _) as [d|]; simpl;
    [|unfold mints; simpl; lia].
  destruct (user d =? 0)%Z; simpl; [unfold mints; simpl; lia|].
  destruct (processed d); simpl; [unfold mints; simpl; lia|].
  destruct (leb (usdc_amount d) 0.01); simpl; [unfold mints; simpl; lia|].
  destruct (process_single_deposit_mints d s
              (snd (gw_call_contract gw "get_pending_deposit"
                      [Z.of_nat id] w))) as (Hm & _ & _).
  unfold mints in *. simpl. rewrite Hm. lia.
Qed.

Lemma scan_deposit_reads (id : nat) (s : t) (w : W) :
  filter is_deposit_read (evs (scan_deposit gw settings id s w)) =
  [CallContract "get_pending_deposit" [Z.of_nat id]].
Proof.
  rewrite scan_deposit_run. cbv zeta.
  destruct (parse_deposit id _) as [d|]; simpl; [|reflexivity].
  destruct (user d =? 0)%Z; simpl; [reflexivity|].
  destruct (processed d); simpl; [reflexivity|].
  destruct (leb (usdc_amount d) 0.01); simpl; [reflexivity|].
  destruct (process_single_deposit_mints d s
              (snd (gw_call_contract gw "get_pending_deposit"
                      [Z.of_nat id] w))) as (_ & Hr & _).
  rewrite Hr. reflexivity.
Qed.

Lemma scan_prefix (len : nat) :
  forall (first : nat) (s : t) (w : W),
    let out := for_each_break (seq first len) (scan_deposit gw settings)
                 s w in
    exists n,
      (n <= len)%nat /\
      filter is_deposit_read (evs out) =
        map (fun i => CallContract "get_pending_deposit" [Z.of_nat i])
          (seq first n) /\
      (mints (evs out) <= n)%nat.
Proof.
  induction len as [|len IH]; intros first s w; simpl.
  - exists 0%nat.
    split; [lia|]. split; [reflexivity|]. unfold mints. simpl. lia.
  - rewrite bind_evs, filter_app, mints_app, scan_deposit_reads.
    pose proof (scan_deposit_mints_le first s w) as Hm.
    set (one := scan_deposit gw settings first s w) in *.
    destruct (val one).
    + exists 1%nat. unfold ret. simpl.
      split; [lia|]. split; [reflexivity|].
      unfold mints at 2. simpl. lia.
    + destruct (IH (S first) (self one) (wld one)) as (n & Hn & Hr & Hc).
      exists (S n). simpl in *. rewrite Hr.
      split; [lia|]. split; [reflexivity|]. lia.
Qed.

(** X7 (the scan is a bounded prefix).  A scan reads the ids 0, 1, 2, ...
    in order, without gap, at most 100 of them, and invokes the mint at
    most once per id read. *)
Theorem deposit_scan_prefix (s : t) (w : W) :
  let out := _process_pending_deposits gw settings s w in
  exists n,
    (n <= 100)%nat /\
    filter is_deposit_read (evs out) =
      map (fun i => CallContract "get_pending_deposit" [Z.of_nat i])
        (seq 0 n) /\
    (mints (evs out) <= n)%nat.
Proof.
  exact (scan_prefix MAX_DEPOSITS 0%nat s w).
Qed.

End DepositMore.

(** The entry 0 of the scenario: minted once, and the four calls of its
    processing. *)
Lemma process_single_deposit_flow_witness :
  evs (DepositProcessor._process_single_deposit Sim.gw default_settings
         (DepositProcessor.mkItem 0 10 11 1000 0 1700000000 false)
         DepositProcessor.init Scenario.deposit_queue) =
    [InvokeContract "process_deposits" [1%Z]; GetUsdcBalance;
     DepositToExtended (1000 / 2); OpenShortPosition (1000 / 2 * 2)].
Proof.
  assert (H : fst (gw_invoke_contract Sim.gw "process_deposits" [1%Z]
                     Scenario.deposit_queue) <> None) by discriminate.
  exact (proj1 (proj2 (proj2
           (process_single_deposit_flow Sim.gw default_settings
              (DepositProcessor.mkItem 0 10 11 1000 0 1700000000 false)
              DepositProcessor.init Scenario.deposit_queue)) H)).
Defined.

Lemma scan_deposit_decision_witness :
  mints (evs (DepositProcessor.scan_deposit Sim.gw default_settings 0
                DepositProcessor.init Scenario.deposit_queue)) = 1%nat.
Proof.
  apply (proj1 (proj2 (scan_deposit_decision Sim.gw default_settings 0
                         DepositProcessor.init Scenario.deposit_queue))).
  exists (DepositProcessor.mkItem 0 10 11
            (inject_Z 1000000000 / 1000000) 0 1700000000 false).
  split; [reflexivity|]. split; [discriminate|].
  split; reflexivity.
Defined.

(** ** Withdrawal processor: what a scan starts, what a start does *)

#[local] Arguments find : simpl never.

Section WithdrawalMore.
Import WithdrawalProcessor.
Context {W : Type}.
Variable gw : Gateways W.
Variable settings : Settings.

(** X8 (only PENDING is started).  The step of the scan for an id starts
    the processing exactly when the ledger shows a readable request in
    status PENDING and the id has no entry yet; in every other case (an
    unreadable answer, a status outside the enum, PROCESSING, READY,
    COMPLETED or CANCELLED, an id in flight) it only reads and leaves the
    processor as it is. *)
Theorem scan_withdrawal_decision (id : nat) (p : t) (w : W) :
  let out := scan_withdrawal gw settings id p w in
  let view := parse_withdrawal id
                (fst (gw_call_contract gw "get_pending_withdrawal"
                        [Z.of_nat id] w)) in
  let startable :=
    exists item, view = Some item /\ status item = PENDING /\
                 Dict.mem id (processing_withdrawals p) = false in
  (starts id (evs out) = 1%nat <-> startable) /\
  (~ startable ->
   evs out = [CallContract "get_pending_withdrawal" [Z.of_nat id]] /\
   self out = p).
Proof.
  cbv zeta. rewrite scan_withdrawal_run. cbv zeta.
  set (view := parse_withdrawal id _).
  assert (Hidle :
    forall r : W,
      ~ (exists item, view = Some item /\ status item = PENDING /\
                      Dict.mem id (processing_withdrawals p) = false) ->
      (starts id [CallContract "get_pending_withdrawal" [Z.of_nat id]]
       = 1%nat <->
       exists item, view = Some item /\ status item = PENDING /\
                    Dict.mem id (processing_withdrawals p) = false) /\
      (~ (exists item, view = Some item /\ status item = PENDING /\
                       Dict.mem id (processing_withdrawals p) = false) ->
       [CallContract "get_pending_withdrawal" [Z.of_nat id]] =
       [CallContract "get_pending_withdrawal" [Z.of_nat id]] /\ p = p)).
  { intros _ Hn. split; [split; [discriminate|]|].
    - intros H. contradiction.
    - intros _. split; reflexivity. }
  destruct view as [item|] eqn:Ev; simpl.
  2: { apply (Hidle w). intros (item & H & _). discriminate. }
  destruct (status item) eqn:Es; simpl.
  2-5: apply (Hidle w); intros (it & H & Hs & _); injection H as <-;
    congruence.
  destruct (Dict.mem id (processing_withdrawals p)) eqn:Em; simpl.
  { apply (Hidle w). intros (it & _ & _ & H). discriminate. }
  pose proof (start_processing_effect gw settings item p
                (snd (gw_call_contract gw "get_pending_withdrawal"
                        [Z.of_nat id] w)) id) as (Hs & _).
  unfold view in Ev.
  rewrite (parse_withdrawal_id id _ item Ev), Nat.eqb_refl in Hs.
  change (CallContract "get_pending_withdrawal" [Z.of_nat id] ::
          evs (_start_processing gw settings item p
                 (snd (gw_call_contract gw "get_pending_withdrawal"
                         [Z.of_nat id] w))))
    with ([CallContract "get_pending_withdrawal" [Z.of_nat id]] ++
          evs (_start_processing gw settings item p
                 (snd (gw_call_contract gw "get_pending_withdrawal"
                         [Z.of_nat id] w)))).
  rewrite starts_app, Hs.
  assert (Hyes : exists it, Some item = Some it /\ status it = PENDING /\
                            false = false).
  { exists item. repeat split. exact Es. }
  split; [split|].
  - intros _. exact Hyes.
  - intros _. reflexivity.
  - intros Hn. contradiction.
Qed.

(** X9 (a request without value).  When the preview values the shares at
    0 or less, or cannot be read, the start stops after the valuation: no
    entry is stored, no position is closed and nothing is requested from
    the exchange. *)
Theorem start_processing_without_value (item : WithdrawalQueueItem)
  (p : t) (w : W) :
  val (_calculate_usdc_value gw (shares item) p w) <= 0 ->
  let out := _start_processing gw settings item p w in
  evs out = [LogStartProcessing (request_id item);
             CallContract "preview_redeem" [shares item]] /\
  self out = p.
Proof.
  intros H. cbv zeta. rewrite (start_processing_run gw settings).
  cbv zeta.
  destruct (calculate_usdc_value_frame gw (shares item) p w) as [Hs He].
  apply leb_le in H. rewrite H, Hs, He. simpl. split; reflexivity.
Qed.

(** X10 (the proportional close).  The close for a withdrawal writes
    nothing and places at most one order.  A partial close is placed only
    with the size [usdc_amount * leverage] and only when a position of the
    configured market is strictly larger; the answer is [False] exactly
    when reading the positions raised, and then no order is placed. *)
Theorem close_proportional_position_orders (usdc_amount : Q) (p : t)
  (w : W) :
  let out := _close_proportional_position gw settings usdc_amount p w in
  self out = p /\
  (List.length (filter (fun e => match e with
                                 | ClosePosition _ => true
                                 | _ => false
                                 end) (evs out)) <= 1)%nat /\
  (forall sz, In (ClosePosition (Some sz)) (evs out) ->
     sz = usdc_amount * leverage settings /\
     exists ps pos,
       fst (gw_get_positions gw w) = Returned ps /\ In pos ps /\
       market pos = settings_market settings /\
       sz < Qabs (size pos)) /\
  (val out = false <-> fst (gw_get_positions gw w) = Raised) /\
  (fst (gw_get_positions gw w) = Raised -> evs out = [GetPositions]).
Proof.
  unfold _close_proportional_position. run.
  destruct (gw_get_positions gw w) as [[|ps] w1]; simpl.
  { split; [reflexivity|]. split; [lia|]. split.
    - intros sz [H|[]]. discriminate H.
    - split; [split; reflexivity|reflexivity]. }
  destruct ps as [|pos0 rest]; simpl.
  { split; [reflexivity|]. split; [lia|]. split.
    - intros sz [H|[]]. discriminate H.
    - split; [split; discriminate|discriminate]. }
  destruct (find (fun p0 => String.eqb (market p0)
                              (settings_market settings))
              (pos0 :: rest)) as [pos|] eqn:Ef; simpl.
  2: { split; [reflexivity|]. split; [lia|]. split.
       - intros sz [H|[]]. discriminate H.
       - split; [split; discriminate|discriminate]. }
  apply find_some in Ef as [Hin Hm]. apply String.eqb_eq in Hm.
  destruct (ltb (usdc_amount * leverage settings) (Qabs (size pos)))
    eqn:El; simpl.
  - apply ltb_lt in El.
    destruct (gw_close_position gw
                (Some (usdc_amount * leverage settings)) w1)
      as [a w2]; simpl.
    split; [reflexivity|]. split; [lia|]. split.
    + intros sz [H|[H|[]]]; [discriminate H|].
      injection H as <-. split; [reflexivity|].
      exists (pos0 :: rest), pos. repeat split; assumption.
    + split; [split; discriminate|discriminate].
  - destruct (gw_close_position gw None w1) as [a w2]; simpl.
    split; [reflexivity|]. split; [lia|]. split.
    + intros sz [H|[H|[]]]; discriminate H.
    + split; [split; discriminate|discriminate].
Qed.

End WithdrawalMore.

(** The request 0 of the scenario is COMPLETED: the scan only reads it. *)
Lemma scan_withdrawal_decision_witness :
  evs (WithdrawalProcessor.scan_withdrawal Sim.gw default_settings 0
         WithdrawalProcessor.init Scenario.withdrawal_queue) =
    [CallContract "get_pending_withdrawal" [0%Z]].
Proof.
  apply (proj2 (scan_withdrawal_decision Sim.gw default_settings 0
                  WithdrawalProcessor.init Scenario.withdrawal_queue)).
  intros (item & H & Hs & _).
  cbv in H. injection H as H. subst item. discriminate Hs.
Defined.

(** A ledger that does not answer the preview: the start stops there. *)
Lemma start_processing_without_value_witness :
  evs (WithdrawalProcessor._start_processing Sim.gw default_settings
         Scenario.request WithdrawalProcessor.init Sim.quiet) =
    [LogStartProcessing 2; CallContract "preview_redeem" [1000%Z]].
Proof.
  assert (H : val (WithdrawalProcessor._calculate_usdc_value Sim.gw
                     (WithdrawalProcessor.shares Scenario.request)
                     WithdrawalProcessor.init Sim.quiet) <= 0)
    by (vm_compute; discriminate).
  exact (proj1 (start_processing_without_value Sim.gw default_settings
                  Scenario.request WithdrawalProcessor.init Sim.quiet H)).
Defined.

(** A short of 0.8 and a withdrawal of 0.1 at leverage 2: the partial
    close is of 0.2. *)
Lemma close_proportional_position_orders_witness :
  0.1 * leverage default_settings < Qabs 0.8.
Proof.
  assert (Hin : In (ClosePosition (Some (0.1 * leverage default_settings)))
                  (evs (WithdrawalProcessor._close_proportional_position
                          Sim.gw default_settings 0.1
                          WithdrawalProcessor.init Scenario.underhedged))).
  { right. left. reflexivity. }
  destruct (close_proportional_position_orders Sim.gw default_settings 0.1
              WithdrawalProcessor.init Scenario.underhedged)
    as (_ & _ & H & _).
  destruct (H _ Hin) as (_ & ps & pos & Hps & Hpos & _ & Hlt).
  injection Hps as <-. destruct Hpos as [<-|[]]. exact Hlt.
Defined.

(** ** Withdrawal processor: the entries between two ticks *)

Section WithdrawalEntries.
Import WithdrawalProcessor.
Context {W : Type}.
Variable gw : Gateways W.
Variable settings : Settings.
Variable good : entry -> Prop.

Lemma forall_dict_set (k : nat) (v : entry) (d : Dict.t entry) :
  good v ->
  Forall (fun kv => good (snd kv)) d ->
  Forall (fun kv => good (snd kv)) (Dict.set k v d).
Proof.
  intros Hv. induction 1 as [|[k' v'] rest Hh Ht IH]; simpl.
  - constructor; [exact Hv|constructor].
  - destruct (Nat.eqb k k').
    + constructor; [exact Hv|exact Ht].
    + constructor; [exact Hh|exact IH].
Qed.

Lemma forall_dict_del (k : nat) (d : Dict.t entry) :
  Forall (fun kv => good (snd kv)) d ->
  Forall (fun kv => good (snd kv)) (Dict.del k d).
Proof.
  unfold Dict.del. induction 1 as [|[k' v'] rest Hh Ht IH]; simpl.
  - constructor.
  - destruct (Nat.eqb k k'); simpl; [exact IH|].
    constructor; [exact Hh|exact IH].
Qed.

Lemma forall_dict_dels (ks : list nat) :
  forall d : Dict.t entry,
    Forall (fun kv => good (snd kv)) d ->
    Forall (fun kv => good (snd kv))
      (fold_left (fun d k => Dict.del k d) ks d).
Proof.
  induction ks as [|k rest IH]; intros d H; simpl.
  - exact H.
  - apply IH. apply forall_dict_del. exact H.
Qed.

Lemma dict_set_set (k : nat) (v v' : entry) (d : Dict.t entry) :
  Dict.set k v' (Dict.set k v d) = Dict.set k v' d.
Proof.
  induction d as [|[k0 v0] rest IH]; simpl.
  - rewrite Nat.eqb_refl. reflexivity.
  - destruct (Nat.eqb k k0) eqn:E; simpl.
    + rewrite Nat.eqb_refl. reflexivity.
    + rewrite E, IH. reflexivity.
Qed.

Lemma dict_del_set (k : nat) (v : entry) (d : Dict.t entry) :
  Dict.del k (Dict.set k v d) = Dict.del k d.
Proof.
  unfold Dict.del. induction d as [|[k0 v0] rest IH]; simpl.
  - rewrite Nat.eqb_refl. reflexivity.
  - destruct (Nat.eqb k k0) eqn:E; simpl.
    + rewrite Nat.eqb_refl. simpl. reflexivity.
    + rewrite E. simpl. rewrite IH. reflexivity.
Qed.

End WithdrawalEntries.

Section WithdrawalInvariant.
Import WithdrawalProcessor.
Context {W : Type}.
Variable gw : Gateways W.
Variable settings : Settings.

Let waiting (kv : nat * entry) : Prop :=
  data_step (snd kv) = waiting_usdc /\ 0 < data_usdc_value (snd kv).

Lemma start_processing_entries (item : WithdrawalQueueItem) (p : t)
  (w : W) :
  Forall waiting (processing_withdrawals p) ->
  Forall waiting
    (processing_withdrawals (self (_start_processing gw settings item p w))).
Proof.
  intros H. rewrite (start_processing_run gw settings). cbv zeta.
  destruct (calculate_usdc_value_frame gw (shares item) p w) as [Hs _].
  rewrite Hs.
  set (V := val (_calculate_usdc_value gw (shares item) p w)).
  set (w1 := wld (_calculate_usdc_value gw (shares item) p w)).
  destruct (leb V 0) eqn:E; simpl; [exact H|].
  apply leb_gt in E.
  destruct (open_entry_effect gw settings item (V / 2) p w1) as [Hd _].
  set (pre := open_entry gw settings item (V / 2) p w1) in *.
  destruct (request_withdrawal_effect gw (request_id item) (V / 2)
              (self pre) (wld pre)) as [_ Hq].
  rewrite Hq, Hd, dict_get_set_same.
  destruct (truthy _).
  - rewrite dict_set_set.
    apply (forall_dict_set (fun e => data_step e = waiting_usdc /\
                                     0 < data_usdc_value e)).
    + simpl. split; [reflexivity|].
      change (V / 2) with (V * (1 # 2)). lra.
    + exact H.
  - rewrite dict_del_set.
    apply (forall_dict_del (fun e => data_step e = waiting_usdc /\
                                     0 < data_usdc_value e)).
    exact H.
Qed.

Lemma scan_loop_entries (ids : list nat) :
  forall (p : t) (w : W),
    Forall waiting (processing_withdrawals p) ->
    Forall waiting
      (processing_withdrawals
         (self (for_each ids (scan_withdrawal gw settings) p w))).
Proof.
  induction ids as [|i rest IH]; intros p w H; simpl.
  - exact H.
  - rewrite bind_self. apply IH.
    rewrite (scan_withdrawal_run gw settings). cbv zeta.
    destruct (parse_withdrawal i _) as [item|]; simpl; [|exact H].
    destruct (status item); simpl; try exact H.
    destruct (Dict.mem i (processing_withdrawals p)); simpl; [exact H|].
    apply start_processing_entries. exact H.
Qed.

Lemma tick_entries (p : t) (w : W) :
  Forall waiting (processing_withdrawals p) ->
  Forall waiting (processing_withdrawals (self (tick gw settings p w))).
Proof.
  intros H. unfold tick. rewrite bind_self.
  rewrite (check_processing_dict gw).
  apply (forall_dict_dels (fun e => data_step e = waiting_usdc /\
                                    0 < data_usdc_value e)).
  rewrite (process_pending_run gw settings). cbv zeta.
  destruct (_ =? 0)%Z; simpl; [exact H|].
  apply scan_loop_entries. exact H.
Qed.

(** X11 (entries between ticks).  From the empty processing set, after any
    number of polling ticks, every entry of the set is in the step that
    waits for the settlement and holds a positive amount: no entry is left
    in the closing step, and none without value. *)
Theorem entries_between_ticks (n : nat) (w : W) :
  Forall (fun kv => data_step (snd kv) = waiting_usdc /\
                    0 < data_usdc_value (snd kv))
    (processing_withdrawals (self (ticks gw settings n init w))).
Proof.
  change (Forall waiting
            (processing_withdrawals (self (ticks gw settings n init w)))).
  assert (G : forall (k : nat) (p : t) (w' : W),
            Forall waiting (processing_withdrawals p) ->
            Forall waiting
              (processing_withdrawals (self (ticks gw settings k p w')))).
  { induction k as [|k IH]; intros p w' H; simpl.
    - exact H.
    - rewrite bind_self. apply IH. apply tick_entries. exact H. }
  apply G. constructor.
Qed.

End WithdrawalInvariant.

(** ** Orders of a strategy pass *)

Section StrategyOrders.
Import Strategy.
Context {W S : Type}.
Variable gw : Gateways W.
Variable settings : Settings.

(** X12 (one order per pass).  A strategy pass places at most one order
    on the exchange, and the dict it returns names that order: none when
    reading the state raised or when the pass holds, an opening of the
    reported size for [OPEN_SHORT] and [REBALANCE_SHORT_UP], a full close
    for [CLOSE_POSITION], a close of the reported quantity for
    [REBALANCE_SHORT_DOWN]. *)
Theorem execute_strategy_orders (s : S) (w : W) :
  let out := execute_strategy gw settings s w in
  (List.length (orders (evs out)) <= 1)%nat /\
  match val out with
  | Raised => orders (evs out) = []
  | Returned HOLD => orders (evs out) = []
  | Returned (OPEN_SHORT size_usd _) =>
      orders (evs out) = [OpenShortPosition size_usd]
  | Returned (REBALANCE_SHORT_UP adjustment _ _) =>
      orders (evs out) = [OpenShortPosition adjustment]
  | Returned (CLOSE_POSITION _ _) =>
      orders (evs out) = [ClosePosition None]
  | Returned (REBALANCE_SHORT_DOWN _ btc_closed _ _) =>
      orders (evs out) = [ClosePosition (Some btc_closed)]
  end.
Proof.
  unfold execute_strategy, act_on, get_state, open_close_or_hold,
    bind_raise, orders.
  run.
  destruct (gw_get_funding_rate gw w) as [[|rate] w1]; simpl;
    [split; [lia|reflexivity]|].
  destruct (gw_get_short_position gw w1) as [[|pos] w2]; simpl;
    [split; [lia|reflexivity]|].
  destruct (gw_get_balance gw w2) as [bal w3]; simpl.
  destruct (gw_get_mark_price gw w3) as [[|price] w4]; simpl;
    [split; [lia|reflexivity]|].
  destruct (gw_get_vault_wbtc_held gw w4) as [held w5]; simpl.
  repeat match goal with
  | |- context [if ?b then _ else _] => destruct b; simpl
  | |- context [gw_open_short_position gw ?x ?w] =>
      destruct (gw_open_short_position gw x w) as [? ?]; simpl
  | |- context [gw_close_position gw ?x ?w] =>
      destruct (gw_close_position gw x w) as [? ?]; simpl
  | |- context [gw_get_mark_price gw ?w] =>
      destruct (gw_get_mark_price gw w) as [[|?] ?]; simpl
  end; (split; [lia|reflexivity]).
Qed.

End StrategyOrders.

(** ** The rebalancer *)

Section StrategyAnyObject.
Import Strategy.
Context {W S S' : Type}.
Variable gw : Gateways W.
Variable settings : Settings.

(** The strategy reads and writes nothing of the object it runs on. *)
Lemma get_state_any (s : S) (s' : S') (w : W) :
  val (get_state gw settings s w) = val (get_state gw settings s' w) /\
  evs (get_state gw settings s w) = evs (get_state gw settings s' w) /\
  wld (get_state gw settings s w) = wld (get_state gw settings s' w) /\
  self (get_state gw settings s w) = s.
Proof.
  unfold get_state, bind_raise. run.
  destruct (gw_get_funding_rate gw w) as [[|rate] w1]; simpl;
    [repeat split|].
  destruct (gw_get_short_position gw w1) as [[|pos] w2]; simpl;
    [repeat split|].
  destruct (gw_get_balance gw w2) as [bal w3]; simpl.
  destruct (gw_get_mark_price gw w3) as [[|price] w4]; simpl;
    [repeat split|].
  destruct (gw_get_vault_wbtc_held gw w4) as [held w5]; simpl.
  repeat split.
Qed.

Lemma execute_strategy_any (s : S) (s' : S') (w : W) :
  val (execute_strategy gw settings s w) =
    val (execute_strategy gw settings s' w) /\
  evs (execute_strategy gw settings s w) =
    evs (execute_strategy gw settings s' w) /\
  wld (execute_strategy gw settings s w) =
    wld (execute_strategy gw settings s' w).
Proof.
  unfold execute_strategy, act_on, get_state, open_close_or_hold,
    bind_raise.
  run.
  destruct (gw_get_funding_rate gw w) as [[|rate] w1]; simpl;
    [repeat split|].
  destruct (gw_get_short_position gw w1) as [[|pos] w2]; simpl;
    [repeat split|].
  destruct (gw_get_balance gw w2) as [bal w3]; simpl.
  destruct (gw_get_mark_price gw w3) as [[|price] w4]; simpl;
    [repeat split|].
  destruct (gw_get_vault_wbtc_held gw w4) as [held w5]; simpl.
  repeat match goal with
  | |- context [if ?b then _ else _] => destruct b; simpl
  | |- context [gw_open_short_position gw ?x ?w] =>
      destruct (gw_open_short_position gw x w) as [? ?]; simpl
  | |- context [gw_close_position gw ?x ?w] =>
      destruct (gw_close_position gw x w) as [? ?]; simpl
  | |- context [gw_get_mark_price gw ?w] =>
      destruct (gw_get_mark_price gw w) as [[|?] ?]; simpl
  end; repeat split.
Qed.

End StrategyAnyObject.

Section RebalancerFacts.
Import Rebalancer.
Context {W : Type}.
Variable gw : Gateways W.
Variable settings : Settings.
Variable gw_sync_vault_nav : Q -> W -> option Z * W.

(** X13 (an iteration of the rebalancer).  Whatever the strategy pass
    does, [run_once] advances the iteration counter by exactly one and
    stamps the run.  When the pass raises it answers [ERROR], keeps the
    last action and calls nothing more.  When the pass returns it records
    the action, reads the state again and, when that read succeeds, sends
    the exchange equity of that state to the vault as its NAV, whatever
    the previous value was; when the read raises no NAV is sent and the
    action is returned all the same. *)
Theorem run_once_effect (r : t) (w : W) :
  let out := run_once gw settings gw_sync_vault_nav r w in
  let pass := Strategy.execute_strategy gw settings tt
                (snd (gw_now gw w)) in
  let state := Strategy.get_state gw settings tt (wld pass) in
  iteration_count (self out) = (iteration_count r + 1)%Z /\
  last_run (self out) = Some (fst (gw_now gw w)) /\
  interval (self out) = interval r /\
  running (self out) = running r /\
  match val pass with
  | Raised =>
      val out = ERROR /\
      last_action (self out) = last_action r /\
      evs out = evs pass
  | Returned a =>
      val out = Ran a /\
      last_action (self out) = Some a /\
      evs out =
        evs pass ++ evs state ++
        match val state with
        | Raised => []
        | Returned st =>
            [InvokeContract "update_nav"
               [usdc_raw (Strategy.state_equity st); 0%Z]]
        end
  end.
Proof.
  cbv zeta. unfold run_once. run.
  destruct (gw_now gw w) as [time w1]; simpl.
  set (started := mk (interval r) (running r) (iteration_count r + 1)
                    (last_action r) (Some time)).
  destruct (execute_strategy_any gw settings started tt w1)
    as (Hv & He & Hw).
  pose proof (execute_strategy_self gw settings started w1) as Hs.
  rewrite <- Hv, <- He, <- Hw.
  destruct (Strategy.execute_strategy gw settings started w1)
    as [pv ps pw pe].
  simpl in *. subst ps. clear Hv He Hw.
  destruct pv as [|a]; simpl.
  - rewrite ?app_nil_r. repeat split; reflexivity.
  - set (recorded := mk (interval r) (running r) (iteration_count r + 1)
                       (Some a) (Some time)).
    destruct (get_state_any gw settings recorded tt pw)
      as (Gv & Ge & Gw & Gs).
    rewrite <- Gv, <- Ge.
    destruct (Strategy.get_state gw settings recorded pw)
      as [sv ss sw se].
    simpl in *. subst ss. clear Gv Ge Gw.
    destruct sv as [|st]; simpl.
    + rewrite ?app_nil_r. repeat split; reflexivity.
    + rewrite ?app_nil_r. repeat split; reflexivity.
Qed.

End RebalancerFacts.

(** ** The position manager loop *)

Section ManagerLoop.
Import PositionManager.
Context {W : Type}.
Variable gw : Gateways W.
Variable settings : Settings.

(** The health check reads and logs; it writes nothing and places no
    order. *)
Lemma check_position_health_frame (m : t) (w : W) :
  let out := _check_position_health gw settings m w in
  self out = m /\
  orders (evs out) = [] /\
  (wld out = snd (gw_get_positions gw w) \/
   wld out = snd (gw_get_funding_rate gw (snd (gw_get_positions gw w)))).
Proof.
  unfold _check_position_health, get_position_health, orders. run.
  destruct (gw_get_positions gw w) as [[|[|p ps]] w1]; simpl;
    try (repeat split; left; reflexivity).
  destruct (find _ (p :: ps)) as [btc_pos|]; simpl.
  - destruct (gw_get_funding_rate gw w1) as [rate w2]; simpl.
    repeat split. right. reflexivity.
  - repeat split. left. reflexivity.
Qed.

(** What the funding check places, and what it does to the flag. *)
Lemma check_funding_rate_orders (m : t) (w : W) :
  let out := _check_funding_rate gw m w in
  negative_funding_threshold (self out) = negative_funding_threshold m /\
  rebalance_threshold (self out) = rebalance_threshold m /\
  last_rebalance (self out) = last_rebalance m /\
  ((orders (evs out) = [] /\
    wld out = snd (gw_get_funding_rate gw w)) \/
   (orders (evs out) = [ClosePosition None] /\
    wld out = snd (gw_close_position gw None
                     (snd (gw_get_funding_rate gw w))) /\
    position_closed_due_to_funding m = false /\
    position_closed_due_to_funding (self out) = true)).
Proof.
  unfold _check_funding_rate, _close_all_positions, orders. run.
  destruct (gw_get_funding_rate gw w) as [[|rate] w1]; simpl.
  - repeat split. left. repeat split.
  - destruct (ltb rate (negative_funding_threshold m)) eqn:E;
      destruct (position_closed_due_to_funding m) eqn:F; simpl.
    + repeat split. left. repeat split.
    + destruct (gw_close_position gw None w1) as [res w2]; simpl.
      repeat split. right. repeat split.
    + repeat split. left. repeat split.
    + repeat split. left. repeat split.
Qed.

(** X14 (a tick of the position manager).  One iteration of the loop of
    the position manager places no order or exactly one full close, never
    an opening and never a partial close; it closes only with the flag
    unset and sets it then; with the flag set it places nothing.  The
    thresholds and the time of the last rebalance are not written. *)
Theorem manager_tick_orders (m : t) (w : W) :
  let out := tick gw settings m w in
  (orders (evs out) = [] \/ orders (evs out) = [ClosePosition None]) /\
  (orders (evs out) = [ClosePosition None] ->
   position_closed_due_to_funding m = false /\
   position_closed_due_to_funding (self out) = true) /\
  (position_closed_due_to_funding m = true -> orders (evs out) = []) /\
  negative_funding_threshold (self out) = negative_funding_threshold m /\
  rebalance_threshold (self out) = rebalance_threshold m /\
  last_rebalance (self out) = last_rebalance m.
Proof.
  cbv zeta. unfold tick.
  rewrite bind_self, bind_evs.
  destruct (check_position_health_frame m w) as (Hs & Ho & _).
  rewrite Hs. unfold orders in *. rewrite filter_app, Ho. simpl.
  set (w1 := wld (_check_position_health gw settings m w)).
  destruct (check_funding_rate_orders m w1)
    as (Ht & Hr & Hl & [(Hn & _)|(Hc & _ & Hf & Hf')]).
  - unfold orders in Hn. rewrite Hn.
    split; [left; reflexivity|].
    split; [discriminate|].
    split; [reflexivity|].
    repeat split; assumption.
  - unfold orders in Hc. rewrite Hc.
    split; [right; reflexivity|].
    split; [intros _; split; assumption|].
    split; [intros H; congruence|].
    repeat split; assumption.
Qed.

(** A funding check while the rate read is below the threshold, or the
    read raises. *)
Lemma check_funding_rate_below (m : t) (w : W) :
  (forall rate, fst (gw_get_funding_rate gw w) = Returned rate ->
                rate < negative_funding_threshold m) ->
  let out := _check_funding_rate gw m w in
  (orders (evs out) = [] /\
   wld out = snd (gw_get_funding_rate gw w) /\
   position_closed_due_to_funding (self out) =
     position_closed_due_to_funding m) \/
  (orders (evs out) = [ClosePosition None] /\
   wld out = snd (gw_close_position gw None
                    (snd (gw_get_funding_rate gw w))) /\
   position_closed_due_to_funding m = false /\
   position_closed_due_to_funding (self out) = true).
Proof.
  intros Hbelow.
  unfold _check_funding_rate, _close_all_positions, orders. run.
  destruct (gw_get_funding_rate gw w) as [[|rate] w1]; simpl in *.
  - left. repeat split.
  - assert (E : ltb rate (negative_funding_threshold m) = true)
      by (apply ltb_lt, Hbelow; reflexivity).
    rewrite E.
    destruct (position_closed_due_to_funding m) eqn:F; simpl.
    + left. repeat split. exact F.
    + destruct (gw_close_position gw None w1) as [res w2]; simpl.
      right. repeat split.
Qed.

Section Regime.
Variable below : W -> Prop.
Variable threshold : Q.
Hypothesis below_rate :
  forall w rate, below w ->
    fst (gw_get_funding_rate gw w) = Returned rate -> rate < threshold.
Hypothesis below_positions :
  forall w, below w -> below (snd (gw_get_positions gw w)).
Hypothesis below_funding :
  forall w, below w -> below (snd (gw_get_funding_rate gw w)).
Hypothesis below_close :
  forall w, below w -> below (snd (gw_close_position gw None w)).

Lemma tick_below (m : t) (w : W) :
  negative_funding_threshold m = threshold ->
  below w ->
  let out := tick gw settings m w in
  negative_funding_threshold (self out) = threshold /\
  below (wld out) /\
  ((orders (evs out) = [] /\
    position_closed_due_to_funding (self out) =
      position_closed_due_to_funding m) \/
   (orders (evs out) = [ClosePosition None] /\
    position_closed_due_to_funding m = false /\
    position_closed_due_to_funding (self out) = true)).
Proof.
  intros Hthr Hw. cbv zeta. unfold tick.
  rewrite bind_self, bind_evs, bind_wld.
  destruct (check_position_health_frame m w) as (Hs & Ho & Hwld).
  rewrite Hs. unfold orders in *. rewrite filter_app, Ho. simpl.
  set (w1 := wld (_check_position_health gw settings m w)) in *.
  assert (Hw1 : below w1).
  { destruct Hwld as [-> | ->].
    - apply below_positions. exact Hw.
    - apply below_funding, below_positions. exact Hw. }
  destruct (check_funding_rate_orders m w1) as (Ht & _).
  split; [congruence|].
  assert (Hb : forall rate,
            fst (gw_get_funding_rate gw w1) = Returned rate ->
            rate < negative_funding_threshold m).
  { intros rate H. rewrite Hthr. exact (below_rate w1 rate Hw1 H). }
  destruct (check_funding_rate_below m w1 Hb)
    as [(Hn & Hx & Hf)|(Hc & Hx & Hf & Hf')].
  - split.
    + rewrite Hx. apply below_funding. exact Hw1.
    + left. split; assumption.
  - split.
    + rewrite Hx. apply below_close, below_funding. exact Hw1.
    + right. repeat split; assumption.
Qed.

Lemma ticks_below (n : nat) :
  forall (m : t) (w : W),
    negative_funding_threshold m = threshold ->
    below w ->
    (position_closed_due_to_funding m = true ->
     orders (evs (ticks gw settings n m w)) = []) /\
    (List.length (orders (evs (ticks gw settings n m w))) <= 1)%nat.
Proof.
  induction n as [|n IH]; intros m w Hthr Hw; simpl.
  - split; [reflexivity|simpl; lia].
  - rewrite bind_evs. unfold orders in *. rewrite filter_app.
    destruct (tick_below m w Hthr Hw) as (Ht & Hw' & Hcase).
    destruct (IH (self (tick gw settings m w))
                (wld (tick gw settings m w)) Ht Hw') as (Hset & Hle).
    destruct Hcase as [(Hn & Hf)|(Hc & Hf & Hf')].
    + unfold orders in Hn. rewrite Hn. simpl. split.
      * intros F. apply Hset. congruence.
      * exact Hle.
    + unfold orders in Hc. rewrite Hc. rewrite (Hset Hf'). simpl. split.
      * intros F. congruence.
      * lia.
Qed.

End Regime.

(** X15 (the hedge is closed once).  Over any number of iterations of the
    loop during which every funding rate read is below the threshold of
    the manager (or the read raises), the manager places at most one
    order, and none when the flag is already set: the close is not
    repeated while the rate stays below the threshold.  The regime is a
    set of worlds closed under the calls of the loop. *)
Theorem funding_close_not_repeated (below : W -> Prop) (n : nat) (m : t)
  (w : W) :
  (forall w rate, below w ->
     fst (gw_get_funding_rate gw w) = Returned rate ->
     rate < negative_funding_threshold m) ->
  (forall w, below w -> below (snd (gw_get_positions gw w))) ->
  (forall w, below w -> below (snd (gw_get_funding_rate gw w))) ->
  (forall w, below w -> below (snd (gw_close_position gw None w))) ->
  below w ->
  (List.length (orders (evs (ticks gw settings n m w))) <= 1)%nat /\
  (position_closed_due_to_funding m = true ->
   orders (evs (ticks gw settings n m w)) = []).
Proof.
  intros H1 H2 H3 H4 Hw.
  destruct (ticks_below below (negative_funding_threshold m) H1 H2 H3 H4
              n m w eq_refl Hw) as (Hset & Hle).
  split; assumption.
Qed.

End ManagerLoop.

(** With the flag unset and a funding rate of -0.001 the tick closes. *)
Lemma manager_tick_orders_witness :
  orders (evs (PositionManager.tick Sim.gw default_settings
                 PositionManager.init (Scenario.funding (-0.001))))
    = [ClosePosition None] /\
  PositionManager.position_closed_due_to_funding
    (self (PositionManager.tick Sim.gw default_settings
             PositionManager.init (Scenario.funding (-0.001)))) = true.
Proof.
  assert (H : orders (evs (PositionManager.tick Sim.gw default_settings
                             PositionManager.init
                             (Scenario.funding (-0.001))))
              = [ClosePosition None]) by reflexivity.
  split; [exact H|].
  exact (proj2 (proj1 (proj2 (manager_tick_orders Sim.gw default_settings
                                PositionManager.init
                                (Scenario.funding (-0.001)))) H)).
Defined.

(** Five iterations at a funding rate of -0.001, from a fresh manager. *)
Lemma funding_close_not_repeated_witness :
  (List.length
     (orders (evs (PositionManager.ticks Sim.gw default_settings 5
                     PositionManager.init (Scenario.funding (-0.001)))))
   <= 1)%nat.
Proof.
  refine (proj1 (funding_close_not_repeated Sim.gw default_settings
                   (fun w => w = Scenario.funding (-0.001)) 5
                   PositionManager.init (Scenario.funding (-0.001))
                   _ _ _ _ eq_refl)).
  - intros w rate -> H. injection H as <-. reflexivity.
  - intros w ->. reflexivity.
  - intros w ->. reflexivity.
  - intros w ->. reflexivity.
Defined.

(** ** Rebalancing to a target NAV *)

Section RebalanceToNav.
Import PositionManager.
Context {W : Type}.
Variable gw : Gateways W.
Variable settings : Settings.



End RebalanceToNav.


(** ** The pending amounts of the monitor *)

Section MonitorInvariant.
Import VaultMonitor.
Context {W : Type}.
Variable gw : Gateways W.
Variable settings : Settings.

Lemma check_nonneg (m : t) (w : W) :
  0 <= pending_deposit m ->
  0 <= pending_withdrawal_amount m ->
  let out := check_for_balance_changes gw m w in
  0 <= pending_deposit (self out) /\
  0 <= pending_withdrawal_amount (self out).
Proof.
  unfold check_for_balance_changes, forward_available, classify_increase,
    _save_state.
  run.
  destruct (gw_get_usdc_balance gw w) as [cur w1]; simpl.
  destruct m as [lb pd pw rn]; simpl.
  intros Hd Hw.
  repeat (simpl; match goal with
    | |- context [Py.min ?a ?b] =>
        destruct (min_cases a b) as [[? ->]|[? ->]]
    | |- context [gw_send_usdc_to_vault gw ?a ?w'] =>
        destruct (gw_send_usdc_to_vault gw a w') as [[?|] ?]
    | |- context [ltb ?a ?b] => destruct (ltb a b) eqn:?
    end).
  all: simpl in *; order_facts; split; lra.
Qed.

Lemma run_ops_nonneg (ops : list op) :
  forall (m : t) (w : W) (c : tally),
    (forall amount, In (Expect amount) ops -> 0 <= amount) ->
    0 <= pending_deposit m ->
    0 <= pending_withdrawal_amount m ->
    0 <= pending_deposit (fst (fst (run_ops gw settings ops m w c))) /\
    0 <= pending_withdrawal_amount
           (fst (fst (run_ops gw settings ops m w c))).
Proof.
  induction ops as [|o rest IH]; intros m w c Hops Hd Hw; simpl.
  - split; assumption.
  - assert (Hrest : forall amount, In (Expect amount) rest -> 0 <= amount)
      by (intros amount Hin; apply Hops; right; exact Hin).
    destruct o as [|amount|]; apply (IH _ _ _ Hrest).
    + destruct (check_nonneg m w Hd Hw) as [B1 B2].
      unfold run_op. rewrite bind_self. exact B1.
    + destruct (check_nonneg m w Hd Hw) as [B1 B2].
      unfold run_op. rewrite bind_self. exact B2.
    + exact Hd.
    + destruct (expect_bounds m w amount) as [B1 B2].
      assert (Ha : 0 <= amount) by (apply Hops; left; reflexivity).
      change (run_op gw settings (Expect amount) m w)
        with (expect_withdrawal amount m w).
      rewrite B2. lra.
    + destruct (auto_deposit_bounds gw settings m w) as [B1 B2].
      unfold run_op. rewrite bind_self. simpl.
      destruct B1 as [-> | ->]; [exact Hd|lra].
    + destruct (auto_deposit_bounds gw settings m w) as [B1 B2].
      unfold run_op. rewrite bind_self. simpl. rewrite B2. exact Hw.
Qed.

(** X17 (the pending amounts never go negative).  From a monitor whose
    pending amounts are not negative, after any sequence of polls,
    deposit passes and registrations of amounts that are not negative,
    [pending_deposit] and [pending_withdrawal_amount] are not negative: a
    forward never takes more than is expected. *)
Theorem pending_amounts_nonnegative (ops : list op) (m : t) (w : W) :
  (forall amount, In (Expect amount) ops -> 0 <= amount) ->
  0 <= pending_deposit m ->
  0 <= pending_withdrawal_amount m ->
  let final := fst (fst (run_ops gw settings ops m w (mkTally 0 0))) in
  0 <= pending_deposit final /\ 0 <= pending_withdrawal_amount final.
Proof.
  intros Hops Hd Hw. exact (run_ops_nonneg ops m w _ Hops Hd Hw).
Qed.

(** X18 (what a poll forwards).  Every transfer to the vault a poll
    attempts is of a positive amount, not above the amount expected
    before the poll, and, when the last observed balance is not negative,
    not above the wallet reading.  A poll attempts at most two transfers,
    and the expected amount stays as it was or drops by the amount of one
    of them. *)
Theorem poll_forwards_bounded (m : t) (w : W) :
  0 <= last_balance m ->
  let out := check_for_balance_changes gw m w in
  let current := fst (gw_get_usdc_balance gw w) in
  (forall amount, In (SendUsdcToVault amount) (evs out) ->
     0 < amount /\
     amount <= pending_withdrawal_amount m /\
     amount <= current) /\
  (List.length (filter is_forward (evs out)) <= 2)%nat /\
  (pending_withdrawal_amount (self out) = pending_withdrawal_amount m \/
   exists amount,
     In (SendUsdcToVault amount) (evs out) /\
     pending_withdrawal_amount (self out) =
       pending_withdrawal_amount m - amount).
Proof.
  unfold check_for_balance_changes, forward_available, classify_increase,
    _save_state.
  run.
  destruct (gw_get_usdc_balance gw w) as [cur w1]; simpl.
  destruct m as [lb pd pw rn]; simpl.
  intros Hlb.
  repeat (simpl; match goal with
    | |- context [Py.min ?a ?b] =>
        let H := fresh "Hmin" in
        destruct (min_cases a b) as [[? H]|[? H]]; rewrite !H
    | |- context [gw_send_usdc_to_vault gw ?a ?w'] =>
        destruct (gw_send_usdc_to_vault gw a w') as [[?|] ?]
    | |- context [ltb ?a ?b] => destruct (ltb a b) eqn:?
    end).
  all: simpl in *; order_facts.
  all: split;
    [intros amount Hin;
     repeat match goal with
     | H : _ \/ _ |- _ => destruct H
     | H : False |- _ => contradiction
     | H : SendUsdcToVault _ = SendUsdcToVault _ |- _ =>
         injection H as <-
     | H : _ = SendUsdcToVault _ |- _ => discriminate H
     end; repeat split; lra
    |split; [lia|]].
  all: try (left; reflexivity).
  all: right;
    first [eexists; split; [left; reflexivity|reflexivity]
          |eexists; split; [right; left; reflexivity|reflexivity]
          |eexists; split; [right; right; left; reflexivity|reflexivity]
          |eexists; split;
             [right; right; right; left; reflexivity|reflexivity]].
Qed.

(** X19 (a deposit pass).  Below 1 pending the pass calls nothing.  From
    1 on it deposits exactly the pending amount; when the deposit fails
    the monitor is unchanged and no strategy pass runs; when it succeeds
    [pending_deposit] is reset to 0, the other amounts are kept, and the
    transaction is returned whatever the strategy pass does. *)
Theorem auto_deposit_if_pending_flow (m : t) (w : W) :
  let out := auto_deposit_if_pending gw settings m w in
  let deposit := gw_deposit_to_extended gw (pending_deposit m) w in
  (pending_deposit m < 1 ->
   evs out = [] /\ self out = m /\ val out = None) /\
  (1 <= pending_deposit m ->
   fst deposit = None ->
   evs out = [DepositToExtended (pending_deposit m)] /\
   self out = m /\ val out = None) /\
  (1 <= pending_deposit m ->
   forall tx, fst deposit = Some tx ->
   evs out =
     DepositToExtended (pending_deposit m) ::
     evs (Strategy.execute_strategy gw settings tt (snd deposit)) /\
   self out = set_pending_deposit 0 m /\
   val out = Some tx).
Proof.
  cbv zeta. unfold auto_deposit_if_pending. run.
  destruct (leb 1 (pending_deposit m)) eqn:E; simpl; order_facts.
  2: { split; [intros _; repeat split|].
       split; intros; exfalso; lra. }
  split; [intros; exfalso; lra|].
  destruct (gw_deposit_to_extended gw (pending_deposit m) w)
    as [[tx|] w1]; simpl.
  - split; [intros _ H; discriminate H|].
    intros _ tx' H. injection H as <-.
    destruct (execute_strategy_any gw settings
                (set_pending_deposit 0 m) tt w1) as (_ & He & _).
    pose proof (execute_strategy_self gw settings
                  (set_pending_deposit 0 m) w1) as Hs.
    rewrite <- He.
    destruct (Strategy.execute_strategy gw settings
                (set_pending_deposit 0 m) w1) as [a s1 w2 e].
    simpl in *. subst s1. rewrite ?app_nil_r.
    repeat split; reflexivity.
  - split; [intros _ _; repeat split|].
    intros _ tx H. discriminate H.
Qed.

End MonitorInvariant.

(** A withdrawal of 100 is registered, then a poll and a deposit pass. *)
Lemma pending_amounts_nonnegative_witness :
  0 <= VaultMonitor.pending_withdrawal_amount
         (fst (fst (VaultMonitor.run_ops Sim.gw default_settings
                      [VaultMonitor.Expect 100; VaultMonitor.Check;
                       VaultMonitor.AutoDeposit]
                      VaultMonitor.init (Scenario.wallet [60])
                      (VaultMonitor.mkTally 0 0)))).
Proof.
  refine (proj2 (pending_amounts_nonnegative Sim.gw default_settings
                   [VaultMonitor.Expect 100; VaultMonitor.Check;
                    VaultMonitor.AutoDeposit]
                   VaultMonitor.init (Scenario.wallet [60]) _ _ _)).
  - intros amount [H|[H|[H|[]]]]; try discriminate H.
    injection H as <-. vm_compute. discriminate.
  - vm_compute. discriminate.
  - vm_compute. discriminate.
Defined.

(** 100 is expected and the wallet shows 60: the 60 are forwarded. *)
Lemma poll_forwards_bounded_witness :
  0 < 60 /\
  60 <= VaultMonitor.pending_withdrawal_amount
          (VaultMonitor.set_pending_withdrawal_amount 100
             Scenario.monitor) /\
  60 <= fst (gw_get_usdc_balance Sim.gw (Scenario.wallet [60])).
Proof.
  assert (H : 0 <= VaultMonitor.last_balance
                     (VaultMonitor.set_pending_withdrawal_amount 100
                        Scenario.monitor))
    by (vm_compute; discriminate).
  apply (proj1 (poll_forwards_bounded Sim.gw
                  (VaultMonitor.set_pending_withdrawal_amount 100
                     Scenario.monitor)
                  (Scenario.wallet [60]) H) 60).
  right. left. reflexivity.
Defined.

(** 5 are pending and the deposit is accepted: 5 are deposited and
    nothing is left pending. *)
Lemma auto_deposit_if_pending_flow_witness :
  self (VaultMonitor.auto_deposit_if_pending Sim.gw default_settings
          Scenario.monitor Sim.quiet)
    = VaultMonitor.mk 100 0 0 true /\
  val (VaultMonitor.auto_deposit_if_pending Sim.gw default_settings
         Scenario.monitor Sim.quiet) = Some 3%Z.
Proof.
  assert (H : 1 <= VaultMonitor.pending_deposit Scenario.monitor)
    by (vm_compute; discriminate).
  destruct (proj2 (proj2 (auto_deposit_if_pending_flow Sim.gw
                            default_settings Scenario.monitor Sim.quiet))
              H 3%Z eq_refl) as (_ & Hs & Hv).
  split; [exact Hs|exact Hv].
Defined.

(** ** The wallet depositor *)

Section AutoDepositorFacts.
Import AutoDepositor.
Context {W : Type}.
Variable gw : Gateways W.


End AutoDepositorFacts.


(** ** Preparing a vault withdrawal *)

Section PrepareWithdrawal.
Import ExtendedClient.
Context {W : Type}.
Variable gw : Gateways W.
Variable gw_get_vault_total_usdc : W -> Q * W.
Variable gw_get_vault_total_shares : W -> Q * W.

(** X21 (an expected withdrawal is registered only on success).
    [prepare_vault_withdrawal] values the shares at their part of the
    total deposited.  It answers [Pending] exactly when the vault has
    shares, the short position can be read and the exchange answers the
    withdrawal request, made after the close of the share of the
    position, with the status [success]; it registers the amount with
    the monitor exactly then, after the request and once; in every other
    case, a vault without shares, an unreadable position, a refused
    request, the monitor is left as it was and nothing is saved.
    Without shares in the vault nothing is asked of the exchange. *)
Theorem prepare_vault_withdrawal_registers (shares_to_burn : Q)
  (m : VaultMonitor.t) (w : W) :
  let out := prepare_vault_withdrawal gw gw_get_vault_total_usdc
               gw_get_vault_total_shares shares_to_burn m w in
  let usdc := gw_get_vault_total_usdc w in
  let supply := gw_get_vault_total_shares (snd usdc) in
  let usdc_amount := shares_to_burn / fst supply * fst usdc in
  let position := gw_get_short_position gw (snd supply) in
  let closed :=
    match fst position with
    | Returned (Some pos) =>
        if ltb 0 (size pos)
        then snd (gw_close_position gw
                    (Some (shares_to_burn / fst supply * size pos))
                    (snd position))
        else snd position
    | _ => snd position
    end in
  let request := gw_withdraw_from_extended gw usdc_amount closed in
  (val out = Pending usdc_amount <->
   0 < fst supply /\
   (exists held, fst position = Returned held) /\
   fst request = Some "success"%string) /\
  (val out = Pending usdc_amount \/ val out = Error) /\
  match val out with
  | Pending amount =>
      amount = usdc_amount /\
      self out =
        VaultMonitor.set_pending_withdrawal_amount
          (VaultMonitor.pending_withdrawal_amount m + usdc_amount) m /\
      exists before,
        evs out =
          before ++
          [WithdrawFromExtended usdc_amount;
           SaveState (VaultMonitor.pending_deposit m)
             (VaultMonitor.pending_withdrawal_amount m + usdc_amount)
             (VaultMonitor.last_balance m)] /\
        filter is_exchange_withdrawal before = []
  | Error =>
      self out = m /\
      forall e, In e (evs out) ->
        match e with SaveState _ _ _ => False | _ => True end
  end /\
  (fst supply <= 0 ->
   val out = Error /\
   evs out = [CallContract "get_total_usdc_deposited" [];
              CallContract "total_supply" []]).
Proof.
  cbv zeta. split; [|split].
  { unfold prepare_vault_withdrawal, VaultMonitor.expect_withdrawal,
      VaultMonitor._save_state.
    run.
    destruct (gw_get_vault_total_usdc w) as [total_usdc w1]; simpl.
    destruct (gw_get_vault_total_shares w1) as [total_shares w2]; simpl.
    destruct (leb total_shares 0) eqn:E; simpl; order_facts.
    { split; [discriminate|]. intros (H & _). exfalso. lra. }
    destruct (gw_get_short_position gw w2) as [[|pos] w3]; simpl.
    { split; [discriminate|]. intros (_ & (held & H) & _).
      discriminate H. }
    destruct pos as [pos|]; simpl; [destruct (ltb 0 (size pos)); simpl|].
    all: match goal with
         | |- context [gw_withdraw_from_extended gw ?a ?w'] =>
             destruct (gw_withdraw_from_extended gw a w')
               as [[status|] w5]
         end; simpl.
    all: try (destruct (String.eqb_spec status "success") as [->|Hne];
              simpl).
    all: try (split; [intros _|reflexivity];
              split; [exact E|split; [eexists; reflexivity|reflexivity]]).
    all: try (split; [discriminate|]; intros (_ & _ & H);
              injection H as H; contradiction).
    all: split; [discriminate|]; intros (_ & _ & H); discriminate H. }
  { unfold prepare_vault_withdrawal, VaultMonitor.expect_withdrawal,
      VaultMonitor._save_state.
    run.
    destruct (gw_get_vault_total_usdc w) as [total_usdc w1]; simpl.
    destruct (gw_get_vault_total_shares w1) as [total_shares w2]; simpl.
    destruct (leb total_shares 0); simpl; [right; reflexivity|].
    destruct (gw_get_short_position gw w2) as [[|pos] w3]; simpl;
      [right; reflexivity|].
    destruct pos as [pos|]; simpl; [destruct (ltb 0 (size pos)); simpl|].
    all: match goal with
         | |- context [gw_withdraw_from_extended gw ?a ?w'] =>
             destruct (gw_withdraw_from_extended gw a w')
               as [[status|] w5]
         end; simpl.
    all: try (destruct (status =? "success")%string; simpl).
    all: first [left; reflexivity|right; reflexivity]. }
  unfold prepare_vault_withdrawal, VaultMonitor.expect_withdrawal,
    VaultMonitor._save_state.
  run.
  destruct (gw_get_vault_total_usdc w) as [total_usdc w1]; simpl.
  destruct (gw_get_vault_total_shares w1) as [total_shares w2]; simpl.
  destruct (leb total_shares 0) eqn:E; simpl; order_facts.
  { split; [|intros _; split; reflexivity].
    split; [reflexivity|].
    intros e [<-|[<-|[]]]; exact I. }
  destruct (gw_get_short_position gw w2) as [[|pos] w3]; simpl.
  { split; [|intros; exfalso; lra].
    split; [reflexivity|].
    intros e [<-|[<-|[<-|[]]]]; exact I. }
  set (usdc_amount := shares_to_burn / total_shares * total_usdc).
  destruct pos as [pos|]; simpl.
  - destruct (ltb 0 (size pos)); simpl.
    + destruct (gw_close_position gw _ w3) as [closed w4]; simpl.
      destruct (gw_withdraw_from_extended gw usdc_amount w4)
        as [[status|] w5]; simpl.
      * destruct (status =? "success")%string; simpl.
        -- split; [|intros; exfalso; lra].
           split; [reflexivity|]. split; [reflexivity|].
           exists [CallContract "get_total_usdc_deposited" [];
                   CallContract "total_supply" []; GetShortPosition;
                   ClosePosition
                     (Some (shares_to_burn / total_shares * size pos))].
           split; reflexivity.
        -- split; [|intros; exfalso; lra].
           split; [reflexivity|].
           intros e Hin. simpl in Hin.
           repeat (destruct Hin as [<-|Hin]; [exact I|]).
           contradiction.
      * split; [|intros; exfalso; lra].
        split; [reflexivity|].
        intros e Hin. simpl in Hin.
           repeat (destruct Hin as [<-|Hin]; [exact I|]).
           contradiction.
    + destruct (gw_withdraw_from_extended gw usdc_amount w3)
        as [[status|] w5]; simpl.
      * destruct (status =? "success")%string; simpl.
        -- split; [|intros; exfalso; lra].
           split; [reflexivity|]. split; [reflexivity|].
           exists [CallContract "get_total_usdc_deposited" [];
                   CallContract "total_supply" []; GetShortPosition].
           split; reflexivity.
        -- split; [|intros; exfalso; lra].
           split; [reflexivity|].
           intros e Hin. simpl in Hin.
           repeat (destruct Hin as [<-|Hin]; [exact I|]).
           contradiction.
      * split; [|intros; exfalso; lra].
        split; [reflexivity|].
        intros e Hin. simpl in Hin.
           repeat (destruct Hin as [<-|Hin]; [exact I|]).
           contradiction.
  - destruct (gw_withdraw_from_extended gw usdc_amount w3)
      as [[status|] w5]; simpl.
    + destruct (status =? "success")%string; simpl.
      * split; [|intros; exfalso; lra].
        split; [reflexivity|]. split; [reflexivity|].
        exists [CallContract "get_total_usdc_deposited" [];
                CallContract "total_supply" []; GetShortPosition].
        split; reflexivity.
      * split; [|intros; exfalso; lra].
        split; [reflexivity|].
        intros e Hin. simpl in Hin.
           repeat (destruct Hin as [<-|Hin]; [exact I|]).
           contradiction.
    + split; [|intros; exfalso; lra].
      split; [reflexivity|].
      intros e Hin. simpl in Hin.
           repeat (destruct Hin as [<-|Hin]; [exact I|]).
           contradiction.
Qed.

End PrepareWithdrawal.

(** 50 of 500 shares of a vault holding 1000 are valued at 100; a vault
    without shares gives an error. *)
Lemma prepare_vault_withdrawal_registers_witness :
  val (ExtendedClient.prepare_vault_withdrawal Sim.gw
         (fun w => (1000, w)) (fun w => (500, w)) 50 Scenario.monitor
         Scenario.underhedged) = ExtendedClient.Pending (50 / 500 * 1000) /\
  val (ExtendedClient.prepare_vault_withdrawal Sim.gw
         (fun w => (1000, w)) (fun w => (0, w)) 50 Scenario.monitor
         Scenario.underhedged) = ExtendedClient.Error.
Proof.
  split.
  - apply (proj2 (proj1 (prepare_vault_withdrawal_registers Sim.gw
                           (fun w => (1000, w)) (fun w => (500, w)) 50
                           Scenario.monitor Scenario.underhedged))).
    split; [reflexivity|].
    split; [eexists; reflexivity|reflexivity].
  - apply (proj2 (proj2 (proj2
             (prepare_vault_withdrawal_registers Sim.gw
                (fun w => (1000, w)) (fun w => (0, w)) 50
                Scenario.monitor Scenario.underhedged)))).
    vm_compute. discriminate.
Defined.

(** ** The loop of the monitor *)

Section MonitorLoop.
Import VaultMonitor.
Context {W : Type}.
Variable gw : Gateways W.
Variable settings : Settings.

(** A deposit pass with at least 1 pending: the pending amount is
    offered to the exchange; refused, the monitor is as it was; accepted,
    [pending_deposit] is reset. *)
Lemma auto_deposit_cases (m : t) (w : W) :
  leb 1 (pending_deposit m) = true ->
  let out := auto_deposit_if_pending gw settings m w in
  In (DepositToExtended (pending_deposit m)) (evs out) /\
  self out =
    match fst (gw_deposit_to_extended gw (pending_deposit m) w) with
    | Some _ => set_pending_deposit 0 m
    | None => m
    end.
Proof.
  intros E. cbv zeta. unfold auto_deposit_if_pending. run. rewrite E.
  destruct (gw_deposit_to_extended gw (pending_deposit m) w)
    as [[tx|] w1]; simpl.
  - pose proof (execute_strategy_self gw settings
                  (set_pending_deposit 0 m) w1) as Hs.
    destruct (Strategy.execute_strategy gw settings
                (set_pending_deposit 0 m) w1) as [a s1 w2 e].
    simpl in *. subst s1. split; [left; reflexivity|reflexivity].
  - split; [left; reflexivity|reflexivity].
Qed.

(** A poll offers nothing to the exchange. *)
Lemma check_offers_nothing (m : t) (w : W) (amount : Q) :
  ~ In (DepositToExtended amount)
      (evs (check_for_balance_changes gw m w)).
Proof.
  unfold check_for_balance_changes, forward_available, classify_increase,
    _save_state.
  run.
  destruct (gw_get_usdc_balance gw w) as [cur w1]; simpl.
  repeat (simpl; match goal with
    | |- context [gw_send_usdc_to_vault gw ?a ?w'] =>
        destruct (gw_send_usdc_to_vault gw a w') as [[?|] ?]
    | |- context [if ?b then _ else _] => destruct b
    end).
  all: simpl; intros H.
  all: repeat match goal with
       | H : _ \/ _ |- _ => destruct H
       | H : False |- _ => contradiction
       | H : _ = DepositToExtended _ |- _ => discriminate H
       end.
Qed.

(** X22 (what an iteration of the monitor leaves on disk).  An iteration
    of the monitor loop with automatic processing ends by saving exactly
    the three amounts the monitor holds at that moment.  With less than
    1 pending after the poll, nothing is offered to the exchange and the
    pending amount stays; from 1 on, the pending amount is offered, and
    it stays pending exactly when the deposit is refused: an accepted
    deposit resets it to 0.  So an iteration leaves less than 1 pending
    unless the deposit was refused. *)
Theorem monitor_iteration_saves (m : t) (w : W) :
  let out := run_monitor_iteration gw settings true m w in
  let polled := check_for_balance_changes gw m w in
  let pending := pending_deposit (self polled) in
  let answer := gw_deposit_to_extended gw pending (wld polled) in
  (exists before,
     evs out =
       before ++
       [SaveState (pending_deposit (self out))
          (pending_withdrawal_amount (self out))
          (last_balance (self out))]) /\
  (pending < 1 ->
   pending_deposit (self out) = pending /\
   forall amount, ~ In (DepositToExtended amount) (evs out)) /\
  (1 <= pending ->
   In (DepositToExtended pending) (evs out) /\
   pending_deposit (self out) =
     match fst answer with
     | Some _ => 0
     | None => pending
     end) /\
  (pending_deposit (self out) < 1 \/
   (In (DepositToExtended (pending_deposit (self out))) (evs out) /\
    fst answer = None)).
Proof.
  cbv zeta. unfold run_monitor_iteration, _save_state. run.
  pose proof (check_offers_nothing m w) as Hnone.
  destruct (check_for_balance_changes gw m w) as [cv cs cw ce]; simpl in *.
  destruct (leb 1 (pending_deposit cs)) eqn:E; simpl.
  - destruct (auto_deposit_cases cs cw E) as (Hin & Hself).
    apply leb_le in E.
    destruct (auto_deposit_if_pending gw settings cs cw)
      as [a s1 w1 e1].
    simpl in *. rewrite ?app_nil_r. subst s1.
    assert (Hin' : In (DepositToExtended (pending_deposit cs))
                     (ce ++ e1 ++
                      [SaveState
                         (pending_deposit
                            match
                              fst (gw_deposit_to_extended gw
                                     (pending_deposit cs) cw)
                            with
                            | Some _ => set_pending_deposit 0 cs
                            | None => cs
                            end)
                         (pending_withdrawal_amount
                            match
                              fst (gw_deposit_to_extended gw
                                     (pending_deposit cs) cw)
                            with
                            | Some _ => set_pending_deposit 0 cs
                            | None => cs
                            end)
                         (last_balance
                            match
                              fst (gw_deposit_to_extended gw
                                     (pending_deposit cs) cw)
                            with
                            | Some _ => set_pending_deposit 0 cs
                            | None => cs
                            end)])).
    { apply in_or_app. right. apply in_or_app. left. exact Hin. }
    split; [|split; [|split]].
    + eexists (ce ++ e1). rewrite <- app_assoc. reflexivity.
    + intros Hlt. exfalso. lra.
    + intros _. split; [exact Hin'|].
      destruct (fst (gw_deposit_to_extended gw (pending_deposit cs) cw));
        reflexivity.
    + revert Hin'.
      destruct (fst (gw_deposit_to_extended gw (pending_deposit cs) cw));
        simpl; intros Hin'.
      * left. reflexivity.
      * right. split; [exact Hin'|reflexivity].
  - apply leb_gt in E. split; [|split; [|split]].
    + exists ce. reflexivity.
    + intros _. split; [reflexivity|].
      intros amount Hin. apply in_app_or in Hin.
      destruct Hin as [Hin|[Hin|[]]].
      * exact (Hnone amount Hin).
      * discriminate Hin.
    + intros Hge. exfalso. lra.
    + left. exact E.
Qed.

(** X23 (funds present at startup).  [run_monitor] takes the first
    reading of the wallet as its baseline: with no withdrawal expected,
    a first poll that reads no more than that baseline classifies
    nothing, so funds already in the wallet when the monitor starts are
    never counted as a deposit. *)
Theorem startup_balance_not_a_deposit (m : t) (w : W) :
  pending_withdrawal_amount m == 0 ->
  let started := run_monitor_start gw m w in
  fst (gw_get_usdc_balance gw (wld started)) <=
    fst (gw_get_usdc_balance gw w) ->
  let out := check_for_balance_changes gw (self started) (wld started) in
  running (self started) = true /\
  last_balance (self started) = fst (gw_get_usdc_balance gw w) /\
  evs started = [GetUsdcBalance] /\
  val out = 0 /\
  evs out = [GetUsdcBalance] /\
  pending_deposit (self out) = pending_deposit m /\
  pending_withdrawal_amount (self out) = pending_withdrawal_amount m.
Proof.
  intros Hpw. cbv zeta.
  unfold run_monitor_start, check_for_balance_changes, forward_available.
  run.
  destruct (gw_get_usdc_balance gw w) as [initial w1]; simpl.
  destruct (gw_get_usdc_balance gw w1) as [cur w2]; simpl.
  intros Hle.
  assert (E1 : ltb 0 (pending_withdrawal_amount m) = false)
    by (apply ltb_ge; lra).
  assert (E2 : ltb initial cur = false) by (apply ltb_ge; exact Hle).
  rewrite E1. simpl. rewrite E2. simpl.
  repeat split; reflexivity.
Qed.

End MonitorLoop.

(** 5 are pending, the wallet has not moved and the deposit is accepted:
    nothing is left pending. *)
Lemma monitor_iteration_saves_witness :
  VaultMonitor.pending_deposit
    (self (VaultMonitor.run_monitor_iteration Sim.gw default_settings true
             Scenario.monitor (Scenario.wallet [100]))) = 0.
Proof.
  assert (H : 1 <= VaultMonitor.pending_deposit
                     (self (VaultMonitor.check_for_balance_changes Sim.gw
                              Scenario.monitor (Scenario.wallet [100]))))
    by (vm_compute; discriminate).
  exact (proj2 (proj1 (proj2 (proj2
           (monitor_iteration_saves Sim.gw default_settings
              Scenario.monitor (Scenario.wallet [100])))) H)).
Defined.

(** The wallet holds 50 when the monitor starts and at the first poll. *)
Lemma startup_balance_not_a_deposit_witness :
  VaultMonitor.pending_deposit
    (self (VaultMonitor.check_for_balance_changes Sim.gw
             (self (VaultMonitor.run_monitor_start Sim.gw
                      VaultMonitor.init (Scenario.wallet [50; 50])))
             (wld (VaultMonitor.run_monitor_start Sim.gw
                     VaultMonitor.init (Scenario.wallet [50; 50])))))
  = VaultMonitor.pending_deposit VaultMonitor.init.
Proof.
  assert (H1 : VaultMonitor.pending_withdrawal_amount VaultMonitor.init
               == 0) by reflexivity.
  assert (H2 : fst (gw_get_usdc_balance Sim.gw
                      (wld (VaultMonitor.run_monitor_start Sim.gw
                              VaultMonitor.init
                              (Scenario.wallet [50; 50])))) <=
               fst (gw_get_usdc_balance Sim.gw (Scenario.wallet [50; 50])))
    by (vm_compute; discriminate).
  destruct (startup_balance_not_a_deposit Sim.gw VaultMonitor.init
              (Scenario.wallet [50; 50]) H1 H2)
    as (_ & _ & _ & _ & _ & Hd & _).
  exact Hd.
Defined.
